(** * Bus tracking server: the bus controller

    A shallow embedding of [src/server/controllers/busController.ts] and the
    properties of its request handlers: vehicle registration ([createBus]),
    role-scoped field updates ([updateBus]), position reports
    ([updateBusLocation]) and the two read paths that hand positions back
    ([getBusTrackingInfo], [getBusLocations]).

    Conventions of the embedding.
    - A JavaScript [number] is a rational ([Q]).  The one arithmetic
      operation of the controller, the division [eta / 60], is the IEEE 754
      binary64 division: the exact quotient rounded to the nearest binary64
      number, ties to even ([Number_div]).  [NaN], the infinities and the
      negative zero are not modelled.
    - A Mongo [ObjectId] is its hexadecimal string, so [toString()] is the
      identity and [===] on two such strings is [String.eqb].
    - A collection is a finite map from [_id] to the document's fields; a
      document handed out by a query is the pair of its [_id] and its fields.
    - An [async] handler is a computation over the [World] (the two
      collections and the chronological log of store and oracle calls) that
      either finishes with a value or throws; [try { ... } catch] is
      [try_catch].
    - What the controller imports but does not define (the OSRM client, the
      Mongoose schema of [Bus]) is an interface: a type class.  So is the
      order in which an unsorted [Bus.find] hands out its documents. *)

From Stdlib Require Import ZArith QArith Qround Qabs Qpower Lqa Ascii String Lia.
From stdpp Require Import base option list strings gmap fin_maps.

Close Scope Q_scope.
Local Open Scope string_scope.
Local Open Scope list_scope.

(** ** Data model *)

Definition ObjectId := string.

(** A [Date], in milliseconds since the epoch. *)
Definition Time := Z.

(** [{ lat, lng }], the argument shape of the OSRM client. *)
Record LatLng := { lat : Q; lng : Q }.

(** A GeoJSON point [{ type: 'Point', coordinates: [c0, c1] }]: the
    two-element array is a pair, [coordinates[0]] its first and
    [coordinates[1]] its second component. *)
Record Point := { coordinates : Q * Q }.

Module Station.
Record t := { name : string; location : option Point }.
End Station.

(** A document of the station collection: [_id] and fields. *)
Definition StationDocument := (ObjectId * Station.t)%type.

Record Route := { stations : list ObjectId; estimatedTime : Q }.

Record Schedule := { departureTime : string; arrivalTime : string }.

Record Telemetry := { speed : option Q; heading : option Q }.

Module Bus.
Record t := {
  busNumber : string;
  routeNumber : string;
  capacity : Q;
  deviceId : string;
  route : option Route;
  schedule : Schedule;
  currentLocation : Point;
  status : string;
  isOnRoute : bool;
  currentPassengerCount : Q;
  lastUpdateTime : Time;
  currentStationId : option ObjectId;
  driverId : option ObjectId;
  trackingData : option Telemetry
}.

Definition set_location (p : Point) (now : Time) (r : option Route) (b : t) : t :=
  {| busNumber := busNumber b; routeNumber := routeNumber b;
     capacity := capacity b; deviceId := deviceId b;
     route := r; schedule := schedule b;
     currentLocation := p; status := status b;
     isOnRoute := isOnRoute b;
     currentPassengerCount := currentPassengerCount b;
     lastUpdateTime := now;
     currentStationId := currentStationId b;
     driverId := driverId b; trackingData := trackingData b |}.
End Bus.

(** JSON values of a request body. *)
#[local] Unset Elimination Schemes.
Inductive JSON :=
| JNull
| JBool (b : bool)
| JNum (q : Q)
| JStr (s : string)
| JArr (l : list JSON)
| JObj (l : list (string * JSON)).
#[local] Set Elimination Schemes.

(** The [updateData] object of [updateBus]: field path to value. *)
Abbreviation UpdateData := (gmap string JSON).

(** ** Responses *)

(** The object built as [trackingData] in [updateBusLocation]. *)
Module TrackingData.
Record t := {
  busId : ObjectId;
  location : LatLng;
  speed : option Q;
  heading : option Q;
  status : string;
  currentStation : option ObjectId;
  nextStation : option string;
  eta : option Z;
  distanceToNext : option Z
}.
End TrackingData.

(** The object built as [trackingInfo] in [getBusTrackingInfo]; the
    populated references carry station documents. *)
Module TrackingInfo.
Record t := {
  busId : ObjectId;
  busNumber : string;
  status : string;
  currentLocation : LatLng;
  currentStation : option StationDocument;
  nextStation : option string;
  eta : option Z;
  distanceToNext : option Z;
  route : option (list StationDocument * Q);
  lastUpdateTime : Time
}.
End TrackingInfo.

(** One element of the array answered by [getBusLocations]. *)
Module BusLocation.
Record t := {
  deviceId : string;
  busNumber : string;
  routeNumber : string;
  location : LatLng;
  speed : Q;
  heading : Q;
  status : string;
  lastUpdate : Time
}.
End BusLocation.

Inductive Body :=
| ErrorBody (error : string) (details : option string)
| MissingFields (error : string) (required : list string)
| BusBody (id : ObjectId) (bus : Bus.t)
| TrackingBody (t : TrackingData.t)
| TrackingInfoBody (t : TrackingInfo.t)
| LocationsBody (l : list BusLocation.t).

(** [res.status(code).json(body)]; [res.json(body)] is status 200. *)
Record Response := { statusCode : Z; body : Body }.

Definition res_status (code : Z) (b : Body) : Response :=
  {| statusCode := code; body := b |}.
Definition res_json (b : Body) : Response := res_status 200 b.

(** ** The world: collections and the log of external calls *)

Inductive Event :=
| BusFindById (id : ObjectId)
| BusFind (station : ObjectId)
| BusSave (id : ObjectId) (bus : Bus.t)
| BusFindByIdAndUpdate (id : ObjectId) (data : UpdateData)
| StationFindById (id : ObjectId)
| OSRMCalculateETA (origin destination : LatLng)
| OSRMCalculateDistance (origin destination : LatLng).

Record World := {
  buses : gmap ObjectId Bus.t;
  stationDocs : gmap ObjectId Station.t;
  log : list Event
}.

Definition emit (e : Event) (w : World) : World :=
  {| buses := buses w; stationDocs := stationDocs w; log := log w ++ [e] |}.

Definition put_bus (id : ObjectId) (b : Bus.t) (w : World) : World :=
  {| buses := <[id := b]> (buses w); stationDocs := stationDocs w; log := log w |}.

(** An oracle call is an event issued by the OSRM client. *)
Definition is_oracle_call (e : Event) : bool :=
  match e with
  | OSRMCalculateETA _ _ | OSRMCalculateDistance _ _ => true
  | _ => false
  end.

(** ** Asynchronous computations that may throw *)

Inductive Error :=
| MongoError (code : Z)
| ValidationError
| TypeError
| OSRMError.

Inductive Outcome (A : Type) :=
| Done (a : A)
| Throw (e : Error).
Arguments Done {A} a.
Arguments Throw {A} e.

Definition M (A : Type) := World → Outcome A * World.

Definition ret {A} (a : A) : M A := λ w, (Done a, w).
Definition throw {A} (e : Error) : M A := λ w, (Throw e, w).
Definition bind {A B} (m : M A) (k : A → M B) : M B :=
  λ w, match m w with
       | (Done a, w') => k a w'
       | (Throw e, w') => (Throw e, w')
       end.

Notation "'let*' x ':=' m 'in' k" := (bind m (λ x, k))
  (at level 10, x name, m at level 100, k at level 200, only parsing).
Notation "'let*' ' p ':=' m 'in' k" := (bind m (λ x, let 'p := x in k))
  (at level 10, p pattern, m at level 100, k at level 200, only parsing).

(** A request handler: the response sent and the world left behind. *)
Definition Handler := World → Response * World.

(** [try { body } catch (error) { handler }] around a whole handler. *)
Definition try_catch (m : M Response) (h : Error → M Response) : Handler :=
  λ w, match m w with
       | (Done r, w') => (r, w')
       | (Throw e, w') =>
           match h e w' with
           | (Done r, w'') => (r, w'')
           | (Throw _, w'') => (res_status 500 (ErrorBody "Internal Server Error" None), w'')
           end
       end.

(** [await Promise.all([p, q])]: both calls are issued, in order, before
    either is awaited; the join throws as soon as one of them rejected. *)
Definition Promise_all {A B} (p : M A) (q : M B) : M (A * B) :=
  λ w, let '(ra, w1) := p w in
       let '(rb, w2) := q w1 in
       match ra, rb with
       | Done a, Done b => (Done (a, b), w2)
       | Throw e, _ => (Throw e, w2)
       | Done _, Throw e => (Throw e, w2)
       end.

(** ** JavaScript helpers *)

(** [Math.round]: the nearest integer, ties towards plus infinity. *)
Definition Math_round (x : Q) : Z := Qfloor (x + (1 # 2))%Q.

(** *** Binary64 arithmetic

    A [number] is an IEEE 754 binary64 value: a multiple of a power of two
    with a significand of 53 bits.  An operator computes the exact result
    and rounds it to the nearest such value, ties to the even significand. *)

Definition pow2 (k : Z) : Q := (2 ^ k)%Q.

(** The binary exponent of a non-zero [x]: [pow2 e <= |x| < pow2 (e + 1)]. *)
Definition ilog2 (x : Q) : Z :=
  let e := (Z.log2 (Z.abs (Qnum x)) - Z.log2 (Zpos (Qden x)))%Z in
  if Qle_bool (pow2 e) (Qabs x) then e else (e - 1)%Z.

(** The nearest integer, ties to the even one. *)
Definition rne (m : Q) : Z :=
  let f := Qfloor m in
  match (m - inject_Z f ?= 1 # 2)%Q with
  | Lt => f
  | Gt => (f + 1)%Z
  | Eq => if Z.even f then f else (f + 1)%Z
  end.

(** The exponent of the unit in the last place of the binade of [x]: 52
    below the binary exponent, and never below that of the subnormals. *)
Definition ulp_exponent (x : Q) : Z := Z.max (ilog2 x - 52) (-1074).

(** Rounding to binary64 (the range is not bounded above: no overflow). *)
Definition binary64 (x : Q) : Q :=
  if Qeq_bool x 0 then 0%Q
  else (inject_Z (rne (x / pow2 (ulp_exponent x))) * pow2 (ulp_exponent x))%Q.

(** The operator [/] on two numbers. *)
Definition Number_div (x y : Q) : Q := binary64 (x / y).

(** [Array.prototype.findIndex]: first position satisfying [p], else -1. *)
Fixpoint findIndex_from {A} (p : A → bool) (l : list A) (i : Z) : Z :=
  match l with
  | [] => (-1)%Z
  | x :: l' => if p x then i else findIndex_from p l' (i + 1)%Z
  end.
Definition findIndex {A} (p : A → bool) (l : list A) : Z := findIndex_from p l 0.

(** [arr[i]] for a number [i]: [undefined] outside the array. *)
Definition array_get {A} (l : list A) (i : Z) : option A :=
  if (i <? 0)%Z then None else l !! Z.to_nat i.

(** [a.toString() === b?.toString()] on two identifiers, [b] optional. *)
Definition same_id (a : ObjectId) (b : option ObjectId) : bool :=
  match b with
  | Some b' => String.eqb a b'
  | None => false
  end.

(** [Array.prototype.includes] on strings. *)
Definition includes (l : list string) (key : string) : bool :=
  existsb (String.eqb key) l.

(** [key.startsWith(p)]. *)
Definition startsWith (key p : string) : bool := String.prefix p key.

(** [Object.keys]. *)
Definition Object_keys (o : UpdateData) : list string := (map_to_list o).*1.

(** [String.prototype.toLowerCase] on the ASCII letters. *)
Definition lower_ascii (c : Ascii.ascii) : Ascii.ascii :=
  let n := Ascii.nat_of_ascii c in
  if (65 <=? n)%nat && (n <=? 90)%nat then Ascii.ascii_of_nat (n + 32) else c.
Fixpoint toLowerCase (s : string) : string :=
  match s with
  | EmptyString => EmptyString
  | String c s' => String (lower_ascii c) (toLowerCase s')
  end.

(** Truthiness of an optional string and of an optional number. *)
Definition truthy_string (o : option string) : bool :=
  match o with
  | Some s => negb (String.eqb s "")
  | None => false
  end.
Definition truthy_number (o : option Q) : bool :=
  match o with
  | Some q => negb (Qeq_bool q 0)
  | None => false
  end.

(** [x || d] on an optional string and on an optional number. *)
Definition string_or (o : option string) (d : string) : string :=
  match o with
  | Some s => if String.eqb s "" then d else s
  | None => d
  end.
Definition number_or (o : option Q) (d : Q) : Q :=
  match o with
  | Some q => if Qeq_bool q 0 then d else q
  | None => d
  end.

(** ** Interfaces imported by the controller *)

(** [OSRMService] of [../services/osrmService]: how each of the two
    queries settles for a given origin and destination, in seconds and in
    metres. [Throw] is a rejected promise. *)
Class OSRMService := {
  eta_response : LatLng → LatLng → Outcome Q;
  distance_response : LatLng → LatLng → Outcome Q
}.

(** The Mongoose model [Bus] of [../models]: the validators run by
    [save()], and the document that [findByIdAndUpdate] with
    [runValidators: true] leaves for an update object ([None] when casting
    or a validator rejects the update). *)
Class BusModel := {
  validate : Bus.t → bool;
  applyUpdate : Bus.t → UpdateData → option Bus.t
}.

(** [Date.prototype.toISOString]. *)
Class DateFormat := { toISOString : Time → string }.

(** The order in which [Bus.find(query)] hands out the documents that
    match: no query of the controller has a [sort], so the order is the
    store's own.  Whatever it is, every matching document comes once. *)
Class FindOrder := {
  natural_order : list (ObjectId * Bus.t) → list (ObjectId * Bus.t);
  natural_order_perm : ∀ found, natural_order found ≡ₚ found
}.

(** ** Requests *)

(** [req.user], as the authentication middleware leaves it. *)
Record User := { role : string; stationId : option ObjectId }.

(** [createBus]: the destructured [req.body]. *)
Module CreateBody.
Record t := {
  busNumber : option string;
  routeNumber : option string;
  capacity : option Q;
  deviceId : option string;
  route : option Route;
  schedule : option Schedule;
  status : option string
}.
End CreateBody.

(** [updateBus]: [req.params.id], [req.body] and [req.user]. *)
Module UpdateRequest.
Record t := { id : ObjectId; body : UpdateData; user : option User }.
End UpdateRequest.

(** [updateBusLocation]: [req.params.id] and the destructured [req.body]. *)
Module LocationRequest.
Record t := {
  id : ObjectId;
  lat : Q;
  lng : Q;
  speed : option Q;
  heading : option Q
}.
End LocationRequest.

(** ** Store and oracle calls *)

Section Controller.
Context {osrm : OSRMService} {model : BusModel} {dates : DateFormat}
        {order : FindOrder}.

Definition Bus_findById (id : ObjectId) : M (option Bus.t) :=
  λ w, (Done (buses w !! id), emit (BusFindById id) w).

Definition Station_findById (id : ObjectId) : M (option StationDocument) :=
  λ w, (Done ((λ s, (id, s)) <$> stationDocs w !! id), emit (StationFindById id) w).

(** [bus.save()] on a document read from the collection. *)
Definition Bus_save (id : ObjectId) (bus : Bus.t) : M unit :=
  λ w, let w' := emit (BusSave id bus) w in
       if validate bus then (Done (), put_bus id bus w')
       else (Throw ValidationError, w').

(** [new Bus(...).save()]: validators first, then the insertion, which
    the unique indexes on [busNumber] and [deviceId] reject with the
    duplicate-key error 11000 (the two indexes are the ones the handler's
    own error message names). *)
Definition duplicate_key (id : ObjectId) (bus : Bus.t) (w : World) : bool :=
  bool_decide (is_Some (buses w !! id))
  || existsb (λ '(_, b), String.eqb (Bus.busNumber b) (Bus.busNumber bus)
                         || String.eqb (Bus.deviceId b) (Bus.deviceId bus))
             (map_to_list (buses w)).

Definition Bus_insert (id : ObjectId) (bus : Bus.t) : M unit :=
  λ w, let w' := emit (BusSave id bus) w in
       if negb (validate bus) then (Throw ValidationError, w')
       else if duplicate_key id bus w then (Throw (MongoError 11000), w')
       else (Done (), put_bus id bus w').

(** [Bus.findByIdAndUpdate(id, data, { new: true, runValidators: true })]. *)
Definition Bus_findByIdAndUpdate (id : ObjectId) (data : UpdateData)
  : M (option Bus.t) :=
  λ w, let w' := emit (BusFindByIdAndUpdate id data) w in
       match buses w !! id with
       | None => (Done None, w')
       | Some bus =>
           match applyUpdate bus data with
           | Some bus' => (Done (Some bus'), put_bus id bus' w')
           | None => (Throw ValidationError, w')
           end
       end.

(** [populate] of an array of station references: the documents found,
    in order; references to missing documents are left out. *)
Definition populate (w : World) (ids : list ObjectId) : list StationDocument :=
  omap (λ i, (λ s, (i, s)) <$> stationDocs w !! i) ids.

(** [Bus.findById(id).populate('route.stations')]: the bus and its
    populated route. *)
Definition Bus_findById_populate_route (id : ObjectId)
  : M (option (Bus.t * option (list StationDocument))) :=
  λ w, (Done ((λ bus, (bus, (λ r, populate w (stations r)) <$> Bus.route bus))
                <$> buses w !! id),
        emit (BusFindById id) w).

(** [Bus.find({ 'route.stations': stationId,
                status: { $in: ['ACTIVE', 'INACTIVE'] } })]: the matching
    documents, in the store's order. *)
Definition Bus_find_at_station (stationId : ObjectId) : M (list (ObjectId * Bus.t)) :=
  λ w, (Done (natural_order
                (List.filter
                   (λ '(_, bus),
                      match Bus.route bus with
                      | Some r => includes (stations r) stationId
                      | None => false
                      end && includes ["ACTIVE"; "INACTIVE"] (Bus.status bus))
                   (map_to_list (buses w)))),
        emit (BusFind stationId) w).

Definition OSRMService_calculateETA (origin destination : LatLng) : M Q :=
  λ w, (eta_response origin destination,
        emit (OSRMCalculateETA origin destination) w).

Definition OSRMService_calculateDistance (origin destination : LatLng) : M Q :=
  λ w, (distance_response origin destination,
        emit (OSRMCalculateDistance origin destination) w).

(** ** [createBus] *)

Definition default_route : Route := {| stations := []; estimatedTime := 0 |}.

Definition default_schedule (now : Time) : Schedule :=
  {| departureTime := toISOString now; arrivalTime := toISOString now |}.

(** The document [new Bus({ ... })] of lines 40-61. *)
Definition new_bus (now : Time) (busNumber routeNumber : string) (capacity : Q)
    (deviceId : string) (b : CreateBody.t) : Bus.t :=
  {| Bus.busNumber := busNumber;
     Bus.routeNumber := routeNumber;
     Bus.capacity := capacity;
     Bus.deviceId := deviceId;
     Bus.route := Some (default default_route (CreateBody.route b));
     Bus.schedule := default (default_schedule now) (CreateBody.schedule b);
     Bus.currentLocation := {| coordinates := (0, 0)%Q |};
     Bus.status := string_or (CreateBody.status b) "INACTIVE";
     Bus.isOnRoute := false;
     Bus.currentPassengerCount := 0;
     Bus.lastUpdateTime := now;
     Bus.currentStationId := None;
     Bus.driverId := None;
     Bus.trackingData := None |}.

Definition missing_fields : Response :=
  res_status 400 (MissingFields "Missing required fields"
                    ["busNumber"; "routeNumber"; "capacity"; "deviceId"]).

(** [newId] is the [_id] that [new Bus] generates, [now] the clock. *)
Definition createBus (newId : ObjectId) (now : Time) (b : CreateBody.t) : Handler :=
  try_catch
    (if negb (truthy_string (CreateBody.busNumber b))
        || negb (truthy_string (CreateBody.routeNumber b))
        || negb (truthy_number (CreateBody.capacity b))
        || negb (truthy_string (CreateBody.deviceId b))
     then ret missing_fields
     else
       match CreateBody.busNumber b, CreateBody.routeNumber b,
             CreateBody.capacity b, CreateBody.deviceId b with
       | Some busNumber, Some routeNumber, Some capacity, Some deviceId =>
           let bus := new_bus now busNumber routeNumber capacity deviceId b in
           let* _ := Bus_insert newId bus in
           ret (res_status 201 (BusBody newId bus))
       | _, _, _, _ => ret missing_fields
       end)
    (λ error,
       match error with
       | MongoError 11000 =>
           ret (res_status 400
                  (ErrorBody "Bus number or device ID already exists" None))
       | _ => ret (res_status 400 (ErrorBody "Failed to create bus" None))
       end).

(** ** [updateBus] *)

Definition allowedFields : list string :=
  ["status"; "schedule"; "route.estimatedTime"].

(** The condition of line 127. *)
Definition allowed_key (key : string) : bool :=
  includes allowedFields key
  || startsWith key "schedule."
  || startsWith key "route.".

(** Lines 126-131: [Object.keys(updateData).reduce(..., {})], where
    [acc[key] = updateData[key]] copies the property. *)
Definition filteredUpdateData (updateData : UpdateData) : UpdateData :=
  foldl (λ acc key,
           if allowed_key key
           then partial_alter (λ _, updateData !! key) key acc
           else acc)
        ∅ (Object_keys updateData).

Definition station_admin_unassigned : Response :=
  res_status 403
    (ErrorBody "Station admin not associated with any station"
       (Some "Please contact the main administrator to assign you to a station")).
Definition bus_not_found : Response :=
  res_status 404 (ErrorBody "Bus not found" None).
Definition not_authorized : Response :=
  res_status 403
    (ErrorBody "Not authorized to update this bus"
       (Some "This bus is not assigned to your station")).

(** Lines 92-134: the station-admin gate. [inl] is an early [return] with
    a response, [inr] the update data that goes on to the store. *)
Definition authorize (id : ObjectId) (updateData : UpdateData) (user : User)
  : M (Response + UpdateData) :=
  if String.eqb (role user) "STATION_ADMIN" then
    match stationId user with
    | None => ret (inl station_admin_unassigned)
    | Some stationId =>
        let* bus := Bus_findById_populate_route id in
        match bus with
        | None => ret (inl bus_not_found)
        | Some (_, route_stations) =>
            if match route_stations with
               | None => true
               | Some docs =>
                   negb (existsb (λ station, String.eqb (fst station) stationId) docs)
               end
            then ret (inl not_authorized)
            else ret (inr (filteredUpdateData updateData))
        end
    end
  else ret (inr updateData).

Definition updateBus (req : UpdateRequest.t) : Handler :=
  try_catch
    (let id := UpdateRequest.id req in
     let updateData := UpdateRequest.body req in
     match UpdateRequest.user req with
     | None => throw TypeError
     | Some user =>
         let* checked := authorize id updateData user in
         match checked with
         | inl response => ret response
         | inr updateData =>
             let* updatedBus := Bus_findByIdAndUpdate id updateData in
             match updatedBus with
             | None => ret bus_not_found
             | Some bus => ret (res_json (BusBody id bus))
             end
         end
     end)
    (λ _, ret (res_status 400 (ErrorBody "Failed to update bus" None))).

Definition update_rejected : Response :=
  res_status 400 (ErrorBody "Failed to update bus" None).

(** Lines 136-148 and the [catch]: what the store's answer to
    [findByIdAndUpdate(id, data)] makes the handler respond. *)
Definition write_back (id : ObjectId) (data : UpdateData) (w : World)
  : Response * World :=
  let w' := emit (BusFindByIdAndUpdate id data) w in
  match buses w !! id with
  | None => (bus_not_found, w')
  | Some bus =>
      match applyUpdate bus data with
      | Some bus' => (res_json (BusBody id bus'), put_bus id bus' w')
      | None => (update_rejected, w')
      end
  end.

(** ** [updateBusLocation] *)

(** Lines 217-219, on the stored references. *)
Definition currentStationIndex (bus : Bus.t) : Z :=
  match Bus.route bus with
  | Some r => findIndex (λ station, same_id station (Bus.currentStationId bus))
                (stations r)
  | None => (-1)%Z
  end.

(** Line 220. *)
Definition nextStationId (bus : Bus.t) : option ObjectId :=
  if (0 <=? currentStationIndex bus)%Z
  then r ← Bus.route bus; array_get (stations r) (currentStationIndex bus + 1)
  else None.

(** [{ lat: p.coordinates[1], lng: p.coordinates[0] }]. *)
Definition point_latlng (p : Point) : LatLng :=
  {| lat := snd (coordinates p); lng := fst (coordinates p) |}.

Definition with_estimatedTime (minutes : Z) (r : Route) : Route :=
  {| stations := stations r; estimatedTime := inject_Z minutes |}.

Definition updateBusLocation (now : Time) (req : LocationRequest.t) : Handler :=
  try_catch
    (let id := LocationRequest.id req in
     let lat := LocationRequest.lat req in
     let lng := LocationRequest.lng req in
     let* bus := Bus_findById id in
     match bus with
     | None => ret bus_not_found
     | Some bus =>
         let trackingData :=
           {| TrackingData.busId := id;
              TrackingData.location := {| lat := lat; lng := lng |};
              TrackingData.speed := LocationRequest.speed req;
              TrackingData.heading := LocationRequest.heading req;
              TrackingData.status := Bus.status bus;
              TrackingData.currentStation := Bus.currentStationId bus;
              TrackingData.nextStation := None;
              TrackingData.eta := None;
              TrackingData.distanceToNext := None |} in
         let* trackingData :=
           match nextStationId bus with
           | None => ret trackingData
           | Some nextStationId =>
               let* nextStationDoc := Station_findById nextStationId in
               match nextStationDoc with
               | Some (nextId, {| Station.location := Some nextLocation |}) =>
                   let* '(eta, distance) :=
                     Promise_all
                       (OSRMService_calculateETA
                          {| lat := lat; lng := lng |} (point_latlng nextLocation))
                       (OSRMService_calculateDistance
                          {| lat := lat; lng := lng |} (point_latlng nextLocation)) in
                   let bus' :=
                     Bus.set_location {| coordinates := (lng, lat) |} now
                       (with_estimatedTime (Math_round (Number_div eta 60)) <$> Bus.route bus)
                       bus in
                   let* _ := Bus_save id bus' in
                   ret {| TrackingData.busId := id;
                          TrackingData.location := {| lat := lat; lng := lng |};
                          TrackingData.speed := LocationRequest.speed req;
                          TrackingData.heading := LocationRequest.heading req;
                          TrackingData.status := Bus.status bus;
                          TrackingData.currentStation := Bus.currentStationId bus;
                          TrackingData.nextStation := Some nextId;
                          TrackingData.eta := Some (Math_round (Number_div eta 60));
                          TrackingData.distanceToNext := Some (Math_round distance) |}
               | _ => ret trackingData
               end
           end in
         ret (res_json (TrackingBody trackingData))
     end)
    (λ _, ret (res_status 400 (ErrorBody "Failed to update bus location" None))).

(** Named parts of the handler, for the statements below. *)

(** The snapshot of a pass that found no next stop. *)
Definition bare_snapshot (req : LocationRequest.t) (bus : Bus.t) : TrackingData.t :=
  {| TrackingData.busId := LocationRequest.id req;
     TrackingData.location :=
       {| lat := LocationRequest.lat req; lng := LocationRequest.lng req |};
     TrackingData.speed := LocationRequest.speed req;
     TrackingData.heading := LocationRequest.heading req;
     TrackingData.status := Bus.status bus;
     TrackingData.currentStation := Bus.currentStationId bus;
     TrackingData.nextStation := None;
     TrackingData.eta := None;
     TrackingData.distanceToNext := None |}.

(** The position of a report, as handed to the oracle. *)
Definition reported (req : LocationRequest.t) : LatLng :=
  {| lat := LocationRequest.lat req; lng := LocationRequest.lng req |}.

(** The document that the estimating pass saves. *)
Definition located_bus (now : Time) (req : LocationRequest.t) (eta : Q)
    (bus : Bus.t) : Bus.t :=
  Bus.set_location
    {| coordinates := (LocationRequest.lng req, LocationRequest.lat req) |} now
    (with_estimatedTime (Math_round (Number_div eta 60)) <$> Bus.route bus) bus.

Definition update_failed : Response :=
  res_status 400 (ErrorBody "Failed to update bus location" None).

(** The valid range of a coordinate pair: latitude within 90 degrees of
    the equator, longitude within 180 degrees of the prime meridian. No
    handler tests it. *)
Definition in_range (p : LatLng) : Prop :=
  (-90 <= lat p)%Q ∧ (lat p <= 90)%Q ∧ (-180 <= lng p)%Q ∧ (lng p <= 180)%Q.

(** ** [getBusTrackingInfo] *)

(** [Bus.findById(id).populate('currentStationId', ...)
      .populate('route.stations', ...)]: the bus, its populated current
    station ([null] when the reference is unset or dangling) and its
    populated route. *)
Definition Bus_findById_populated (id : ObjectId)
  : M (option (Bus.t * option StationDocument * option (list StationDocument * Q))) :=
  λ w, (Done ((λ bus,
                 (bus,
                  i ← Bus.currentStationId bus;
                    (λ s, (i, s)) <$> stationDocs w !! i,
                  (λ r, (populate w (stations r), estimatedTime r)) <$> Bus.route bus))
                <$> buses w !! id),
        emit (BusFindById id) w).

Definition getBusTrackingInfo (id : ObjectId) : Handler :=
  try_catch
    (let* found := Bus_findById_populated id in
     match found with
     | None => ret bus_not_found
     | Some (bus, currentStation, route) =>
         let currentStationIndex :=
           match route with
           | Some (docs, _) =>
               findIndex (λ station, same_id (fst station) (fst <$> currentStation)) docs
           | None => (-1)%Z
           end in
         let nextStationId :=
           if (0 <=? currentStationIndex)%Z
           then '(docs, _) ← route; array_get docs (currentStationIndex + 1)
           else None in
         let trackingInfo :=
           {| TrackingInfo.busId := id;
              TrackingInfo.busNumber := Bus.busNumber bus;
              TrackingInfo.status := Bus.status bus;
              TrackingInfo.currentLocation :=
                {| lat := snd (coordinates (Bus.currentLocation bus));
                   lng := fst (coordinates (Bus.currentLocation bus)) |};
              TrackingInfo.currentStation := currentStation;
              TrackingInfo.nextStation := None;
              TrackingInfo.eta := None;
              TrackingInfo.distanceToNext := None;
              TrackingInfo.route := route;
              TrackingInfo.lastUpdateTime := Bus.lastUpdateTime bus |} in
         let* trackingInfo :=
           match nextStationId with
           | None => ret trackingInfo
           | Some next =>
               let* nextStationDoc := Station_findById (fst next) in
               match nextStationDoc with
               | Some (nextId, {| Station.location := Some nextLocation |}) =>
                   let* '(eta, distance) :=
                     Promise_all
                       (OSRMService_calculateETA
                          (point_latlng (Bus.currentLocation bus))
                          (point_latlng nextLocation))
                       (OSRMService_calculateDistance
                          (point_latlng (Bus.currentLocation bus))
                          (point_latlng nextLocation)) in
                   ret {| TrackingInfo.busId := id;
                          TrackingInfo.busNumber := Bus.busNumber bus;
                          TrackingInfo.status := Bus.status bus;
                          TrackingInfo.currentLocation :=
                            {| lat := snd (coordinates (Bus.currentLocation bus));
                               lng := fst (coordinates (Bus.currentLocation bus)) |};
                          TrackingInfo.currentStation := currentStation;
                          TrackingInfo.nextStation := Some nextId;
                          TrackingInfo.eta := Some (Math_round (Number_div eta 60));
                          TrackingInfo.distanceToNext := Some (Math_round distance);
                          TrackingInfo.route := route;
                          TrackingInfo.lastUpdateTime := Bus.lastUpdateTime bus |}
               | _ => ret trackingInfo
               end
           end in
         ret (res_json (TrackingInfoBody trackingInfo))
     end)
    (λ _, ret (res_status 400 (ErrorBody "Failed to fetch bus tracking info" None))).

Definition fetch_failed : Response :=
  res_status 400 (ErrorBody "Failed to fetch bus tracking info" None).

(** ** [getBusLocations] *)

(** Lines 423-435: one array element per bus found. *)
Definition bus_location (bus : Bus.t) : BusLocation.t :=
  {| BusLocation.deviceId := Bus.deviceId bus;
     BusLocation.busNumber := Bus.busNumber bus;
     BusLocation.routeNumber := Bus.routeNumber bus;
     BusLocation.location :=
       {| lat := snd (coordinates (Bus.currentLocation bus));
          lng := fst (coordinates (Bus.currentLocation bus)) |};
     BusLocation.speed := number_or (t ← Bus.trackingData bus; speed t) 0;
     BusLocation.heading := number_or (t ← Bus.trackingData bus; heading t) 0;
     BusLocation.status := toLowerCase (Bus.status bus);
     BusLocation.lastUpdate := Bus.lastUpdateTime bus |}.

Definition getBusLocations (user : option User) : Handler :=
  try_catch
    (match user with
     | None => throw TypeError
     | Some user =>
         match stationId user with
         | None =>
             ret (res_status 403
                    (ErrorBody "Not authorized to access bus locations" None))
         | Some stationId =>
             let* buses := Bus_find_at_station stationId in
             let locations := map (λ '(_, bus), bus_location bus) buses in
             ret (res_json (LocationsBody locations))
         end
     end)
    (λ _, ret (res_status 500 (ErrorBody "Failed to fetch bus locations" None))).

End Controller.

(** ** Named outcomes of a position report *)

(** The snapshot of the estimating pass (lines 267-272). *)
Definition estimate_snapshot (req : LocationRequest.t) (bus : Bus.t)
    (next : ObjectId) (seconds metres : Q) : TrackingData.t :=
  {| TrackingData.busId := LocationRequest.id req;
     TrackingData.location := reported req;
     TrackingData.speed := LocationRequest.speed req;
     TrackingData.heading := LocationRequest.heading req;
     TrackingData.status := Bus.status bus;
     TrackingData.currentStation := Bus.currentStationId bus;
     TrackingData.nextStation := Some next;
     TrackingData.eta := Some (Math_round (Number_div seconds 60));
     TrackingData.distanceToNext := Some (Math_round metres) |}.

(** The world once the vehicle, the next station and the oracle were asked. *)
Definition asked_world (req : LocationRequest.t) (next : ObjectId) (loc : Point)
    (w : World) : World :=
  emit (OSRMCalculateDistance (reported req) (point_latlng loc))
    (emit (OSRMCalculateETA (reported req) (point_latlng loc))
       (emit (StationFindById next) (emit (BusFindById (LocationRequest.id req)) w))).

(** The fields of a vehicle that no position report writes. *)
Definition same_assignment (a b : Bus.t) : Prop :=
  Bus.busNumber a = Bus.busNumber b
  ∧ Bus.routeNumber a = Bus.routeNumber b
  ∧ Bus.capacity a = Bus.capacity b
  ∧ Bus.deviceId a = Bus.deviceId b
  ∧ stations <$> Bus.route a = stations <$> Bus.route b
  ∧ Bus.schedule a = Bus.schedule b
  ∧ Bus.status a = Bus.status b
  ∧ Bus.isOnRoute a = Bus.isOnRoute b
  ∧ Bus.currentPassengerCount a = Bus.currentPassengerCount b
  ∧ Bus.currentStationId a = Bus.currentStationId b
  ∧ Bus.driverId a = Bus.driverId b
  ∧ Bus.trackingData a = Bus.trackingData b.

(** ** The remaining handlers

    [deleteBus], [getBuses], [getBusById], [calculateRoute], [assignDriver]
    and [getStationBuses]. Their answers have shapes of their own, so they
    reply with a [Reply]; an answer that one of the handlers above also
    gives is its [Body], embedded by [Plain]. Store calls for which [Event]
    has no constructor (the deletion, the queries by filter, the OSRM route
    query) leave the log as it is. *)

(** What [populate('driverId', 'firstName lastName')] reads from the user
    collection of [../models]: first and last name by [_id]. *)
Class DriverDirectory := { driver_name : ObjectId → option (string * string) }.

(** One element of [route.routes], the answer of the OSRM route query. *)
Module OSRMRoute.
Record t := { distance : Q; duration : Q; geometry : JSON }.
End OSRMRoute.

(** [OSRMService.calculateRoute]: how the route query settles, as the
    array [routes] of its answer. *)
Class OSRMRouting := {
  route_response : LatLng → LatLng → Outcome (list OSRMRoute.t)
}.

(** [UserRole.STATION_ADMIN] of [../models]. *)
Class UserRoles := { UserRole_STATION_ADMIN : string }.

(** [error.message] of a caught error. *)
Class ErrorMessages := { error_message : Error → string }.

(** A bus document with [driverId] and [currentStationId] populated
    ([null] for an unset or dangling reference). *)
Module BusView.
Record t := {
  id : ObjectId;
  bus : Bus.t;
  driver : option (ObjectId * (string * string));
  currentStation : option (ObjectId * string)
}.
End BusView.

(** ... and with [route.stations] populated as well. *)
Module BusDetail.
Record t := {
  view : BusView.t;
  stations : option (list StationDocument)
}.
End BusDetail.

Inductive Payload :=
| Plain (b : Body)
| Message (message : string)
| BusViews (l : list BusView.t)
| BusDetails (l : list BusDetail.t)
| OneBus (d : BusDetail.t)
| RouteSummary (distance duration : Q) (geometry : JSON).

Record Reply := { replyStatus : Z; payload : Payload }.

Definition reply_status (code : Z) (p : Payload) : Reply :=
  {| replyStatus := code; payload := p |}.
Definition reply_json (p : Payload) : Reply := reply_status 200 p.
Definition reply_error (code : Z) (error : string) : Reply :=
  reply_status code (Plain (ErrorBody error None)).

Definition Endpoint := World → Reply * World.

(** [try { body } catch (error) { res.status(..).json(..) }]. *)
Definition attempt (m : M Reply) (h : Error → Reply) : Endpoint :=
  λ w, match m w with
       | (Done r, w') => (r, w')
       | (Throw e, w') => (h e, w')
       end.

(** [req.query.x], when truthy, constrains the field to equal it. *)
Definition query_matches (wanted : option string) (field : string) : bool :=
  match wanted with
  | Some s => if String.eqb s "" then true else String.eqb field s
  | None => true
  end.

Section MoreHandlers.
Context {directory : DriverDirectory} {routing : OSRMRouting}
        {roles : UserRoles} {messages : ErrorMessages} {order : FindOrder}.

(** [Bus.findByIdAndDelete(id)]: the document removed, if there was one. *)
Definition Bus_findByIdAndDelete (id : ObjectId) : M (option Bus.t) :=
  λ w, (Done (buses w !! id),
        {| buses := delete id (buses w); stationDocs := stationDocs w;
           log := log w |}).

(** [Bus.find(query)] for a query that is a condition on the document:
    the matching documents, in the store's order. *)
Definition Bus_find (condition : Bus.t → bool) : M (list (ObjectId * Bus.t)) :=
  λ w, (Done (natural_order
                (List.filter (λ '(_, bus), condition bus) (map_to_list (buses w)))),
        w).

(** [findByIdAndUpdate(id, { driverId }, { new: true })] for a driver id
    carried by the body: the one path is set, no validator runs. *)
Definition with_driver (driverId : ObjectId) (b : Bus.t) : Bus.t :=
  {| Bus.busNumber := Bus.busNumber b; Bus.routeNumber := Bus.routeNumber b;
     Bus.capacity := Bus.capacity b; Bus.deviceId := Bus.deviceId b;
     Bus.route := Bus.route b; Bus.schedule := Bus.schedule b;
     Bus.currentLocation := Bus.currentLocation b; Bus.status := Bus.status b;
     Bus.isOnRoute := Bus.isOnRoute b;
     Bus.currentPassengerCount := Bus.currentPassengerCount b;
     Bus.lastUpdateTime := Bus.lastUpdateTime b;
     Bus.currentStationId := Bus.currentStationId b;
     Bus.driverId := Some driverId; Bus.trackingData := Bus.trackingData b |}.

Definition Bus_setDriver (id driverId : ObjectId) : M (option Bus.t) :=
  λ w, let w' := emit (BusFindByIdAndUpdate id {["driverId" := JStr driverId]}) w in
       match buses w !! id with
       | None => (Done None, w')
       | Some bus => (Done (Some (with_driver driverId bus)),
                      put_bus id (with_driver driverId bus) w')
       end.

(** [.populate('driverId', 'firstName lastName')
      .populate('currentStationId', 'name')] on one document. *)
Definition bus_view (w : World) (id : ObjectId) (bus : Bus.t) : BusView.t :=
  {| BusView.id := id;
     BusView.bus := bus;
     BusView.driver :=
       d ← Bus.driverId bus; (λ n, (d, n)) <$> driver_name d;
     BusView.currentStation :=
       i ← Bus.currentStationId bus;
       (λ s, (i, Station.name s)) <$> stationDocs w !! i |}.

(** ... followed by [.populate('route.stations', 'name location')]. *)
Definition bus_detail (w : World) (id : ObjectId) (bus : Bus.t) : BusDetail.t :=
  {| BusDetail.view := bus_view w id bus;
     BusDetail.stations := (λ r, populate w (stations r)) <$> Bus.route bus |}.

(** *** [deleteBus] *)

Definition deleteBus (id : ObjectId) : Endpoint :=
  attempt
    (let* bus := Bus_findByIdAndDelete id in
     match bus with
     | None => ret (reply_error 404 "Bus not found")
     | Some _ => ret (reply_json (Message "Bus deleted successfully"))
     end)
    (λ _, reply_error 400 "Failed to delete bus").

(** *** [getBuses] *)

(** [status] and [routeNumber] are the two query parameters. *)
Definition getBuses (status routeNumber : option string) : Endpoint :=
  attempt
    (let* buses :=
       Bus_find (λ bus, query_matches status (Bus.status bus)
                        && query_matches routeNumber (Bus.routeNumber bus)) in
     λ w, ret (reply_json (BusViews (map (λ '(id, bus), bus_view w id bus) buses))) w)
    (λ _, reply_error 400 "Failed to fetch buses").

(** *** [getBusById] *)

Definition getBusById (id : ObjectId) : Endpoint :=
  attempt
    (let* bus := Bus_findById id in
     match bus with
     | None => ret (reply_error 404 "Bus not found")
     | Some bus => λ w, ret (reply_json (OneBus (bus_detail w id bus))) w
     end)
    (λ _, reply_error 400 "Failed to fetch bus").

(** *** [calculateRoute] *)

(** [s.location.coordinates]: a [TypeError] when the station has no
    location. *)
Definition station_coordinates (s : StationDocument) : M LatLng :=
  match Station.location (snd s) with
  | Some p => ret (point_latlng p)
  | None => throw TypeError
  end.

Definition OSRMService_calculateRoute (origin destination : LatLng)
  : M (list OSRMRoute.t) :=
  λ w, (route_response origin destination, w).

Definition calculateRoute (startStationId endStationId : ObjectId) : Endpoint :=
  attempt
    (let* startStation := Station_findById startStationId in
     let* endStation := Station_findById endStationId in
     match startStation, endStation with
     | Some startStation, Some endStation =>
         let* origin := station_coordinates startStation in
         let* destination := station_coordinates endStation in
         let* routes := OSRMService_calculateRoute origin destination in
         match routes with
         | first :: _ =>
             ret (reply_json (RouteSummary (OSRMRoute.distance first)
                                (OSRMRoute.duration first)
                                (OSRMRoute.geometry first)))
         | [] => throw TypeError
         end
     | _, _ => ret (reply_error 404 "Station not found")
     end)
    (λ _, reply_error 400 "Failed to calculate route").

(** *** [assignDriver] *)

Definition assignDriver (id driverId : ObjectId) : Endpoint :=
  attempt
    (let* bus := Bus_setDriver id driverId in
     match bus with
     | None => ret (reply_error 404 "Bus not found")
     | Some bus => ret (reply_json (Plain (BusBody id bus)))
     end)
    (λ _, reply_error 400 "Failed to assign driver").

(** *** [getStationBuses] *)

Definition serves (stationId : ObjectId) (bus : Bus.t) : bool :=
  match Bus.route bus with
  | Some r => includes (stations r) stationId
  | None => false
  end.

Definition getStationBuses (user : option User) : Endpoint :=
  attempt
    (match user with
     | None =>
         ret (reply_status 401
                (Plain (ErrorBody "Authentication required"
                          (Some "No user found in request"))))
     | Some user =>
         if negb (String.eqb (role user) UserRole_STATION_ADMIN)
         then ret (reply_status 403
                     (Plain (ErrorBody "Access denied"
                               (Some "Only station admins can access this endpoint"))))
         else
           match stationId user with
           | None =>
               ret (reply_status 403
                      (Plain (ErrorBody "Not authorized to access station buses"
                                (Some "User is not associated with any station"))))
           | Some stationId =>
               let* buses := Bus_find (serves stationId) in
               λ w, ret (reply_json
                           (BusDetails (map (λ '(id, bus), bus_detail w id bus) buses))) w
           end
     end)
    (λ error,
       reply_status 400
         (Plain (ErrorBody "Failed to fetch station buses"
                   (Some (error_message error))))).

End MoreHandlers.

(** ** A concrete deployment

    The route of the worked scenarios: three stops A(0,0), B(0,1), C(0,2)
    (latitude, longitude), one vehicle on the leg after B. *)

Module Scenario.

Definition stop (name : string) (lat lng : Q) : Station.t :=
  {| Station.name := name;
     Station.location := Some {| coordinates := (lng, lat) |} |}.

Definition stops : gmap ObjectId Station.t :=
  <["stopA" := stop "A" 0 0]>
    (<["stopB" := stop "B" 0 1]> (<["stopC" := stop "C" 0 2]> ∅)).

Definition line : Route :=
  {| stations := ["stopA"; "stopB"; "stopC"]; estimatedTime := 0 |}.

Definition bus_at (current : option ObjectId) : Bus.t :=
  {| Bus.busNumber := "B-7"; Bus.routeNumber := "7"; Bus.capacity := 40;
     Bus.deviceId := "dev-7"; Bus.route := Some line;
     Bus.schedule := {| departureTime := "08:00"; arrivalTime := "09:00" |};
     Bus.currentLocation := {| coordinates := (0, 0)%Q |};
     Bus.status := "ACTIVE"; Bus.isOnRoute := true;
     Bus.currentPassengerCount := 0; Bus.lastUpdateTime := 1000%Z;
     Bus.currentStationId := current; Bus.driverId := None;
     Bus.trackingData := None |}.

Definition world (current : option ObjectId) : World :=
  {| buses := <["bus7" := bus_at current]> ∅; stationDocs := stops; log := [] |}.

Definition empty_world : World :=
  {| buses := ∅; stationDocs := stops; log := [] |}.

(** The oracle answers 300 s and 1500 m. *)
Definition osrm_up : OSRMService :=
  {| eta_response := λ _ _, Done 300%Q;
     distance_response := λ _ _, Done 1500%Q |}.

(** The duration query fails, the distance query answers 800 m. *)
Definition osrm_eta_down : OSRMService :=
  {| eta_response := λ _ _, Throw OSRMError;
     distance_response := λ _ _, Done 800%Q |}.

(** The oracle answers a duration of 10^18 s, which is a binary64 number
    (2^18 times 5^18, and 5^18 is below 2^53), and 1500 m. *)
Definition osrm_aeon : OSRMService :=
  {| eta_response := λ _ _, Done 1000000000000000000%Q;
     distance_response := λ _ _, Done 1500%Q |}.

(** A store that hands out the matching documents in the order in which
    the collection enumerates them, and one that hands them out in the
    opposite order. *)
Definition insertion_order : FindOrder :=
  {| natural_order := λ found, found;
     natural_order_perm := λ found, Permutation_refl found |}.

Definition reverse_order : FindOrder :=
  {| natural_order := @List.rev _;
     natural_order_perm := λ found, Permutation_sym (Permutation_rev found) |}.

(** A schema that accepts every document, and whose updates set the
    [status] path when it carries a string. *)
Definition lenient_model : BusModel :=
  {| validate := λ _, true;
     applyUpdate := λ bus data,
       match data !! "status" with
       | Some (JStr s) =>
           Some {| Bus.busNumber := Bus.busNumber bus;
                   Bus.routeNumber := Bus.routeNumber bus;
                   Bus.capacity := Bus.capacity bus;
                   Bus.deviceId := Bus.deviceId bus;
                   Bus.route := Bus.route bus;
                   Bus.schedule := Bus.schedule bus;
                   Bus.currentLocation := Bus.currentLocation bus;
                   Bus.status := s;
                   Bus.isOnRoute := Bus.isOnRoute bus;
                   Bus.currentPassengerCount := Bus.currentPassengerCount bus;
                   Bus.lastUpdateTime := Bus.lastUpdateTime bus;
                   Bus.currentStationId := Bus.currentStationId bus;
                   Bus.driverId := Bus.driverId bus;
                   Bus.trackingData := Bus.trackingData bus |}
       | _ => Some bus
       end |}.

Definition iso : DateFormat := {| toISOString := λ _, "1970-01-01T00:00:00.000Z" |}.

Definition report (lat lng : Q) : LocationRequest.t :=
  {| LocationRequest.id := "bus7";
     LocationRequest.lat := lat; LocationRequest.lng := lng;
     LocationRequest.speed := Some 30%Q; LocationRequest.heading := Some 90%Q |}.

Definition station_admin (s : ObjectId) : User :=
  {| role := "STATION_ADMIN"; stationId := Some s |}.

Definition system_admin : User := {| role := "SYSTEM_ADMIN"; stationId := None |}.

Definition proposal : UpdateData :=
  <["status" := JStr "ACTIVE"]>
    (<["capacity" := JNum 99]> (<["schedule.departureTime" := JStr "10:00"]> ∅)).

Definition registration : CreateBody.t :=
  {| CreateBody.busNumber := Some "B-9"; CreateBody.routeNumber := Some "9";
     CreateBody.capacity := Some 50%Q; CreateBody.deviceId := Some "dev-9";
     CreateBody.route := None; CreateBody.schedule := None;
     CreateBody.status := None |}.

(** The runs the statements below refer to: a report at (0.1, 0.2). *)
Definition leg_report : LocationRequest.t := report (1 # 10) (2 # 10).

(** ... on the leg after B, the duration query failing. *)
Definition outage_run : Response * World :=
  @updateBusLocation osrm_eta_down lenient_model 2000%Z leg_report
    (world (Some "stopB")).

(** ... from the last stop C, the oracle up. *)
Definition terminal_run : Response * World :=
  @updateBusLocation osrm_up lenient_model 2000%Z leg_report
    (world (Some "stopC")).

(** ... on the leg after B, the oracle up, and the snapshot expected. *)
Definition leg_run : Response * World :=
  @updateBusLocation osrm_up lenient_model 2000%Z leg_report
    (world (Some "stopB")).

Definition leg_snapshot : TrackingData.t :=
  {| TrackingData.busId := "bus7";
     TrackingData.location := {| lat := 1 # 10; lng := 2 # 10 |};
     TrackingData.speed := Some 30%Q;
     TrackingData.heading := Some 90%Q;
     TrackingData.status := "ACTIVE";
     TrackingData.currentStation := Some "stopB";
     TrackingData.nextStation := Some "stopC";
     TrackingData.eta := Some 5%Z;
     TrackingData.distanceToNext := Some 1500%Z |}.

(** ... on the leg after B, the oracle answering 10^18 s. *)
Definition aeon_run : Response * World :=
  @updateBusLocation osrm_aeon lenient_model 2000%Z leg_report
    (world (Some "stopB")).

(** A report far outside the coordinate range, on the leg after B. *)
Definition stray_report : LocationRequest.t := report 1000 1000.
Definition stray_run : Response * World :=
  @updateBusLocation osrm_up lenient_model 2000%Z stray_report
    (world (Some "stopB")).

(** Mutations of the vehicle proposed by three actors: the admin of a
    station that is not on the line, the admin of stop B, and a system
    administrator. *)
Definition mutation (user : User) : UpdateRequest.t :=
  {| UpdateRequest.id := "bus7"; UpdateRequest.body := proposal;
     UpdateRequest.user := Some user |}.

(** A vehicle just registered on the line, then reporting a position. *)
Definition line_registration : CreateBody.t :=
  {| CreateBody.busNumber := Some "B-9"; CreateBody.routeNumber := Some "9";
     CreateBody.capacity := Some 50%Q; CreateBody.deviceId := Some "dev-9";
     CreateBody.route := Some line; CreateBody.schedule := None;
     CreateBody.status := Some "ACTIVE" |}.

Definition registered : World :=
  snd (@createBus lenient_model iso "bus9" 1000%Z line_registration empty_world).

Definition first_report : LocationRequest.t :=
  {| LocationRequest.id := "bus9";
     LocationRequest.lat := 9 # 1; LocationRequest.lng := 38 # 1;
     LocationRequest.speed := None; LocationRequest.heading := None |}.

Definition first_run : Response * World :=
  @updateBusLocation osrm_up lenient_model 2000%Z first_report registered.

(** The collaborators of the remaining handlers: one known driver, an
    OSRM that finds one route of 2400 m and 420.5 s, the role name that
    [updateBus] spells out, and error messages. *)
Definition drivers : DriverDirectory :=
  {| driver_name := λ d, if String.eqb d "driver1" then Some ("Abebe", "Bekele") else None |}.

Definition one_route : OSRMRouting :=
  {| route_response := λ _ _,
       Done [{| OSRMRoute.distance := 2400; OSRMRoute.duration := 841 # 2;
                OSRMRoute.geometry := JStr "polyline" |}] |}.

Definition role_names : UserRoles := {| UserRole_STATION_ADMIN := "STATION_ADMIN" |}.

Definition plain_messages : ErrorMessages := {| error_message := λ _, "error" |}.

(** A second vehicle on the line, out of service, beside the first. *)
Definition spare : Bus.t :=
  {| Bus.busNumber := "B-8"; Bus.routeNumber := "7"; Bus.capacity := 40;
     Bus.deviceId := "dev-8"; Bus.route := Some line;
     Bus.schedule := {| departureTime := "08:30"; arrivalTime := "09:30" |};
     Bus.currentLocation := {| coordinates := (1, 0)%Q |};
     Bus.status := "OUT_OF_SERVICE"; Bus.isOnRoute := false;
     Bus.currentPassengerCount := 0; Bus.lastUpdateTime := 900%Z;
     Bus.currentStationId := None; Bus.driverId := None;
     Bus.trackingData := None |}.

Definition fleet : World :=
  {| buses := <["bus8" := spare]> (<["bus7" := bus_at (Some "stopB")]> ∅);
     stationDocs := stops; log := [] |}.

(** A third vehicle on the line, INACTIVE, beside the two. *)
Definition relief : Bus.t :=
  {| Bus.busNumber := "B-6"; Bus.routeNumber := "7"; Bus.capacity := 40;
     Bus.deviceId := "dev-6"; Bus.route := Some line;
     Bus.schedule := {| departureTime := "09:00"; arrivalTime := "10:00" |};
     Bus.currentLocation := {| coordinates := (2, 0)%Q |};
     Bus.status := "INACTIVE"; Bus.isOnRoute := false;
     Bus.currentPassengerCount := 0; Bus.lastUpdateTime := 950%Z;
     Bus.currentStationId := Some "stopC"; Bus.driverId := None;
     Bus.trackingData := None |}.

Definition full_fleet : World :=
  {| buses := <["bus6" := relief]> (buses fleet);
     stationDocs := stops; log := [] |}.

(** A route whose second stop has lost its station document. *)
Definition broken_line : Route :=
  {| stations := ["stopA"; "stopX"; "stopC"]; estimatedTime := 0 |}.

Definition stranded : Bus.t :=
  {| Bus.busNumber := "B-5"; Bus.routeNumber := "5"; Bus.capacity := 40;
     Bus.deviceId := "dev-5"; Bus.route := Some broken_line;
     Bus.schedule := {| departureTime := "08:00"; arrivalTime := "09:00" |};
     Bus.currentLocation := {| coordinates := (0, 0)%Q |};
     Bus.status := "ACTIVE"; Bus.isOnRoute := true;
     Bus.currentPassengerCount := 0; Bus.lastUpdateTime := 1000%Z;
     Bus.currentStationId := Some "stopA"; Bus.driverId := None;
     Bus.trackingData := None |}.

Definition broken_world : World :=
  {| buses := <["bus5" := stranded]> ∅; stationDocs := stops; log := [] |}.

Definition stranded_report : LocationRequest.t :=
  {| LocationRequest.id := "bus5";
     LocationRequest.lat := 1 # 10; LocationRequest.lng := 2 # 10;
     LocationRequest.speed := None; LocationRequest.heading := None |}.

Definition unknown_report : LocationRequest.t :=
  {| LocationRequest.id := "bus0";
     LocationRequest.lat := 1 # 10; LocationRequest.lng := 2 # 10;
     LocationRequest.speed := None; LocationRequest.heading := None |}.

(** The report on the leg after B, sent a second time at time 3000. *)
Definition leg_rerun : Response * World :=
  @updateBusLocation osrm_up lenient_model 3000%Z leg_report (snd leg_run).

Definition unassigned_admin : User := {| role := "STATION_ADMIN"; stationId := None |}.

Definition no_capacity : CreateBody.t :=
  {| CreateBody.busNumber := Some "B-9"; CreateBody.routeNumber := Some "9";
     CreateBody.capacity := Some 0%Q; CreateBody.deviceId := Some "dev-9";
     CreateBody.route := None; CreateBody.schedule := None;
     CreateBody.status := None |}.

End Scenario.

(** * Properties *)

(** ** JavaScript helpers *)

Section Helpers.

Lemma findIndex_from_none {A} (p : A → bool) (l : list A) (i : Z) :
  Forall (λ x, p x = false) l → findIndex_from p l i = (-1)%Z.
Proof.
  intros Hall. revert i.
  induction Hall as [|x l Hx _ IH]; intros i; simpl; [done|].
  by rewrite Hx, IH.
Qed.

Lemma findIndex_from_first {A} (p : A → bool) (pre : list A) (x : A)
    (post : list A) (i : Z) :
  Forall (λ y, p y = false) pre → p x = true →
  findIndex_from p (pre ++ x :: post) i = (i + Z.of_nat (length pre))%Z.
Proof.
  intros Hpre Hx. revert i.
  induction Hpre as [|y pre Hy _ IH]; intros i; simpl.
  - rewrite Hx. lia.
  - rewrite Hy, IH. lia.
Qed.

Lemma findIndex_from_range {A} (p : A → bool) (l : list A) (i : Z) :
  findIndex_from p l i = (-1)%Z
  ∨ (i ≤ findIndex_from p l i < i + Z.of_nat (length l))%Z.
Proof.
  revert i. induction l as [|x l IH]; intros i; simpl; [by left|].
  destruct (p x); [right; lia|].
  destruct (IH (i + 1)%Z) as [->|?]; [by left|right; lia].
Qed.

Lemma array_get_past_end {A} (l : list A) (i : Z) :
  (Z.of_nat (length l) ≤ i)%Z → array_get l i = None.
Proof.
  intros Hi. unfold array_get.
  destruct (i <? 0)%Z; [done|].
  apply lookup_ge_None_2. lia.
Qed.

Lemma same_id_true (a : ObjectId) (b : option ObjectId) :
  same_id a b = true ↔ b = Some a.
Proof.
  destruct b as [b|]; simpl; [|split; discriminate].
  rewrite String.eqb_eq. split; congruence.
Qed.

Lemma same_id_false (a : ObjectId) (b : option ObjectId) :
  same_id a b = false ↔ b ≠ Some a.
Proof.
  rewrite <- same_id_true. destruct (same_id a b); split; congruence.
Qed.

(** [Math.round] answers the integer nearest to its argument, the upper
    one on a tie. *)
Lemma Math_round_nearest (x : Q) :
  (inject_Z (Math_round x) - (1 # 2) <= x)%Q
  ∧ (x < inject_Z (Math_round x) + (1 # 2))%Q.
Proof.
  unfold Math_round.
  pose proof (Qfloor_le (x + (1 # 2))) as Hle.
  pose proof (Qlt_floor (x + (1 # 2))) as Hlt.
  rewrite inject_Z_plus in Hlt.
  set (n := inject_Z (Qfloor (x + (1 # 2)))) in *.
  change (inject_Z 1) with 1%Q in Hlt.
  split.
  - apply Qplus_le_l with (z := (1 # 2)%Q). ring_simplify.
    ring_simplify in Hle. exact Hle.
  - apply Qplus_lt_l with (z := (1 # 2)%Q).
    eapply Qlt_le_trans; [exact Hlt|]. ring_simplify. apply Qle_refl.
Qed.

Lemma includes_spec (l : list string) (key : string) :
  includes l key = true ↔ key ∈ l.
Proof.
  unfold includes. rewrite existsb_exists. split.
  - intros (x & Hin & Heq). apply String.eqb_eq in Heq. subst x.
    by apply list_elem_of_In.
  - intros Hin. exists key. split; [by apply list_elem_of_In|].
    apply String.eqb_refl.
Qed.

Lemma startsWith_spec (key p : string) :
  startsWith key p = true ↔ ∃ rest, key = p +:+ rest.
Proof.
  unfold startsWith. revert key.
  induction p as [|c p IH]; intros [|k key]; simpl.
  - split; [intros _; by exists ""|done].
  - split; [intros _; by exists (String k key)|done].
  - split; [done|]. intros [rest Hrest]. discriminate.
  - destruct (Ascii.ascii_dec c k) as [->|Hne].
    + rewrite IH. split; intros [rest Hrest]; exists rest.
      * by rewrite Hrest.
      * by injection Hrest.
    + split; [done|]. intros [rest Hrest]. injection Hrest as ? ?. congruence.
Qed.

End Helpers.

(** ** Binary64 division

    The facts about [binary64] that the estimates need: rounding keeps the
    sign and respects the equality of fractions, and the quotient by 60 of
    a binary64 number below 2^53 rounds to the same integer as the exact
    quotient. *)

Section Binary64.
Local Open Scope Q_scope.

Lemma pow2_pos k : 0 < pow2 k.
Proof. apply Qpower_0_lt. reflexivity. Qed.

Lemma pow2_plus a b : pow2 (a + b) == pow2 a * pow2 b.
Proof. apply Qpower_plus. discriminate. Qed.

Lemma pow2_le a b : (a <= b)%Z → pow2 a <= pow2 b.
Proof. intros. apply Qpower_le_compat_l; [done|]. discriminate. Qed.

Lemma pow2_lt_inv a b : pow2 a < pow2 b → (a < b)%Z.
Proof. intros H. apply (Qpower_lt_compat_l_inv 2); [done|reflexivity]. Qed.

Lemma pow2_nonneg_Z k : (0 <= k)%Z → pow2 k == inject_Z (2 ^ k).
Proof. intros. unfold pow2. by rewrite Zpower_Qpower. Qed.

Lemma pow2_0 : pow2 0 == 1.
Proof. reflexivity. Qed.

Lemma pow2_neg_inv k : pow2 (- k) * pow2 k == 1.
Proof. rewrite <- pow2_plus. by replace (- k + k)%Z with 0%Z by lia. Qed.


Lemma Qabs_make n d : Qabs (n # d) = (Z.abs n # d).
Proof. reflexivity. Qed.

Lemma ilog2_spec x :
  ¬ x == 0 → pow2 (ilog2 x) <= Qabs x ∧ Qabs x < pow2 (ilog2 x + 1).
Proof.
  intros Hx.
  set (N := Z.abs (Qnum x)). set (D := Zpos (Qden x)).
  assert (0 < N)%Z as HN.
  { subst N. destruct x as [n d]. unfold Qeq in Hx. simpl in *. lia. }
  assert (0 < D)%Z as HD by (subst D; lia).
  pose proof (Z.log2_spec N HN) as [Ha1 Ha2].
  pose proof (Z.log2_spec D HD) as [Hb1 Hb2].
  pose proof (Z.log2_nonneg N) as Ha0. pose proof (Z.log2_nonneg D) as Hb0.
  set (a := Z.log2 N) in *. set (b := Z.log2 D) in *.
  assert (Qabs x * inject_Z D == inject_Z N) as HX.
  { destruct x as [n d]. subst N D.
    unfold Qabs, Qeq, Qmult, inject_Z. simpl. lia. }
  assert (0 < Qabs x) as HXpos.
  { assert (0 < inject_Z N) by (change 0 with (inject_Z 0); rewrite <- Zlt_Qlt; lia).
    assert (0 < inject_Z D) by (change 0 with (inject_Z 0); rewrite <- Zlt_Qlt; lia).
    pose proof (Qabs_nonneg x). nra. }
  assert (pow2 a <= inject_Z N) as HaQ1
    by (rewrite pow2_nonneg_Z by lia; rewrite <- Zle_Qle; lia).
  assert (inject_Z N < pow2 (a + 1)) as HaQ2
    by (rewrite pow2_nonneg_Z by lia; rewrite <- Zlt_Qlt; lia).
  assert (pow2 b <= inject_Z D) as HbQ1
    by (rewrite pow2_nonneg_Z by lia; rewrite <- Zle_Qle; lia).
  assert (inject_Z D < pow2 (b + 1)) as HbQ2
    by (rewrite pow2_nonneg_Z by lia; rewrite <- Zlt_Qlt; lia).
  assert (Qabs x < pow2 (a - b + 1)) as Hup.
  { assert (pow2 (a - b + 1) * pow2 b == pow2 (a + 1)) as Hp
      by (rewrite <- pow2_plus; by replace (a - b + 1 + b)%Z with (a + 1)%Z by lia).
    pose proof (pow2_pos (a - b + 1)). pose proof (pow2_pos b).
    apply Qnot_le_lt. intros Hle. nra. }
  assert (pow2 (a - b - 1) <= Qabs x) as Hlo.
  { assert (pow2 (a - b - 1) * pow2 (b + 1) == pow2 a) as Hp
      by (rewrite <- pow2_plus; by replace (a - b - 1 + (b + 1))%Z with a by lia).
    pose proof (pow2_pos (a - b - 1)). pose proof (pow2_pos (b + 1)).
    apply Qnot_lt_le. intros Hlt. nra. }
  unfold ilog2. fold N D. fold a b.
  destruct (Qle_bool (pow2 (a - b)) (Qabs x)) eqn:Htest.
  - apply Qle_bool_iff in Htest. by split.
  - split; [done|]. replace (a - b - 1 + 1)%Z with (a - b)%Z by lia.
    apply Qnot_le_lt. intros Hle. apply Qle_bool_iff in Hle. congruence.
Qed.

Lemma Qfloor_unique x n : inject_Z n <= x → x < inject_Z n + 1 → Qfloor x = n.
Proof.
  intros Hlo Hhi.
  pose proof (Qfloor_le x) as H1. pose proof (Qlt_floor x) as H2.
  rewrite inject_Z_plus in H2. change (inject_Z 1) with 1 in H2.
  assert (inject_Z (Qfloor x) < inject_Z (n + 1)) as Ha
    by (rewrite inject_Z_plus; change (inject_Z 1) with 1; lra).
  assert (inject_Z n < inject_Z (Qfloor x + 1)) as Hb
    by (rewrite inject_Z_plus; change (inject_Z 1) with 1; lra).
  rewrite <- Zlt_Qlt in Ha, Hb. lia.
Qed.

Lemma inject_Z_sub a b : inject_Z (a - b) = inject_Z a - inject_Z b.
Proof. unfold Z.sub, Qminus. by rewrite inject_Z_plus, inject_Z_opp. Qed.

Lemma rne_ge m j : inject_Z j <= m → (j <= rne m)%Z.
Proof.
  intros Hj. apply Qfloor_resp_le in Hj. rewrite Qfloor_Z in Hj.
  unfold rne. destruct (_ ?= _); [destruct (Z.even _)| |]; lia.
Qed.

Lemma rne_lt m j : m < inject_Z j - (1 # 2) → (rne m <= j - 1)%Z.
Proof.
  intros Hj.
  pose proof (Qfloor_le m) as H1.
  assert (inject_Z (Qfloor m) < inject_Z j) as Hf by lra.
  rewrite <- Zlt_Qlt in Hf.
  unfold rne. destruct (Qcompare_spec (m - inject_Z (Qfloor m)) (1 # 2)) as [He|Hl|Hg].
  - assert (inject_Z (Qfloor m) < inject_Z (j - 1)) as Hf'.
    { rewrite inject_Z_sub. change (inject_Z 1) with 1. lra. }
    rewrite <- Zlt_Qlt in Hf'. destruct (Z.even _); lia.
  - lia.
  - assert (inject_Z (Qfloor m) < inject_Z (j - 1)) as Hf'.
    { rewrite inject_Z_sub. change (inject_Z 1) with 1. lra. }
    rewrite <- Zlt_Qlt in Hf'. lia.
Qed.

(** A number and a half, in units of [pow2 k] with [k <= -1], is whole. *)
Lemma half_integer_units n k :
  (k <= -1)%Z →
  ∃ J, (inject_Z n + (1 # 2)) == inject_Z J * pow2 k.
Proof.
  intros Hk. exists ((2 * n + 1) * 2 ^ (- k - 1))%Z.
  rewrite inject_Z_mult, inject_Z_plus, inject_Z_mult.
  rewrite <- pow2_nonneg_Z by lia.
  assert (pow2 (- k - 1) * pow2 k == 1 # 2) as Hp.
  { rewrite <- pow2_plus. by replace (- k - 1 + k)%Z with (-1)%Z by lia. }
  change (inject_Z 2) with 2. change (inject_Z 1) with 1.
  rewrite <- Qmult_assoc, Hp. field.
Qed.

Lemma Qabs_div60 s : Qabs (s / 60) * 60 == Qabs s.
Proof.
  unfold Qdiv. rewrite Qabs_Qmult. change (Qabs (/ 60)) with (/ 60). field.
Qed.

Lemma binary64_units s :
  ¬ s == 0 → binary64 s == s →
  s == inject_Z (rne (s / pow2 (ulp_exponent s))) * pow2 (ulp_exponent s).
Proof.
  intros Hs Hrep. unfold binary64 in Hrep.
  destruct (Qeq_bool s 0) eqn:Hz; [by apply Qeq_bool_iff in Hz|].
  by symmetry.
Qed.

(** Dividing a binary64 number below 2^53 in magnitude by 60 and rounding
    the binary64 quotient to the nearest integer gives the integer nearest
    to the exact quotient. *)
Lemma Math_round_div60_exact s :
  binary64 s == s → Qabs s < 9007199254740992 →
  Math_round (Number_div s 60) = Math_round (s / 60).
Proof.
  intros Hrep Hmag. unfold Number_div.
  destruct (Qeq_dec s 0) as [Hs0|Hs0].
  { assert (s / 60 == 0) as Hq0 by (rewrite Hs0; reflexivity).
    unfold binary64. rewrite (proj2 (Qeq_bool_iff _ _) Hq0).
    unfold Math_round. apply Qfloor_comp. by rewrite Hq0. }
  set (q := s / 60).
  assert (¬ q == 0) as Hq0.
  { intros Hq. apply Hs0. subst q.
    assert (s == s / 60 * 60) as -> by field. rewrite Hq. reflexivity. }
  destruct (Math_round_nearest q) as [Hlo Hhi].
  set (n := Math_round q) in *.
  destruct (ilog2_spec q Hq0) as [Hq1 Hq2].
  destruct (ilog2_spec s Hs0) as [Hs1 Hs2].
  pose proof (Qabs_div60 s) as Habs. fold q in Habs.
  assert (ilog2 s < 53)%Z as Hes.
  { apply pow2_lt_inv. assert (pow2 53 == 9007199254740992) as -> by reflexivity. lra. }
  assert (ilog2 q < ilog2 s - 4)%Z as Heq.
  { apply pow2_lt_inv.
    assert (pow2 (ilog2 s + 1) == pow2 (ilog2 s - 4) * 32) as Hp.
    { assert (32 == pow2 5) as -> by reflexivity. rewrite <- pow2_plus.
      by replace (ilog2 s - 4 + 5)%Z with (ilog2 s + 1)%Z by lia. }
    pose proof (pow2_pos (ilog2 s - 4)). lra. }
  pose proof (pow2_pos (ulp_exponent q)) as Hu.
  set (k := ulp_exponent q) in *. set (u := pow2 k) in *.
  assert (k <= -1)%Z as Hk by (subst k; unfold ulp_exponent; lia).
  (* the reported number in its own units *)
  pose proof (binary64_units s Hs0 Hrep) as Hunits.
  set (ks := ulp_exponent s) in *. set (v := pow2 ks) in *.
  set (M := rne (s / v)) in *.
  assert (ks <= 0)%Z as Hks by (subst ks; unfold ulp_exponent; lia).
  assert (0 < v) as Hv by apply pow2_pos.
  assert (q < inject_Z n + (1 # 2) - u * (1 # 2)) as Hsep.
  { assert (v <= 60 * (inject_Z n + (1 # 2)) - s) as Hgap.
    { set (W := inject_Z (2 ^ (- ks))).
      assert (W * v == 1) as HW.
      { subst W. rewrite <- pow2_nonneg_Z by lia. apply pow2_neg_inv. }
      set (I := ((60 * n + 30) * 2 ^ (- ks) - M)%Z).
      assert (60 * (inject_Z n + (1 # 2)) - s == inject_Z I * v) as HD.
      { subst I. rewrite inject_Z_sub, inject_Z_mult, inject_Z_plus, inject_Z_mult.
        change (inject_Z 60) with 60. change (inject_Z 30) with 30. fold W.
        assert (((60 * inject_Z n + 30) * W - inject_Z M) * v
                == (60 * inject_Z n + 30) * (W * v) - inject_Z M * v) as -> by ring.
        rewrite HW, <- Hunits. ring. }
      assert (0 < inject_Z I * v) as HIv.
      { rewrite <- HD. subst q. 
        assert (s == s / 60 * 60) as Hs60 by field. lra. }
      assert (0 < inject_Z I) as HI.
      { apply Qnot_le_lt. intros Hneg. nra. }
      change 0 with (inject_Z 0) in HI. rewrite <- Zlt_Qlt in HI.
      assert (1 <= inject_Z I) as HI1.
      { change 1 with (inject_Z 1). rewrite <- Zle_Qle. lia. }
      rewrite HD. nra. }
    assert (s == q * 60) as Hs60 by (subst q; field).
    unfold ulp_exponent in k.
    destruct (Z.max_spec (ilog2 q - 52) (-1074)) as [[Hc Hmax]|[Hc Hmax]].
    - (* the quotient is subnormal: it is tiny and rounds to 0 *)
      assert (k = (-1074)%Z) as Hk' by (subst k; lia).
      assert (u <= 1 # 2) as Hu2.
      { subst u. rewrite Hk'. assert ((1 # 2) == pow2 (-1)) as -> by reflexivity.
        by apply pow2_le. }
      assert (Qabs q < 1 # 4) as Hsmall.
      { assert ((1 # 4) == pow2 (-2)) as -> by reflexivity.
        eapply Qlt_le_trans; [exact Hq2|]. apply pow2_le. lia. }
      apply Qabs_Qlt_condition in Hsmall as [Hs3 Hs4].
      assert (n = 0%Z) as Hn0.
      { assert (inject_Z n < inject_Z 1) as Ha by (change (inject_Z 1) with 1; lra).
        assert (inject_Z (-1) < inject_Z n) as Hb by (change (inject_Z (-1)) with (-1 # 1); lra).
        rewrite <- Zlt_Qlt in Ha, Hb. lia. }
      rewrite Hn0. change (inject_Z 0) with 0. lra.
    - (* the quotient is normal: its unit is at most 1/32 of the dividend's *)
      assert (k = (ilog2 q - 52)%Z) as Hk' by (subst k; lia).
      assert (u * 32 <= v) as Huv.
      { subst u v. rewrite Hk'. assert (32 == pow2 5) as -> by reflexivity.
        rewrite <- pow2_plus. apply pow2_le. subst ks. unfold ulp_exponent. lia. }
      lra. }
  destruct (half_integer_units (n - 1) k Hk) as [Jlo HJlo].
  destruct (half_integer_units n k Hk) as [Jhi HJhi].
  fold u in HJlo, HJhi.
  rewrite inject_Z_sub in HJlo. change (inject_Z 1) with 1 in HJlo.
  assert (Jlo <= rne (q / u))%Z as Hrlo.
  { apply rne_ge. apply Qle_shift_div_l; [done|]. lra. }
  assert (rne (q / u) <= Jhi - 1)%Z as Hrhi.
  { apply rne_lt. apply Qlt_shift_div_r; [done|]. lra. }
  rewrite Zle_Qle in Hrlo, Hrhi. rewrite inject_Z_sub in Hrhi.
  change (inject_Z 1) with 1 in Hrhi.
  unfold binary64. destruct (Qeq_bool q 0) eqn:Hz; [by apply Qeq_bool_iff in Hz|].
  fold k. fold u. unfold Math_round at 1. apply Qfloor_unique; nra.
Qed.

Lemma binary64_nonneg x : 0 <= x → 0 <= binary64 x.
Proof.
  intros Hx. unfold binary64. destruct (Qeq_bool x 0); [done|].
  pose proof (pow2_pos (ulp_exponent x)) as Hu.
  assert (0 <= rne (x / pow2 (ulp_exponent x)))%Z as Hr.
  { apply rne_ge. apply Qle_shift_div_l; [done|]. change (inject_Z 0) with 0. lra. }
  rewrite Zle_Qle in Hr. change (inject_Z 0) with 0 in Hr.
  apply Qmult_le_0_compat; [done|]. by apply Qlt_le_weak.
Qed.

Lemma ilog2_unique x e :
  ¬ x == 0 → pow2 e <= Qabs x → Qabs x < pow2 (e + 1) → ilog2 x = e.
Proof.
  intros Hx Hlo Hhi. destruct (ilog2_spec x Hx) as [Hlo' Hhi'].
  assert (ilog2 x < e + 1)%Z by (apply pow2_lt_inv; lra).
  assert (e < ilog2 x + 1)%Z by (apply pow2_lt_inv; lra).
  lia.
Qed.

Lemma ilog2_comp x y : x == y → ¬ x == 0 → ilog2 x = ilog2 y.
Proof.
  intros Hxy Hx. symmetry.
  destruct (ilog2_spec x Hx) as [Hlo Hhi].
  apply ilog2_unique; rewrite <- ?Hxy; done.
Qed.

Lemma rne_comp x y : x == y → rne x = rne y.
Proof.
  intros Hxy. unfold rne. rewrite (Qfloor_comp x y Hxy).
  assert ((x - inject_Z (Qfloor y) ?= 1 # 2) = (y - inject_Z (Qfloor y) ?= 1 # 2)) as ->;
    [|done].
  by rewrite Hxy.
Qed.

(** Rounding respects the equality of fractions. *)
Lemma binary64_comp x y : x == y → binary64 x == binary64 y.
Proof.
  intros Hxy. unfold binary64.
  destruct (Qeq_bool x 0) eqn:Hx, (Qeq_bool y 0) eqn:Hy; [done| | |].
  - apply Qeq_bool_iff in Hx. apply Qeq_bool_neq in Hy. rewrite Hxy in Hx. done.
  - apply Qeq_bool_iff in Hy. apply Qeq_bool_neq in Hx. rewrite Hxy in Hx. done.
  - apply Qeq_bool_neq in Hx. unfold ulp_exponent.
    rewrite <- (ilog2_comp x y Hxy Hx).
    set (u := pow2 (Z.max (ilog2 x - 52) (-1074))).
    rewrite (rne_comp (x / u) (y / u)); [done|]. by rewrite Hxy.
Qed.

End Binary64.

(** ** Route progress *)

Section RouteProgress.

(** A vehicle without a current stop has no next stop. *)
Lemma nextStationId_unset (bus : Bus.t) :
  Bus.currentStationId bus = None → nextStationId bus = None.
Proof.
  intros Hcur. unfold nextStationId, currentStationIndex. rewrite Hcur.
  destruct (Bus.route bus) as [r|]; [|done].
  unfold findIndex. rewrite findIndex_from_none; [done|].
  apply Forall_forall. by intros.
Qed.

(** A current stop that is not on the route: index -1, no next stop. *)
Lemma nextStationId_stale (bus : Bus.t) (cur : ObjectId) :
  Bus.currentStationId bus = Some cur →
  (∀ r, Bus.route bus = Some r → cur ∉ stations r) →
  currentStationIndex bus = (-1)%Z ∧ nextStationId bus = None.
Proof.
  intros Hcur Hstale. unfold nextStationId, currentStationIndex. rewrite Hcur.
  destruct (Bus.route bus) as [r|]; [|done].
  unfold findIndex. rewrite findIndex_from_none; [done|].
  apply Forall_forall. intros x Hx. apply same_id_false.
  intros [= ->]. by apply (Hstale r).
Qed.

(** The current stop is the last of a route without repeated stops. *)
Lemma nextStationId_last (bus : Bus.t) (r : Route) (cur : ObjectId) :
  Bus.route bus = Some r → Bus.currentStationId bus = Some cur →
  NoDup (stations r) → last (stations r) = Some cur →
  nextStationId bus = None.
Proof.
  intros Hr Hcur Hnodup Hlast.
  apply last_Some in Hlast as [pre Hpre].
  rewrite Hpre in Hnodup. apply NoDup_app in Hnodup as (_ & Hfresh & _).
  unfold nextStationId, currentStationIndex. rewrite Hr, Hcur, Hpre. simpl.
  unfold findIndex. rewrite findIndex_from_first.
  - case_match; [|done].
    apply array_get_past_end. rewrite Hpre, length_app. simpl. lia.
  - apply Forall_forall. intros x Hx.
    apply (proj2 (same_id_false x (Some cur))).
    intros [= Heq]. apply (Hfresh x Hx). apply list_elem_of_singleton.
    congruence.
  - by apply (proj2 (same_id_true cur (Some cur))).
Qed.

End RouteProgress.

(** ** Position reports, step by step *)

Section LocationReports.
Context {osrm : OSRMService} {model : BusModel}.

Lemma updateBusLocation_unknown_bus now req w :
  buses w !! LocationRequest.id req = None →
  updateBusLocation now req w
  = (bus_not_found, emit (BusFindById (LocationRequest.id req)) w).
Proof.
  intros Hbus. unfold updateBusLocation, try_catch, bind, Bus_findById.
  simpl. by rewrite Hbus.
Qed.

Lemma updateBusLocation_no_next now req w bus :
  buses w !! LocationRequest.id req = Some bus →
  nextStationId bus = None →
  updateBusLocation now req w
  = (res_json (TrackingBody (bare_snapshot req bus)),
     emit (BusFindById (LocationRequest.id req)) w).
Proof.
  intros Hbus Hnext. unfold updateBusLocation, try_catch, bind, Bus_findById.
  simpl. by rewrite Hbus, Hnext.
Qed.

(** The next stop's document is missing, or carries no location. *)
Lemma updateBusLocation_unresolved now req w bus next :
  buses w !! LocationRequest.id req = Some bus →
  nextStationId bus = Some next →
  (∀ st, stationDocs w !! next = Some st → Station.location st = None) →
  updateBusLocation now req w
  = (res_json (TrackingBody (bare_snapshot req bus)),
     emit (StationFindById next) (emit (BusFindById (LocationRequest.id req)) w)).
Proof.
  intros Hbus Hnext Hdoc.
  unfold updateBusLocation, try_catch, bind, Bus_findById, Station_findById.
  simpl. rewrite Hbus, Hnext. simpl.
  destruct (stationDocs w !! next) as [[nm loc]|] eqn:Hst; simpl; [|done].
  specialize (Hdoc _ eq_refl). simpl in Hdoc. by subst loc.
Qed.

(** The estimating pass: both queries are issued, then joined. *)
Lemma updateBusLocation_resolved now req w bus next st loc :
  buses w !! LocationRequest.id req = Some bus →
  nextStationId bus = Some next →
  stationDocs w !! next = Some st →
  Station.location st = Some loc →
  let id := LocationRequest.id req in
  let asked :=
    emit (OSRMCalculateDistance (reported req) (point_latlng loc))
      (emit (OSRMCalculateETA (reported req) (point_latlng loc))
         (emit (StationFindById next) (emit (BusFindById id) w))) in
  updateBusLocation now req w
  = match eta_response (reported req) (point_latlng loc),
          distance_response (reported req) (point_latlng loc) with
    | Done eta, Done distance =>
        let bus' := located_bus now req eta bus in
        if validate bus'
        then (res_json (TrackingBody
                {| TrackingData.busId := id;
                   TrackingData.location := reported req;
                   TrackingData.speed := LocationRequest.speed req;
                   TrackingData.heading := LocationRequest.heading req;
                   TrackingData.status := Bus.status bus;
                   TrackingData.currentStation := Bus.currentStationId bus;
                   TrackingData.nextStation := Some next;
                   TrackingData.eta := Some (Math_round (Number_div eta 60));
                   TrackingData.distanceToNext := Some (Math_round distance) |}),
              put_bus id bus' (emit (BusSave id bus') asked))
        else (update_failed, emit (BusSave id bus') asked)
    | _, _ => (update_failed, asked)
    end.
Proof.
  intros Hbus Hnext Hst Hloc id asked. subst id asked.
  unfold updateBusLocation, try_catch, bind, Bus_findById, Station_findById,
    Promise_all, OSRMService_calculateETA, OSRMService_calculateDistance,
    Bus_save, located_bus, reported.
  simpl. rewrite Hbus, Hnext. simpl. rewrite Hst. simpl.
  destruct st as [nm l]. simpl in Hloc. subst l. simpl.
  destruct (eta_response _ _) as [eta|e1];
    [destruct (distance_response _ _) as [d|e2]|]; simpl; try done.
  by destruct (validate _).
Qed.

(** The estimating pass, when it succeeds, stores the reported position
    and the time of the update; the stored time does not go back as long
    as the clock does not. *)
Lemma updateBusLocation_records_position now req w bus next st loc seconds metres :
  buses w !! LocationRequest.id req = Some bus →
  nextStationId bus = Some next →
  stationDocs w !! next = Some st →
  Station.location st = Some loc →
  eta_response (reported req) (point_latlng loc) = Done seconds →
  distance_response (reported req) (point_latlng loc) = Done metres →
  validate (located_bus now req seconds bus) = true →
  ∃ bus',
    buses (snd (updateBusLocation now req w)) !! LocationRequest.id req = Some bus'
    ∧ Bus.currentLocation bus'
      = {| coordinates := (LocationRequest.lng req, LocationRequest.lat req) |}
    ∧ Bus.lastUpdateTime bus' = now
    ∧ ((Bus.lastUpdateTime bus ≤ now)%Z
       → (Bus.lastUpdateTime bus ≤ Bus.lastUpdateTime bus')%Z).
Proof.
  intros Hbus Hnext Hst Hloc Heta Hdist Hvalid.
  rewrite (updateBusLocation_resolved now req w bus next st loc) by done.
  rewrite Heta, Hdist. simpl. rewrite Hvalid. simpl.
  exists (located_bus now req seconds bus).
  split; [apply lookup_insert_eq|]. by repeat split.
Qed.

End LocationReports.

(** ** Position reports: the claims *)

Section LocationClaims.
Context {osrm : OSRMService} {model : BusModel}.

(** C1, as amended. When the vehicle has a next stop whose station
    document carries a location and either oracle query is rejected, both
    queries have been issued, the handler answers 400 "Failed to update
    bus location", no snapshot is returned and the vehicle collection is
    left as it was: the report is not recorded. *)
Theorem updateBusLocation_oracle_failure now req w bus next st loc :
  buses w !! LocationRequest.id req = Some bus →
  nextStationId bus = Some next →
  stationDocs w !! next = Some st →
  Station.location st = Some loc →
  (∃ e, eta_response (reported req) (point_latlng loc) = Throw e)
  ∨ (∃ e, distance_response (reported req) (point_latlng loc) = Throw e) →
  fst (updateBusLocation now req w) = update_failed
  ∧ statusCode (fst (updateBusLocation now req w)) = 400%Z
  ∧ buses (snd (updateBusLocation now req w)) = buses w
  ∧ log (snd (updateBusLocation now req w))
    = log w ++ [BusFindById (LocationRequest.id req); StationFindById next;
                OSRMCalculateETA (reported req) (point_latlng loc);
                OSRMCalculateDistance (reported req) (point_latlng loc)].
Proof.
  intros Hbus Hnext Hst Hloc Hfail.
  rewrite (updateBusLocation_resolved now req w bus next st loc) by done.
  assert (∀ A (l : list A) a b c d, ((((l ++ [a]) ++ [b]) ++ [c]) ++ [d] = l ++ [a; b; c; d])%list)
    as Hlog by (intros; by rewrite <- !app_assoc).
  destruct Hfail as [[e He]|[e He]]; rewrite He.
  - simpl. by rewrite Hlog.
  - destruct (eta_response _ _); simpl; by rewrite Hlog.
Qed.

(** C3. A vehicle whose current stop is unset, is not on its route, or is
    the last stop of its route (stop identifiers being unique within a
    route) gets the success answer 200 with [nextStation], [eta] and
    [distanceToNext] all null; the only external call of the pass is the
    lookup of the vehicle, so no oracle call is made. *)
Theorem updateBusLocation_without_next_stop now req w bus :
  buses w !! LocationRequest.id req = Some bus →
  Bus.currentStationId bus = None
  ∨ (∃ cur, Bus.currentStationId bus = Some cur
            ∧ ∀ r, Bus.route bus = Some r → cur ∉ stations r)
  ∨ (∃ cur r, Bus.currentStationId bus = Some cur
              ∧ Bus.route bus = Some r
              ∧ NoDup (stations r) ∧ last (stations r) = Some cur) →
  ∃ t calls,
    fst (updateBusLocation now req w) = res_json (TrackingBody t)
    ∧ statusCode (fst (updateBusLocation now req w)) = 200%Z
    ∧ TrackingData.nextStation t = None
    ∧ TrackingData.eta t = None
    ∧ TrackingData.distanceToNext t = None
    ∧ log (snd (updateBusLocation now req w)) = log w ++ calls
    ∧ calls = [BusFindById (LocationRequest.id req)]
    ∧ existsb is_oracle_call calls = false.
Proof.
  intros Hbus Hcase.
  assert (nextStationId bus = None) as Hnext.
  { destruct Hcase as [Hunset|[(cur & Hcur & Hstale)|(cur & r & Hcur & Hr & Hnd & Hlast)]].
    - by apply nextStationId_unset.
    - by apply (nextStationId_stale bus cur).
    - by apply (nextStationId_last bus r cur). }
  rewrite (updateBusLocation_no_next now req w bus) by done.
  exists (bare_snapshot req bus), [BusFindById (LocationRequest.id req)].
  by repeat split.
Qed.

(** C6, as amended. When the next stop resolves, both oracle queries
    succeed with [seconds] and [metres] and the save is accepted, the
    snapshot names the current and the next stop and carries [eta], the
    integer nearest to the binary64 quotient of [seconds] by 60, and
    [distanceToNext], the integer nearest to [metres] (the upper one on a
    tie).  For a duration that is a binary64 number below 2^53 in
    magnitude, [eta] is also the integer nearest to the exact quotient
    [seconds / 60]: 5 minutes for 300 seconds; and 1500 for 1500 metres. *)
Theorem updateBusLocation_estimates now req w bus next st loc seconds metres :
  buses w !! LocationRequest.id req = Some bus →
  nextStationId bus = Some next →
  stationDocs w !! next = Some st →
  Station.location st = Some loc →
  eta_response (reported req) (point_latlng loc) = Done seconds →
  distance_response (reported req) (point_latlng loc) = Done metres →
  validate (located_bus now req seconds bus) = true →
  ∃ t minutes whole,
    fst (updateBusLocation now req w) = res_json (TrackingBody t)
    ∧ TrackingData.currentStation t = Bus.currentStationId bus
    ∧ TrackingData.nextStation t = Some next
    ∧ TrackingData.eta t = Some minutes
    ∧ TrackingData.distanceToNext t = Some whole
    ∧ minutes = Math_round (Number_div seconds 60)
    ∧ whole = Math_round metres
    ∧ (inject_Z minutes - (1 # 2) <= Number_div seconds 60
       < inject_Z minutes + (1 # 2))%Q
    ∧ (inject_Z whole - (1 # 2) <= metres < inject_Z whole + (1 # 2))%Q
    ∧ ((binary64 seconds == seconds)%Q →
       (Qabs seconds < 9007199254740992)%Q →
       minutes = Math_round (seconds / 60)
       ∧ (inject_Z minutes - (1 # 2) <= seconds / 60
          < inject_Z minutes + (1 # 2))%Q)
    ∧ ((seconds == 300)%Q → minutes = 5%Z)
    ∧ ((metres == 1500)%Q → whole = 1500%Z).
Proof.
  intros Hbus Hnext Hst Hloc Heta Hdist Hvalid.
  rewrite (updateBusLocation_resolved now req w bus next st loc) by done.
  rewrite Heta, Hdist. simpl. rewrite Hvalid. simpl.
  eexists _, (Math_round (Number_div seconds 60)), (Math_round metres).
  do 7 (split; [reflexivity|]).
  split; [apply Math_round_nearest|].
  split; [apply Math_round_nearest|].
  split; [|split].
  - intros Hrep Hmag. rewrite (Math_round_div60_exact seconds Hrep Hmag).
    split; [reflexivity|apply Math_round_nearest].
  - intros Hs. unfold Number_div.
    assert (binary64 (seconds / 60) == 5)%Q as Hq.
    { rewrite (binary64_comp (seconds / 60) 5) by (by rewrite Hs).
      vm_compute. reflexivity. }
    unfold Math_round. by rewrite Hq.
  - intros Hm. unfold Math_round. by rewrite Hm.
Qed.

(** C7, as amended. The handler has no range check: for a report whose
    coordinates are out of range, as for any other, a vehicle with a next
    stop whose station document carries a location has both oracle
    queries issued with the reported coordinates as origin, right after
    the two lookups; and when both queries succeed and the save is
    accepted the answer is the success snapshot carrying those
    coordinates. *)
Theorem updateBusLocation_no_range_check now req w bus next st loc :
  ¬ in_range (reported req) →
  buses w !! LocationRequest.id req = Some bus →
  nextStationId bus = Some next →
  stationDocs w !! next = Some st →
  Station.location st = Some loc →
  (∃ rest,
     log (snd (updateBusLocation now req w))
     = log w ++ [BusFindById (LocationRequest.id req); StationFindById next;
                 OSRMCalculateETA (reported req) (point_latlng loc);
                 OSRMCalculateDistance (reported req) (point_latlng loc)]
             ++ rest)
  ∧ (∀ seconds metres,
       eta_response (reported req) (point_latlng loc) = Done seconds →
       distance_response (reported req) (point_latlng loc) = Done metres →
       validate (located_bus now req seconds bus) = true →
       ∃ t, fst (updateBusLocation now req w) = res_json (TrackingBody t)
            ∧ TrackingData.location t = reported req).
Proof.
  intros _ Hbus Hnext Hst Hloc.
  rewrite (updateBusLocation_resolved now req w bus next st loc) by done.
  assert (∀ A (l : list A) a b c d, ((((l ++ [a]) ++ [b]) ++ [c]) ++ [d] = l ++ [a; b; c; d])%list)
    as Hlog by (intros; by rewrite <- !app_assoc).
  split.
  - destruct (eta_response _ _) as [s|]; [destruct (distance_response _ _) as [m|]|].
    + simpl. destruct (validate _); simpl.
      * eexists [_]. rewrite Hlog. by rewrite <- app_assoc.
      * eexists [_]. rewrite Hlog. by rewrite <- app_assoc.
    + exists []. simpl. by rewrite Hlog.
    + exists []. simpl. by rewrite Hlog.
  - intros seconds metres -> -> Hvalid. simpl. rewrite Hvalid. simpl.
    by eexists.
Qed.

End LocationClaims.

(** ** Reading positions back *)

Section ReadPaths.
Context {osrm : OSRMService} {model : BusModel} {order : FindOrder}.

(** [getBusTrackingInfo] on a stored vehicle answers 400 only when one
    of its own oracle queries, from the stored point to the location of
    a station document, is rejected; any other answer is a tracking
    answer carrying the stored point of the vehicle, read as
    [lat = coordinates[1]], [lng = coordinates[0]]. *)
Lemma getBusTrackingInfo_location id w bus :
  buses w !! id = Some bus →
  (fst (getBusTrackingInfo id w) = fetch_failed
   ∧ ∃ stop st loc e,
       stationDocs w !! stop = Some st
       ∧ Station.location st = Some loc
       ∧ (eta_response (point_latlng (Bus.currentLocation bus)) (point_latlng loc)
          = Throw e
          ∨ distance_response (point_latlng (Bus.currentLocation bus))
              (point_latlng loc) = Throw e))
  ∨ ∃ info, fst (getBusTrackingInfo id w) = res_json (TrackingInfoBody info)
            ∧ TrackingInfo.currentLocation info
              = {| lat := snd (coordinates (Bus.currentLocation bus));
                   lng := fst (coordinates (Bus.currentLocation bus)) |}.
Proof.
  intros Hbus.
  unfold getBusTrackingInfo, try_catch, bind, Bus_findById_populated,
    Station_findById, Promise_all, OSRMService_calculateETA,
    OSRMService_calculateDistance, ret.
  simpl. rewrite Hbus. simpl.
  repeat (case_match; simplify_eq/=); try (by right; eauto);
    left; (split; [done|]);
    match goal with
    | H : _ <$> stationDocs w !! ?k = Some _ |- _ =>
        destruct (stationDocs w !! k) as [st|] eqn:Hst; simplify_eq/=
    end;
    eexists _, _, _, _; (split; [exact Hst|]); (split; [reflexivity|]); eauto.
Qed.

(** A bus stored under [id] that serves [station] and is ACTIVE or
    INACTIVE appears in the answer of [getBusLocations] with its stored
    point read as [lat = coordinates[1]], [lng = coordinates[0]]. *)
Lemma getBusLocations_location user station w id bus r :
  stationId user = Some station →
  buses w !! id = Some bus →
  Bus.route bus = Some r → station ∈ stations r →
  Bus.status bus ∈ ["ACTIVE"; "INACTIVE"] →
  ∃ locations entry,
    fst (getBusLocations (Some user) w) = res_json (LocationsBody locations)
    ∧ entry ∈ locations
    ∧ BusLocation.deviceId entry = Bus.deviceId bus
    ∧ BusLocation.location entry
      = {| lat := snd (coordinates (Bus.currentLocation bus));
           lng := fst (coordinates (Bus.currentLocation bus)) |}.
Proof.
  intros Huser Hbus Hr Hon Hstatus.
  unfold getBusLocations, try_catch, bind, Bus_find_at_station.
  rewrite Huser. simpl.
  eexists _, (bus_location bus). split; [reflexivity|].
  split; [|by split].
  apply list_elem_of_In, in_map_iff. exists (id, bus). split; [done|].
  apply list_elem_of_In. rewrite natural_order_perm.
  apply list_elem_of_In, filter_In. split.
  - apply list_elem_of_In. by apply elem_of_map_to_list.
  - rewrite Hr. apply andb_true_iff. split.
    + by apply (proj2 (includes_spec (stations r) station)).
    + by apply (proj2 (includes_spec ["ACTIVE"; "INACTIVE"] (Bus.status bus))).
Qed.

(** C9. A position report that is answered with a next stop has stored
    the reported [{ lat, lng }] as the coordinate pair [[lng, lat]]; both
    read paths hand the same position back.  [getBusTrackingInfo] answers
    with [currentLocation] equal to the reported position; the one other
    answer it can give is the 400 of a rejected oracle query of its own,
    asked from the reported position to the location of a station
    document.  [getBusLocations], for a station on the vehicle's route
    and a vehicle that is ACTIVE or INACTIVE, lists the vehicle with
    [location] equal to the reported position. *)
Theorem reported_position_round_trip now req w t w' next :
  updateBusLocation now req w = (res_json (TrackingBody t), w') →
  TrackingData.nextStation t = Some next →
  let id := LocationRequest.id req in
  ∃ bus',
    buses w' !! id = Some bus'
    ∧ coordinates (Bus.currentLocation bus')
      = (LocationRequest.lng req, LocationRequest.lat req)
    ∧ ((fst (getBusTrackingInfo id w') = fetch_failed
        ∧ ∃ stop st loc e,
            stationDocs w' !! stop = Some st
            ∧ Station.location st = Some loc
            ∧ (eta_response (reported req) (point_latlng loc) = Throw e
               ∨ distance_response (reported req) (point_latlng loc) = Throw e))
       ∨ ∃ info,
           fst (getBusTrackingInfo id w') = res_json (TrackingInfoBody info)
           ∧ TrackingInfo.currentLocation info = reported req)
    ∧ (∀ user station r,
         stationId user = Some station →
         Bus.route bus' = Some r → station ∈ stations r →
         Bus.status bus' ∈ ["ACTIVE"; "INACTIVE"] →
         ∃ locations entry,
           fst (getBusLocations (Some user) w') = res_json (LocationsBody locations)
           ∧ entry ∈ locations
           ∧ BusLocation.deviceId entry = Bus.deviceId bus'
           ∧ BusLocation.location entry = reported req).
Proof.
  intros Hrun Hnext id. subst id.
  destruct (buses w !! LocationRequest.id req) as [bus|] eqn:Hbus;
    [|by rewrite updateBusLocation_unknown_bus in Hrun].
  destruct (nextStationId bus) as [nid|] eqn:Hnid; cycle 1.
  { rewrite (updateBusLocation_no_next now req w bus) in Hrun by done.
    by simplify_eq. }
  destruct (stationDocs w !! nid) as [st|] eqn:Hst; cycle 1.
  { rewrite (updateBusLocation_unresolved now req w bus nid) in Hrun
      by (done || (intros st' Hst'; congruence)).
    by simplify_eq. }
  destruct (Station.location st) as [loc|] eqn:Hloc; cycle 1.
  { rewrite (updateBusLocation_unresolved now req w bus nid) in Hrun
      by (done || (intros st' Hst'; congruence)).
    by simplify_eq. }
  rewrite (updateBusLocation_resolved now req w bus nid st loc) in Hrun by done.
  destruct (eta_response _ _) as [seconds|]; [|by simplify_eq].
  destruct (distance_response _ _) as [metres|]; [|by simplify_eq].
  simpl in Hrun. destruct (validate _); [|by simplify_eq].
  injection Hrun as _ <-.
  set (bus' := located_bus now req seconds bus).
  assert (buses (put_bus (LocationRequest.id req) bus'
                   (emit (BusSave (LocationRequest.id req) bus')
                      (emit (OSRMCalculateDistance (reported req) (point_latlng loc))
                         (emit (OSRMCalculateETA (reported req) (point_latlng loc))
                            (emit (StationFindById nid)
                               (emit (BusFindById (LocationRequest.id req)) w))))))
            !! LocationRequest.id req = Some bus') as Hstored
    by apply lookup_insert_eq.
  exists bus'. split; [exact Hstored|]. split; [done|]. split.
  - exact (getBusTrackingInfo_location _ _ bus' Hstored).
  - intros user station r Huser Hr Hon Hstatus.
    exact (getBusLocations_location user station _ _ bus' r
             Huser Hstored Hr Hon Hstatus).
Qed.

End ReadPaths.

(** ** Field updates *)

Section FieldUpdates.
Context {model : BusModel}.

Lemma Object_keys_spec (o : UpdateData) (key : string) :
  key ∈ Object_keys o ↔ is_Some (o !! key).
Proof.
  unfold Object_keys. rewrite list_elem_of_fmap. split.
  - intros ([k v] & -> & Hin). apply elem_of_map_to_list in Hin. by exists v.
  - intros [v Hv]. exists (key, v). split; [done|]. by apply elem_of_map_to_list.
Qed.

Lemma reduce_lookup (updateData : UpdateData) (keys : list string)
    (acc : UpdateData) (key : string) :
  foldl (λ acc key,
           if allowed_key key
           then partial_alter (λ _, updateData !! key) key acc
           else acc) acc keys !! key
  = if allowed_key key && bool_decide (key ∈ keys)
    then updateData !! key else acc !! key.
Proof.
  revert acc. induction keys as [|k keys IH]; intros acc; simpl.
  - by rewrite andb_false_r.
  - rewrite IH. destruct (allowed_key key) eqn:Hkey; simpl.
    + destruct (decide (key ∈ keys)) as [Hin|Hnin].
      * rewrite !bool_decide_eq_true_2; [done| |done]. by right.
      * rewrite (bool_decide_eq_false_2 (key ∈ keys)) by done.
        destruct (decide (k = key)) as [->|Hne].
        -- rewrite bool_decide_eq_true_2 by left. rewrite Hkey.
           by rewrite lookup_partial_alter_eq.
        -- rewrite bool_decide_eq_false_2
             by (intros [?|?]%elem_of_cons; congruence).
           destruct (allowed_key k); [|done].
           by rewrite lookup_partial_alter_ne.
    + destruct (allowed_key k) eqn:Hk; [|done].
      rewrite lookup_partial_alter_ne; [done|]. congruence.
Qed.

(** The filtered object keeps the allowed properties, with their values,
    and nothing else. *)
Lemma filteredUpdateData_lookup (updateData : UpdateData) (key : string) :
  filteredUpdateData updateData !! key
  = if allowed_key key then updateData !! key else None.
Proof.
  unfold filteredUpdateData. rewrite reduce_lookup, lookup_empty.
  destruct (allowed_key key); [|done]. simpl.
  case_bool_decide as Hin; [done|].
  rewrite Object_keys_spec in Hin. symmetry. by apply eq_None_not_Some.
Qed.

Lemma allowed_key_spec (key : string) :
  allowed_key key = true
  ↔ key = "status" ∨ key = "schedule" ∨ key = "route.estimatedTime"
    ∨ (∃ rest, key = "schedule." +:+ rest)
    ∨ (∃ rest, key = "route." +:+ rest).
Proof.
  unfold allowed_key. rewrite !orb_true_iff, !startsWith_spec, includes_spec.
  unfold allowedFields. rewrite !elem_of_cons, elem_of_nil. tauto.
Qed.

Lemma populate_spec (w : World) (ids : list ObjectId) (doc : StationDocument) :
  doc ∈ populate w ids ↔ fst doc ∈ ids ∧ stationDocs w !! fst doc = Some (snd doc).
Proof.
  unfold populate. rewrite list_elem_of_omap. split.
  - intros (i & Hi & Hdoc). destruct (stationDocs w !! i) as [s|] eqn:Hs; [|done].
    simpl in Hdoc. by simplify_eq.
  - intros [Hi Hdoc]. exists (fst doc). split; [done|].
    rewrite Hdoc. by destruct doc.
Qed.

(** The test of line 116 on a populated route. *)
Lemma some_station_spec (w : World) (ids : list ObjectId) (station : ObjectId) :
  existsb (λ doc : StationDocument, String.eqb (fst doc) station) (populate w ids) = true
  ↔ station ∈ ids ∧ is_Some (stationDocs w !! station).
Proof.
  rewrite existsb_exists. split.
  - intros (doc & Hin & Heq). apply String.eqb_eq in Heq. subst station.
    apply list_elem_of_In, populate_spec in Hin as [Hi Hdoc]. eauto.
  - intros [Hi [s Hs]]. exists (station, s). split.
    + apply list_elem_of_In, populate_spec. by split.
    + apply String.eqb_refl.
Qed.

Lemma write_back_run (id : ObjectId) (data : UpdateData) (w : World) :
  try_catch
    (let* updatedBus := Bus_findByIdAndUpdate id data in
     match updatedBus with
     | None => ret bus_not_found
     | Some bus => ret (res_json (BusBody id bus))
     end)
    (λ _, ret (res_status 400 (ErrorBody "Failed to update bus" None))) w
  = write_back id data w.
Proof.
  unfold try_catch, bind, Bus_findByIdAndUpdate, write_back. simpl.
  destruct (buses w !! id) as [bus|]; [|done].
  by destruct (applyUpdate bus data).
Qed.

Lemma write_back_log (id : ObjectId) (data : UpdateData) (w : World) :
  log (snd (write_back id data w)) = log w ++ [BusFindByIdAndUpdate id data].
Proof.
  unfold write_back. destruct (buses w !! id) as [bus|]; [|done].
  by destruct (applyUpdate bus data).
Qed.

End FieldUpdates.

(** ** Field updates: the claims *)

Section UpdateClaims.
Context {model : BusModel}.

(** C8. For an actor of any role other than STATION_ADMIN the handler
    performs no lookup of the vehicle before the write: its one store
    call is [findByIdAndUpdate] with the proposed fields exactly as they
    came, and the answer is the store's answer to that write. *)
Theorem updateBus_unrestricted_passthrough req w user :
  UpdateRequest.user req = Some user →
  role user ≠ "STATION_ADMIN" →
  updateBus req w = write_back (UpdateRequest.id req) (UpdateRequest.body req) w
  ∧ log (snd (updateBus req w))
    = log w ++ [BusFindByIdAndUpdate (UpdateRequest.id req) (UpdateRequest.body req)].
Proof.
  intros Huser Hrole.
  assert (updateBus req w
          = write_back (UpdateRequest.id req) (UpdateRequest.body req) w) as Hrun.
  { rewrite <- write_back_run.
    unfold updateBus, authorize. rewrite Huser.
    apply String.eqb_neq in Hrole. rewrite Hrole.
    unfold try_catch, bind, ret. simpl.
    by destruct (Bus_findByIdAndUpdate _ _ w) as [[[?|]|] ?]. }
  split; [exact Hrun|]. rewrite Hrun. apply write_back_log.
Qed.

(** C4. A station admin proposing any fields for an existing vehicle
    whose route (if it has one) does not include the admin's station is
    answered 403 "Not authorized to update this bus"; the store is only
    read, so the vehicle collection is unchanged; and the answer differs
    from the 404 "Bus not found" that the same request gets when the
    vehicle does not exist. *)
Theorem updateBus_station_admin_denied req w user station bus :
  UpdateRequest.user req = Some user →
  role user = "STATION_ADMIN" →
  stationId user = Some station →
  buses w !! UpdateRequest.id req = Some bus →
  (∀ r, Bus.route bus = Some r → station ∉ stations r) →
  fst (updateBus req w) = not_authorized
  ∧ statusCode (fst (updateBus req w)) = 403%Z
  ∧ buses (snd (updateBus req w)) = buses w
  ∧ log (snd (updateBus req w)) = log w ++ [BusFindById (UpdateRequest.id req)]
  ∧ (∀ w0, buses w0 !! UpdateRequest.id req = None →
           fst (updateBus req w0) = bus_not_found
           ∧ statusCode (fst (updateBus req w0)) = 404%Z)
  ∧ not_authorized ≠ bus_not_found.
Proof.
  intros Huser Hrole Hstation Hbus Hoff.
  assert (∀ w0, updateBus req w0
                = match buses w0 !! UpdateRequest.id req with
                  | None => (bus_not_found, emit (BusFindById (UpdateRequest.id req)) w0)
                  | Some b =>
                      match Bus.route b with
                      | Some r =>
                          if existsb (λ doc : StationDocument, String.eqb (fst doc) station)
                               (populate w0 (stations r))
                          then write_back (UpdateRequest.id req)
                                 (filteredUpdateData (UpdateRequest.body req))
                                 (emit (BusFindById (UpdateRequest.id req)) w0)
                          else (not_authorized, emit (BusFindById (UpdateRequest.id req)) w0)
                      | None => (not_authorized, emit (BusFindById (UpdateRequest.id req)) w0)
                      end
                  end) as Hrun.
  { intros w0. unfold updateBus, authorize. rewrite Huser, Hrole, Hstation. simpl.
    unfold try_catch at 1. unfold bind at 1. unfold bind at 1.
    unfold Bus_findById_populate_route. simpl.
    destruct (buses w0 !! UpdateRequest.id req) as [b|]; simpl; [|done].
    destruct (Bus.route b) as [r|]; simpl; [|done].
    destruct (existsb _ _); simpl; [|done].
    rewrite <- write_back_run. unfold try_catch, bind, ret. simpl.
    by destruct (Bus_findByIdAndUpdate _ _ _) as [[[?|]|] ?]. }
  assert (updateBus req w
          = (not_authorized, emit (BusFindById (UpdateRequest.id req)) w)) as ->.
  { rewrite Hrun, Hbus. destruct (Bus.route bus) as [r|] eqn:Hr; [|done].
    destruct (existsb _ _) eqn:Hsome; [|done].
    apply some_station_spec in Hsome as [Hon _]. by destruct (Hoff r). }
  do 4 (split; [done|]). split; [|done].
  intros w0 Hgone. by rewrite Hrun, Hgone.
Qed.

(** C5. A station admin whose station is on the vehicle's route (and
    still has its station document) has the proposed fields filtered: the
    object handed to the store holds, with their proposed values, exactly
    the proposed keys that are "status", "schedule" or
    "route.estimatedTime" or that start with "schedule." or "route.";
    the other keys are dropped without any error of their own, and the
    write is issued with what survives, also when nothing does: the
    answer is the store's answer to that write. *)
Theorem updateBus_station_admin_filter req w user station bus r :
  UpdateRequest.user req = Some user →
  role user = "STATION_ADMIN" →
  stationId user = Some station →
  buses w !! UpdateRequest.id req = Some bus →
  Bus.route bus = Some r →
  station ∈ stations r →
  is_Some (stationDocs w !! station) →
  let id := UpdateRequest.id req in
  let proposed := UpdateRequest.body req in
  ∃ applied : UpdateData,
    (∀ key, is_Some (applied !! key)
            ↔ is_Some (proposed !! key)
              ∧ (key = "status" ∨ key = "schedule" ∨ key = "route.estimatedTime"
                 ∨ (∃ rest, key = "schedule." +:+ rest)
                 ∨ (∃ rest, key = "route." +:+ rest)))
    ∧ (∀ key value, applied !! key = Some value → proposed !! key = Some value)
    ∧ updateBus req w = write_back id applied (emit (BusFindById id) w)
    ∧ log (snd (updateBus req w))
      = log w ++ [BusFindById id; BusFindByIdAndUpdate id applied].
Proof.
  intros Huser Hrole Hstation Hbus Hr Hon Hdoc id proposed. subst id proposed.
  exists (filteredUpdateData (UpdateRequest.body req)).
  assert (updateBus req w
          = write_back (UpdateRequest.id req)
              (filteredUpdateData (UpdateRequest.body req))
              (emit (BusFindById (UpdateRequest.id req)) w)) as Hrun.
  { rewrite <- write_back_run.
    unfold updateBus, authorize. rewrite Huser, Hrole, Hstation. simpl.
    unfold try_catch at 1. unfold bind at 1. unfold bind at 1.
    unfold Bus_findById_populate_route. simpl. rewrite Hbus. simpl.
    rewrite Hr. simpl.
    destruct (existsb _ _) eqn:Hsome; simpl; cycle 1.
    { exfalso. apply not_true_iff_false in Hsome. apply Hsome.
      by apply some_station_spec. }
    unfold try_catch, bind, ret. simpl.
    by destruct (Bus_findByIdAndUpdate _ _ _) as [[[?|]|] ?]. }
  split; [|split; [|split; [exact Hrun|]]].
  - intros key. rewrite filteredUpdateData_lookup, <- allowed_key_spec.
    destruct (allowed_key key); split.
    + by intros ?.
    + by intros [? _].
    + by intros [? ?].
    + by intros [_ ?].
  - intros key value. rewrite filteredUpdateData_lookup.
    by destruct (allowed_key key).
  - rewrite Hrun, write_back_log. simpl. by rewrite <- app_assoc.
Qed.

End UpdateClaims.

(** ** Registration: the claim *)

Section CreateClaims.
Context {model : BusModel} {dates : DateFormat}.

(** C10. A registration whose four required fields are truthy builds a
    vehicle whose route is the empty station list with [estimatedTime] 0
    when none is supplied, whose status is INACTIVE when none is
    supplied, and whose [currentLocation] is the point (0, 0),
    [currentPassengerCount] 0 and [isOnRoute] false whatever the body
    holds; that vehicle is what the store is asked to insert, and what
    the 201 answer carries once the store accepts it. *)
Theorem createBus_defaults newId now b w busNumber routeNumber capacity deviceId :
  CreateBody.busNumber b = Some busNumber → busNumber ≠ "" →
  CreateBody.routeNumber b = Some routeNumber → routeNumber ≠ "" →
  CreateBody.capacity b = Some capacity → ¬ (capacity == 0)%Q →
  CreateBody.deviceId b = Some deviceId → deviceId ≠ "" →
  ∃ bus,
    Bus.busNumber bus = busNumber
    ∧ Bus.routeNumber bus = routeNumber
    ∧ Bus.capacity bus = capacity
    ∧ Bus.deviceId bus = deviceId
    ∧ (CreateBody.route b = None
       → Bus.route bus = Some {| stations := []; estimatedTime := 0 |})
    ∧ (CreateBody.status b = None → Bus.status bus = "INACTIVE")
    ∧ Bus.currentLocation bus = {| coordinates := (0, 0)%Q |}
    ∧ Bus.currentPassengerCount bus = 0%Q
    ∧ Bus.isOnRoute bus = false
    ∧ createBus newId now b w
      = (if negb (validate bus)
         then (res_status 400 (ErrorBody "Failed to create bus" None),
               emit (BusSave newId bus) w)
         else if duplicate_key newId bus w
         then (res_status 400
                 (ErrorBody "Bus number or device ID already exists" None),
               emit (BusSave newId bus) w)
         else (res_status 201 (BusBody newId bus),
               put_bus newId bus (emit (BusSave newId bus) w))).
Proof.
  intros Hbn Hbn' Hrn Hrn' Hcap Hcap' Hdev Hdev'.
  exists (new_bus now busNumber routeNumber capacity deviceId b).
  do 4 (split; [done|]).
  split; [by intros Hroute; simpl; rewrite Hroute|].
  split; [by intros Hstatus; simpl; rewrite Hstatus|].
  do 3 (split; [done|]).
  unfold createBus. rewrite Hbn, Hrn, Hcap, Hdev. simpl.
  apply String.eqb_neq in Hbn', Hrn', Hdev'. rewrite Hbn', Hrn', Hdev'.
  assert (Qeq_bool capacity 0 = false) as ->.
  { apply not_true_iff_false. intros Heq. by apply Qeq_bool_iff in Heq. }
  simpl. unfold try_catch, bind, Bus_insert, ret. simpl.
  destruct (validate _); simpl; [|done].
  by destruct (duplicate_key _ _ w).
Qed.

End CreateClaims.

(** ** The worked scenarios *)

Section Scenarios.
Import Scenario.

(** C1, as stated, fails: on the leg after B with the duration query
    rejected and the distance query answering 800 m, the handler does not
    answer with a snapshot whose [eta] is null and whose [distanceToNext]
    is 800; it answers 400. *)
Lemma eta_outage_is_not_absorbed :
  nextStationId (bus_at (Some "stopB")) = Some "stopC"
  ∧ @eta_response osrm_eta_down (reported leg_report) {| lat := 0; lng := 2 |}
    = Throw OSRMError
  ∧ @distance_response osrm_eta_down (reported leg_report) {| lat := 0; lng := 2 |}
    = Done 800%Q
  ∧ statusCode (fst outage_run) = 400%Z
  ∧ ¬ ∃ t, fst outage_run = res_json (TrackingBody t)
           ∧ TrackingData.eta t = None
           ∧ TrackingData.distanceToNext t = Some 800%Z.
Proof.
  do 4 (split; [reflexivity|]).
  intros (t & Hrun & _). vm_compute in Hrun. discriminate Hrun.
Qed.

(** An instance: the leg after B, the duration query rejected. *)
Lemma updateBusLocation_oracle_failure_witness :
  fst outage_run = update_failed
  ∧ statusCode (fst outage_run) = 400%Z
  ∧ buses (snd outage_run) = buses (world (Some "stopB"))
  ∧ log (snd outage_run)
    = log (world (Some "stopB"))
      ++ [BusFindById "bus7"; StationFindById "stopC";
          OSRMCalculateETA (reported leg_report) (point_latlng {| coordinates := (2, 0)%Q |});
          OSRMCalculateDistance (reported leg_report) (point_latlng {| coordinates := (2, 0)%Q |})].
Proof.
  apply (@updateBusLocation_oracle_failure osrm_eta_down lenient_model
           2000%Z leg_report (world (Some "stopB")) (bus_at (Some "stopB"))
           "stopC" (stop "C" 0 2) {| coordinates := (2, 0)%Q |}).
  - reflexivity.
  - reflexivity.
  - reflexivity.
  - reflexivity.
  - left. exists OSRMError. reflexivity.
Defined.

(** C2, at the failing input: the vehicle stands at the last stop C and
    reports the position (0.1, 0.2) at time 2000. The handler answers 200
    with a snapshot echoing that position, yet the stored vehicle keeps
    its old point (0, 0) and its old [lastUpdateTime] 1000. *)
Theorem terminal_report_is_not_recorded :
  statusCode (fst terminal_run) = 200%Z
  ∧ (∃ t, body (fst terminal_run) = TrackingBody t
          ∧ TrackingData.location t = {| lat := 1 # 10; lng := 2 # 10 |})
  ∧ buses (snd terminal_run) = buses (world (Some "stopC"))
  ∧ Bus.currentLocation <$> buses (snd terminal_run) !! "bus7"
    = Some {| coordinates := (0, 0)%Q |}
  ∧ Bus.lastUpdateTime <$> buses (snd terminal_run) !! "bus7" = Some 1000%Z.
Proof.
  assert (terminal_run
          = (res_json (TrackingBody (bare_snapshot leg_report (bus_at (Some "stopC")))),
             emit (BusFindById "bus7") (world (Some "stopC")))) as ->.
  { apply (@updateBusLocation_no_next osrm_up lenient_model); reflexivity. }
  split; [reflexivity|]. split; [by eexists|]. by repeat split.
Qed.

(** The same happens to a vehicle that was just registered on the line:
    it has no current stop, so its first report is answered 200 and
    dropped. *)
Lemma first_report_is_not_recorded :
  statusCode (fst first_run) = 200%Z
  ∧ buses (snd first_run) = buses registered
  ∧ Bus.currentLocation <$> buses (snd first_run) !! "bus9"
    = Some {| coordinates := (0, 0)%Q |}
  ∧ Bus.lastUpdateTime <$> buses (snd first_run) !! "bus9" = Some 1000%Z.
Proof.
  assert (buses registered !! "bus9"
          = Some (new_bus (dates:=iso) 1000%Z "B-9" "9" 50%Q "dev-9" line_registration))
    as Hbus by reflexivity.
  unfold first_run.
  rewrite (@updateBusLocation_no_next osrm_up lenient_model 2000%Z first_report
             registered _ Hbus) by reflexivity.
  split; [reflexivity|]. split; [reflexivity|]. simpl. rewrite Hbus. by split.
Qed.

(** An instance: the vehicle at the last stop C of the line. *)
Lemma updateBusLocation_without_next_stop_witness :
  ∃ t calls,
    fst terminal_run = res_json (TrackingBody t)
    ∧ statusCode (fst terminal_run) = 200%Z
    ∧ TrackingData.nextStation t = None
    ∧ TrackingData.eta t = None
    ∧ TrackingData.distanceToNext t = None
    ∧ log (snd terminal_run) = log (world (Some "stopC")) ++ calls
    ∧ calls = [BusFindById "bus7"]
    ∧ existsb is_oracle_call calls = false.
Proof.
  apply (@updateBusLocation_without_next_stop osrm_up lenient_model
           2000%Z leg_report (world (Some "stopC")) (bus_at (Some "stopC"))).
  - reflexivity.
  - right. right. exists "stopC", line.
    split; [reflexivity|]. split; [reflexivity|]. split; [|reflexivity].
    apply (bool_decide_unpack _). vm_compute. exact I.
Defined.

(** C6, as stated, fails: on the leg after B with the oracle answering
    10^18 s, a binary64 number, the quotient by 60 is rounded to binary64
    before [Math.round] sees it, and the snapshot carries
    16666666666666666 where the integer nearest to 10^18 / 60 is
    16666666666666667. *)
Lemma long_duration_misses_nearest_minute :
  nextStationId (bus_at (Some "stopB")) = Some "stopC"
  ∧ @eta_response osrm_aeon (reported leg_report) {| lat := 0; lng := 2 |}
    = Done 1000000000000000000%Q
  ∧ (binary64 1000000000000000000 == 1000000000000000000)%Q
  ∧ Math_round (1000000000000000000 / 60) = 16666666666666667%Z
  ∧ (∃ t, fst aeon_run = res_json (TrackingBody t)
          ∧ TrackingData.eta t = Some 16666666666666666%Z)
  ∧ ¬ ∃ t, fst aeon_run = res_json (TrackingBody t)
           ∧ TrackingData.eta t = Some (Math_round (1000000000000000000 / 60)).
Proof.
  assert (fst aeon_run
          = res_json (TrackingBody
                        (estimate_snapshot leg_report (bus_at (Some "stopB"))
                           "stopC" 1000000000000000000 1500))) as Hrun
    by (vm_compute; reflexivity).
  do 2 (split; [reflexivity|]).
  split; [vm_compute; reflexivity|].
  split; [vm_compute; reflexivity|].
  split.
  - eexists. split; [exact Hrun|]. vm_compute. reflexivity.
  - intros (t & Ht & Heta). rewrite Hrun in Ht. injection Ht as <-.
    vm_compute in Heta. discriminate Heta.
Qed.

(** An instance, the scenario of the leg from B to C: 300 s and 1500 m give
    the snapshot with current stop B, next stop C, [eta] 5, the integer
    nearest to 300 / 60, and [distanceToNext] 1500. *)
Lemma updateBusLocation_estimates_witness :
  ∃ t, fst leg_run = res_json (TrackingBody t)
       ∧ TrackingData.currentStation t = Some "stopB"
       ∧ TrackingData.nextStation t = Some "stopC"
       ∧ TrackingData.eta t = Some 5%Z
       ∧ TrackingData.distanceToNext t = Some 1500%Z
       ∧ TrackingData.eta t = Some (Math_round (300 / 60)).
Proof.
  destruct (@updateBusLocation_estimates osrm_up lenient_model
              2000%Z leg_report (world (Some "stopB")) (bus_at (Some "stopB"))
              "stopC" (stop "C" 0 2) {| coordinates := (2, 0)%Q |} 300%Q 1500%Q
              eq_refl eq_refl eq_refl eq_refl eq_refl eq_refl eq_refl)
    as (t & minutes & whole & Hrun & Hcur & Hnext & Heta & Hdist
        & _ & _ & _ & _ & Hexact & Hfive & Hwhole).
  exists t. split; [exact Hrun|]. split; [exact Hcur|]. split; [exact Hnext|].
  split; [|split].
  - rewrite Heta. f_equal. apply Hfive. reflexivity.
  - rewrite Hdist. f_equal. apply Hwhole. reflexivity.
  - rewrite Heta. f_equal. apply Hexact; [vm_compute|]; reflexivity.
Defined.

(** The scenario's whole snapshot, evaluated. *)
Lemma leg_run_snapshot : fst leg_run = res_json (TrackingBody leg_snapshot).
Proof. reflexivity. Qed.

(** C7, as stated, fails: the report (1000, 1000) is out of range, and on
    the leg after B it is answered 200 after both oracle queries were
    issued with it. *)
Lemma stray_report_reaches_the_oracle :
  ¬ in_range (reported stray_report)
  ∧ statusCode (fst stray_run) = 200%Z
  ∧ OSRMCalculateETA {| lat := 1000; lng := 1000 |} {| lat := 0; lng := 2 |}
    ∈ log (snd stray_run)
  ∧ OSRMCalculateDistance {| lat := 1000; lng := 1000 |} {| lat := 0; lng := 2 |}
    ∈ log (snd stray_run).
Proof.
  split; [|split; [reflexivity|]].
  - intros (_ & Hlat & _). exact (Hlat eq_refl).
  - assert (log (snd stray_run)
            = [BusFindById "bus7"; StationFindById "stopC";
               OSRMCalculateETA {| lat := 1000; lng := 1000 |} {| lat := 0; lng := 2 |};
               OSRMCalculateDistance {| lat := 1000; lng := 1000 |} {| lat := 0; lng := 2 |};
               BusSave "bus7" (located_bus 2000%Z stray_report 300
                                 (bus_at (Some "stopB")))]) as ->
      by reflexivity.
    split; set_solver.
Qed.

(** An instance: the report (1000, 1000) on the leg after B. *)
Lemma updateBusLocation_no_range_check_witness :
  (∃ rest,
     log (snd stray_run)
     = log (world (Some "stopB"))
       ++ [BusFindById "bus7"; StationFindById "stopC";
           OSRMCalculateETA (reported stray_report)
             (point_latlng {| coordinates := (2, 0)%Q |});
           OSRMCalculateDistance (reported stray_report)
             (point_latlng {| coordinates := (2, 0)%Q |})]
       ++ rest)
  ∧ ∃ t, fst stray_run = res_json (TrackingBody t)
         ∧ TrackingData.location t = {| lat := 1000; lng := 1000 |}.
Proof.
  destruct (@updateBusLocation_no_range_check osrm_up lenient_model
              2000%Z stray_report (world (Some "stopB")) (bus_at (Some "stopB"))
              "stopC" (stop "C" 0 2) {| coordinates := (2, 0)%Q |})
    as [Hlog Hanswer].
  - intros (_ & Hlat & _). exact (Hlat eq_refl).
  - reflexivity.
  - reflexivity.
  - reflexivity.
  - reflexivity.
  - split; [exact Hlog|].
    exact (Hanswer 300%Q 1500%Q eq_refl eq_refl eq_refl).
Defined.

(** An instance: the report (0.1, 0.2) on the leg after B, read back with
    the oracle up, so that the tracking answer is the only one left. *)
Lemma reported_position_round_trip_witness :
  ∃ bus',
    buses (snd leg_run) !! "bus7" = Some bus'
    ∧ coordinates (Bus.currentLocation bus') = (2 # 10, 1 # 10)%Q
    ∧ (∃ info,
         fst (@getBusTrackingInfo osrm_up "bus7" (snd leg_run))
         = res_json (TrackingInfoBody info)
         ∧ TrackingInfo.currentLocation info = reported leg_report)
    ∧ (∀ user station r,
         stationId user = Some station →
         Bus.route bus' = Some r → station ∈ stations r →
         Bus.status bus' ∈ ["ACTIVE"; "INACTIVE"] →
         ∃ locations entry,
           fst (@getBusLocations insertion_order (Some user) (snd leg_run))
           = res_json (LocationsBody locations)
           ∧ entry ∈ locations
           ∧ BusLocation.deviceId entry = Bus.deviceId bus'
           ∧ BusLocation.location entry = reported leg_report).
Proof.
  destruct (reported_position_round_trip (osrm:=osrm_up) (model:=lenient_model)
              (order:=insertion_order)
              2000%Z leg_report (world (Some "stopB")) leg_snapshot (snd leg_run)
              "stopC")
    as (bus' & Hstored & Hpoint & Hread & Hlisted).
  - reflexivity.
  - reflexivity.
  - exists bus'. split; [exact Hstored|]. split; [exact Hpoint|].
    split; [|exact Hlisted].
    destruct Hread as [(_ & stop & st & loc & e & _ & _ & [Hthrow|Hthrow])|Hinfo].
    + discriminate Hthrow.
    + discriminate Hthrow.
    + exact Hinfo.
Defined.

(** Both read paths, evaluated after the scenario's report. *)
Lemma leg_position_read_back :
  (∃ info, fst (@getBusTrackingInfo osrm_up "bus7" (snd leg_run))
           = res_json (TrackingInfoBody info)
           ∧ TrackingInfo.currentLocation info = {| lat := 1 # 10; lng := 2 # 10 |})
  ∧ ∃ entry, fst (@getBusLocations insertion_order
                    (Some (station_admin "stopA")) (snd leg_run))
             = res_json (LocationsBody [entry])
             ∧ BusLocation.location entry = {| lat := 1 # 10; lng := 2 # 10 |}.
Proof. split; eexists; (split; [vm_compute; reflexivity|reflexivity]). Qed.

(** An instance: the admin of the depot, which is not on the line. *)
Lemma updateBus_station_admin_denied_witness :
  let req := mutation (station_admin "depot") in
  let w := world (Some "stopB") in
  fst (@updateBus lenient_model req w) = not_authorized
  ∧ statusCode (fst (@updateBus lenient_model req w)) = 403%Z
  ∧ buses (snd (@updateBus lenient_model req w)) = buses w
  ∧ log (snd (@updateBus lenient_model req w)) = log w ++ [BusFindById "bus7"]
  ∧ (∀ w0, buses w0 !! "bus7" = None →
           fst (@updateBus lenient_model req w0) = bus_not_found
           ∧ statusCode (fst (@updateBus lenient_model req w0)) = 404%Z)
  ∧ not_authorized ≠ bus_not_found.
Proof.
  apply (@updateBus_station_admin_denied lenient_model
           (mutation (station_admin "depot")) (world (Some "stopB"))
           (station_admin "depot") "depot" (bus_at (Some "stopB"))).
  - reflexivity.
  - reflexivity.
  - reflexivity.
  - reflexivity.
  - intros r [= <-]. apply (bool_decide_unpack _). vm_compute. exact I.
Defined.

(** An instance: the admin of stop B proposes [status], [capacity] and
    [schedule.departureTime]. *)
Lemma updateBus_station_admin_filter_witness :
  let req := mutation (station_admin "stopB") in
  let w := world (Some "stopB") in
  ∃ applied : UpdateData,
    (∀ key, is_Some (applied !! key)
            ↔ is_Some (proposal !! key)
              ∧ (key = "status" ∨ key = "schedule" ∨ key = "route.estimatedTime"
                 ∨ (∃ rest, key = "schedule." +:+ rest)
                 ∨ (∃ rest, key = "route." +:+ rest)))
    ∧ (∀ key value, applied !! key = Some value → proposal !! key = Some value)
    ∧ @updateBus lenient_model req w = @write_back lenient_model "bus7" applied (emit (BusFindById "bus7") w)
    ∧ log (snd (@updateBus lenient_model req w))
      = log w ++ [BusFindById "bus7"; BusFindByIdAndUpdate "bus7" applied].
Proof.
  apply (@updateBus_station_admin_filter lenient_model
           (mutation (station_admin "stopB")) (world (Some "stopB"))
           (station_admin "stopB") "stopB" (bus_at (Some "stopB")) line).
  - reflexivity.
  - reflexivity.
  - reflexivity.
  - reflexivity.
  - reflexivity.
  - apply (bool_decide_unpack _). vm_compute. exact I.
  - eexists. reflexivity.
Defined.

(** The scenario's proposal [{ status, capacity,
    "schedule.departureTime" }] loses [capacity] and nothing else. *)
Lemma proposal_filtered :
  filteredUpdateData proposal
  = <["status" := JStr "ACTIVE"]>
      (<["schedule.departureTime" := JStr "10:00"]> ∅).
Proof. vm_compute. reflexivity. Qed.

(** An instance: a system administrator proposes the same fields. *)
Lemma updateBus_unrestricted_passthrough_witness :
  let req := mutation system_admin in
  let w := world (Some "stopB") in
  @updateBus lenient_model req w = @write_back lenient_model "bus7" proposal w
  ∧ log (snd (@updateBus lenient_model req w))
    = log w ++ [BusFindByIdAndUpdate "bus7" proposal].
Proof.
  apply (@updateBus_unrestricted_passthrough lenient_model
           (mutation system_admin) (world (Some "stopB")) system_admin).
  - reflexivity.
  - discriminate.
Defined.

(** An instance: a registration with the four required fields only. *)
Lemma createBus_defaults_witness :
  ∃ bus,
    Bus.busNumber bus = "B-9"
    ∧ Bus.routeNumber bus = "9"
    ∧ Bus.capacity bus = 50%Q
    ∧ Bus.deviceId bus = "dev-9"
    ∧ (CreateBody.route registration = None
       → Bus.route bus = Some {| stations := []; estimatedTime := 0 |})
    ∧ (CreateBody.status registration = None → Bus.status bus = "INACTIVE")
    ∧ Bus.currentLocation bus = {| coordinates := (0, 0)%Q |}
    ∧ Bus.currentPassengerCount bus = 0%Q
    ∧ Bus.isOnRoute bus = false
    ∧ @createBus lenient_model iso "bus9" 5%Z registration empty_world
      = (if negb (@validate lenient_model bus)
         then (res_status 400 (ErrorBody "Failed to create bus" None),
               emit (BusSave "bus9" bus) empty_world)
         else if duplicate_key "bus9" bus empty_world
         then (res_status 400
                 (ErrorBody "Bus number or device ID already exists" None),
               emit (BusSave "bus9" bus) empty_world)
         else (res_status 201 (BusBody "bus9" bus),
               put_bus "bus9" bus (emit (BusSave "bus9" bus) empty_world))).
Proof.
  apply (@createBus_defaults lenient_model iso "bus9" 5%Z registration
           empty_world "B-9" "9" 50%Q "dev-9").
  - reflexivity.
  - discriminate.
  - reflexivity.
  - discriminate.
  - reflexivity.
  - discriminate.
  - reflexivity.
  - discriminate.
Defined.

(** The registration of the scenario is accepted and answered 201. *)
Lemma registration_created :
  statusCode (fst (@createBus lenient_model iso "bus9" 5%Z registration empty_world))
  = 201%Z.
Proof. reflexivity. Qed.

End Scenarios.


(** * Further properties of the controller *)

(** ** Route progress, characterised *)

Section RouteProgressMore.

Lemma findIndex_from_cases {A} (p : A → bool) (l : list A) (i : Z) :
  (findIndex_from p l i = (-1)%Z ∧ Forall (λ x, p x = false) l)
  ∨ ∃ pre x post,
      l = pre ++ x :: post ∧ Forall (λ y, p y = false) pre ∧ p x = true
      ∧ findIndex_from p l i = (i + Z.of_nat (length pre))%Z.
Proof.
  revert i. induction l as [|x l IH]; intros i; simpl.
  - left. by split.
  - destruct (p x) eqn:Hx.
    + right. exists [], x, l. repeat split; [by constructor|done|simpl; lia].
    + destruct (IH (i + 1)%Z) as [[Hnone Hall]|(pre & y & post & -> & Hpre & Hy & Hidx)].
      * left. split; [done|]. by constructor.
      * right. exists (x :: pre), y, post.
        repeat split; [by constructor|done|]. rewrite Hidx. simpl. lia.
Qed.

Lemma array_get_after {A} (pre : list A) (x : A) (post : list A) :
  array_get (pre ++ x :: post) (0 + Z.of_nat (length pre) + 1) = head post.
Proof.
  unfold array_get.
  destruct (Z.ltb_spec (0 + Z.of_nat (length pre) + 1) 0) as [?|_]; [lia|].
  replace (Z.to_nat (0 + Z.of_nat (length pre) + 1)) with (length pre + 1)%nat by lia.
  rewrite lookup_app_r by lia.
  replace (length pre + 1 - length pre)%nat with 1%nat by lia.
  by destruct post.
Qed.

(** X1. A vehicle has a next stop exactly when its current stop occurs on
    its route and the first occurrence is followed by another stop; the
    next stop is the one right after that first occurrence. *)
Theorem nextStationId_spec (bus : Bus.t) (next : ObjectId) :
  nextStationId bus = Some next
  ↔ ∃ r cur pre post,
      Bus.route bus = Some r
      ∧ Bus.currentStationId bus = Some cur
      ∧ stations r = pre ++ cur :: next :: post
      ∧ cur ∉ pre.
Proof.
  unfold nextStationId, currentStationIndex. split.
  - destruct (Bus.route bus) as [r|] eqn:Hr; [|done].
    unfold findIndex.
    destruct (findIndex_from_cases
                (λ station, same_id station (Bus.currentStationId bus)) (stations r) 0)
      as [[-> _]|(pre & x & post & Hl & Hpre & Hx & ->)]; [done|].
    case_match; [|done]. simpl. rewrite Hl, array_get_after.
    destruct post as [|n post]; [done|]. intros [= ->].
    apply same_id_true in Hx.
    exists r, x, pre, post. repeat split; try done.
    intros Hin. rewrite Forall_forall in Hpre.
    specialize (Hpre x Hin). apply same_id_false in Hpre. done.
  - intros (r & cur & pre & post & -> & Hcur & Hl & Hfresh). rewrite Hcur.
    unfold findIndex. rewrite Hl.
    rewrite findIndex_from_first; cycle 1.
    { apply Forall_forall. intros y Hy.
      apply (proj2 (same_id_false y (Some cur))). intros [= ->]. done. }
    { by apply (proj2 (same_id_true cur (Some cur))). }
    destruct (Z.leb_spec 0 (0 + Z.of_nat (length pre))) as [_|?]; [|lia].
    simpl. rewrite Hl. by rewrite array_get_after.
Qed.

End RouteProgressMore.

(** ** Position reports: every pass *)

Section LocationPasses.
Context {osrm : OSRMService} {model : BusModel}.

(** The passes of [updateBusLocation], exhaustively. *)
Lemma updateBusLocation_cases now req w :
  let id := LocationRequest.id req in
  (buses w !! id = None
   ∧ updateBusLocation now req w = (bus_not_found, emit (BusFindById id) w))
  ∨ ∃ bus, buses w !! id = Some bus ∧
      ((nextStationId bus = None
        ∧ updateBusLocation now req w
          = (res_json (TrackingBody (bare_snapshot req bus)),
             emit (BusFindById id) w))
       ∨ ∃ next, nextStationId bus = Some next ∧
           (((∀ st, stationDocs w !! next = Some st → Station.location st = None)
             ∧ updateBusLocation now req w
               = (res_json (TrackingBody (bare_snapshot req bus)),
                  emit (StationFindById next) (emit (BusFindById id) w)))
            ∨ ∃ st loc,
                stationDocs w !! next = Some st ∧ Station.location st = Some loc ∧
                ((((∃ e, eta_response (reported req) (point_latlng loc) = Throw e)
                   ∨ (∃ e, distance_response (reported req) (point_latlng loc) = Throw e))
                  ∧ updateBusLocation now req w
                    = (update_failed, asked_world req next loc w))
                 ∨ ∃ seconds metres,
                     eta_response (reported req) (point_latlng loc) = Done seconds
                     ∧ distance_response (reported req) (point_latlng loc) = Done metres
                     ∧ ((validate (located_bus now req seconds bus) = false
                         ∧ updateBusLocation now req w
                           = (update_failed,
                              emit (BusSave id (located_bus now req seconds bus))
                                (asked_world req next loc w)))
                        ∨ (validate (located_bus now req seconds bus) = true
                           ∧ updateBusLocation now req w
                             = (res_json (TrackingBody
                                  (estimate_snapshot req bus next seconds metres)),
                                put_bus id (located_bus now req seconds bus)
                                  (emit (BusSave id (located_bus now req seconds bus))
                                     (asked_world req next loc w)))))))).
Proof.
  intros id. subst id.
  destruct (buses w !! LocationRequest.id req) as [bus|] eqn:Hbus;
    [right; exists bus; split; [done|]
    |left; split; [done|]; by apply updateBusLocation_unknown_bus].
  destruct (nextStationId bus) as [next|] eqn:Hnext;
    [right; exists next; split; [done|]
    |left; split; [done|]; by apply updateBusLocation_no_next].
  destruct (stationDocs w !! next) as [st|] eqn:Hst; cycle 1.
  { left. split; [by intros st' [=]|].
    by apply (updateBusLocation_unresolved now req w bus next);
      [| |intros st' Hst'; congruence]. }
  destruct (Station.location st) as [loc|] eqn:Hloc; cycle 1.
  { left. split; [by intros st' [= <-]|].
    by apply (updateBusLocation_unresolved now req w bus next);
      [| |intros st' Hst'; congruence]. }
  right. exists st, loc. split; [done|]. split; [done|].
  rewrite (updateBusLocation_resolved now req w bus next st loc) by done.
  unfold asked_world, estimate_snapshot.
  destruct (eta_response _ _) as [seconds|e1]; [|left; split; [left; by eexists|done]].
  destruct (distance_response _ _) as [metres|e2]; [|left; split; [right; by eexists|done]].
  right. exists seconds, metres. split; [done|]. split; [done|]. simpl.
  destruct (validate _); [right|left]; by split.
Qed.

Lemma located_bus_same_assignment now req seconds bus :
  same_assignment bus (located_bus now req seconds bus).
Proof.
  unfold same_assignment, located_bus. simpl.
  repeat split. by destruct (Bus.route bus).
Qed.

Lemma nextStationId_located now req seconds bus :
  nextStationId (located_bus now req seconds bus) = nextStationId bus.
Proof.
  unfold nextStationId, currentStationIndex, located_bus. simpl.
  by destruct (Bus.route bus).
Qed.

(** X2. Whatever the report and whatever the oracle and the store do, a
    position report leaves the station collection and every other vehicle
    as they were, cannot create the vehicle it names, and stores nothing
    unless it answers 200. *)
Theorem updateBusLocation_frame now req w :
  let id := LocationRequest.id req in
  let after := snd (updateBusLocation now req w) in
  stationDocs after = stationDocs w
  ∧ (∀ other, other ≠ id → buses after !! other = buses w !! other)
  ∧ (buses w !! id = None → buses after !! id = None)
  ∧ (statusCode (fst (updateBusLocation now req w)) ≠ 200%Z
     → buses after = buses w).
Proof.
  intros id after. subst id after.
  destruct (updateBusLocation_cases now req w)
    as [[Hnone ->]
       |(bus & Hbus & [[_ ->]
       |(next & _ & [[_ ->]
       |(st & loc & _ & _ & [[_ ->]
       |(seconds & metres & _ & _ & [[_ ->]|[_ ->]])])])])];
    simpl; try by repeat split.
  repeat split.
  - intros other Hother. by rewrite lookup_insert_ne.
  - by rewrite Hbus.
  - done.
Qed.

(** X3. The one thing a position report rewrites in a stored vehicle is
    its position, its update time and the route's estimate: registration
    data, schedule, status, the stops of its route and in particular its
    current stop are what they were. A report never advances the vehicle
    along its route. *)
Theorem updateBusLocation_keeps_assignment now req w bus bus' :
  buses w !! LocationRequest.id req = Some bus →
  buses (snd (updateBusLocation now req w)) !! LocationRequest.id req = Some bus' →
  same_assignment bus bus'
  ∧ nextStationId bus' = nextStationId bus.
Proof.
  intros Hbus.
  assert (same_assignment bus bus) as Hrefl by (unfold same_assignment; by repeat split).
  destruct (updateBusLocation_cases now req w)
    as [[Hnone ->]
       |(bus0 & Hbus0 & [[_ ->]
       |(next & _ & [[_ ->]
       |(st & loc & _ & _ & [[_ ->]
       |(seconds & metres & _ & _ & [[_ ->]|[_ ->]])])])])];
    simpl; rewrite ?Hbus; try (intros [= <-]; by split).
  rewrite lookup_insert_eq. intros [= <-].
  assert (bus0 = bus) as -> by congruence.
  split; [apply located_bus_same_assignment|apply nextStationId_located].
Qed.

(** X4. A pass consults the oracle either not at all or exactly twice: one
    duration query followed by one distance query, both from the reported
    position to the same destination. *)
Theorem updateBusLocation_oracle_calls now req w :
  ∃ calls,
    log (snd (updateBusLocation now req w)) = log w ++ calls
    ∧ (List.filter is_oracle_call calls = []
       ∨ ∃ destination,
           List.filter is_oracle_call calls
           = [OSRMCalculateETA (reported req) destination;
              OSRMCalculateDistance (reported req) destination]).
Proof.
  destruct (updateBusLocation_cases now req w)
    as [[Hnone ->]
       |(bus & Hbus & [[_ ->]
       |(next & _ & [[_ ->]
       |(st & loc & _ & _ & [[_ ->]
       |(seconds & metres & _ & _ & [[_ ->]|[_ ->]])])])])];
    unfold asked_world; simpl.
  - eexists [_]. split; [done|]. by left.
  - eexists [_]. split; [done|]. by left.
  - eexists [_; _]. split; [by rewrite <- app_assoc|]. by left.
  - eexists [_; _; _; _]. split; [by rewrite <- !app_assoc|].
    right. by eexists.
  - eexists [_; _; _; _; _]. split; [by rewrite <- !app_assoc|].
    right. by eexists.
  - eexists [_; _; _; _; _]. split; [by rewrite <- !app_assoc|].
    right. by eexists.
Qed.

(** What a report answered with a next stop has stored. *)
Lemma updateBusLocation_stored now req w t w' next :
  updateBusLocation now req w = (res_json (TrackingBody t), w') →
  TrackingData.nextStation t = Some next →
  ∃ bus seconds metres,
    buses w !! LocationRequest.id req = Some bus
    ∧ t = estimate_snapshot req bus next seconds metres
    ∧ buses w' = <[LocationRequest.id req := located_bus now req seconds bus]> (buses w)
    ∧ stationDocs w' = stationDocs w.
Proof.
  intros Hrun Hnext.
  destruct (updateBusLocation_cases now req w)
    as [[Hnone Heq]
       |(bus & Hbus & [[_ Heq]
       |(nid & _ & [[_ Heq]
       |(st & loc & _ & _ & [[_ Heq]
       |(seconds & metres & _ & _ & [[_ Heq]|[_ Heq]])])])])];
    rewrite Heq in Hrun; simplify_eq/=.
  by exists bus, seconds, metres.
Qed.

(** X5. What a stored report leaves behind agrees with what it answered:
    when a report is answered with a next stop, the stored vehicle carries
    the time of the update as [lastUpdateTime] and, if it has a route, the
    answered [eta] as the route's [estimatedTime]. *)
Theorem updateBusLocation_stored_estimate now req w t w' next :
  updateBusLocation now req w = (res_json (TrackingBody t), w') →
  TrackingData.nextStation t = Some next →
  ∃ bus' minutes,
    buses w' !! LocationRequest.id req = Some bus'
    ∧ TrackingData.eta t = Some minutes
    ∧ Bus.lastUpdateTime bus' = now
    ∧ (∀ r, Bus.route bus' = Some r → estimatedTime r = inject_Z minutes).
Proof.
  intros Hrun Hnext.
  destruct (updateBusLocation_stored now req w t w' next Hrun Hnext)
    as (bus & seconds & metres & Hbus & -> & Hstored & _).
  exists (located_bus now req seconds bus), (Math_round (Number_div seconds 60)).
  split; [rewrite Hstored; apply lookup_insert_eq|].
  split; [done|]. split; [done|].
  intros r. unfold located_bus. simpl.
  destruct (Bus.route bus); [|done]. by intros [= <-].
Qed.

(** X6. When the next stop of the vehicle names a station whose document
    is missing or carries no location, the report is answered 200 with
    [nextStation], [eta] and [distanceToNext] null: the oracle is not
    consulted and the reported position is not stored. *)
Theorem updateBusLocation_dangling_next_stop now req w bus next :
  buses w !! LocationRequest.id req = Some bus →
  nextStationId bus = Some next →
  (∀ st, stationDocs w !! next = Some st → Station.location st = None) →
  fst (updateBusLocation now req w) = res_json (TrackingBody (bare_snapshot req bus))
  ∧ buses (snd (updateBusLocation now req w)) = buses w
  ∧ log (snd (updateBusLocation now req w))
    = log w ++ [BusFindById (LocationRequest.id req); StationFindById next].
Proof.
  intros Hbus Hnext Hdoc.
  rewrite (updateBusLocation_unresolved now req w bus next) by done.
  simpl. by rewrite <- app_assoc.
Qed.

(** X7. Reporting the same position twice in a row infers the same
    progress: when both reports are answered with a snapshot, the two
    snapshots name the same current stop and the same next stop. *)
Theorem updateBusLocation_repeat now1 now2 req w t1 t2 :
  fst (updateBusLocation now1 req w) = res_json (TrackingBody t1) →
  fst (updateBusLocation now2 req (snd (updateBusLocation now1 req w)))
  = res_json (TrackingBody t2) →
  TrackingData.currentStation t1 = TrackingData.currentStation t2
  ∧ TrackingData.nextStation t1 = TrackingData.nextStation t2
  ∧ TrackingData.location t1 = TrackingData.location t2
  ∧ TrackingData.status t1 = TrackingData.status t2.
Proof.
  destruct (updateBusLocation_cases now1 req w)
    as [[Hnone ->]
       |(bus & Hbus & [[Hnext ->]
       |(next & Hnext & [[Hdoc ->]
       |(st & loc & Hst & Hloc & [[_ ->]
       |(seconds & metres & Heta & Hdist & [[_ ->]|[_ ->]])])])])];
    simpl; intros H1 H2; simplify_eq/=.
  - rewrite (updateBusLocation_no_next now2 req _ bus) in H2 by done.
    by simplify_eq/=.
  - rewrite (updateBusLocation_unresolved now2 req _ bus next) in H2 by done.
    by simplify_eq/=.
  - rewrite (updateBusLocation_resolved now2 req _
               (located_bus now1 req seconds bus) next st loc) in H2;
      [|apply lookup_insert_eq|by rewrite nextStationId_located|done|done].
    rewrite Heta, Hdist in H2. simpl in H2.
    destruct (validate _); by simplify_eq/=.
Qed.

Lemma Math_round_nonneg (x : Q) : (0 <= x)%Q → (0 ≤ Math_round x)%Z.
Proof.
  intros Hx. unfold Math_round.
  change 0%Z with (Qfloor 0). apply Qfloor_resp_le.
  apply Qle_trans with x; [done|].
  rewrite <- (Qplus_0_r x) at 1. by apply Qplus_le_r.
Qed.

(** X8. If the oracle never answers a negative duration or distance, no
    snapshot carries a negative [eta] or [distanceToNext]. *)
Theorem updateBusLocation_estimates_nonnegative now req w t :
  (∀ origin destination seconds,
     eta_response origin destination = Done seconds → (0 <= seconds)%Q) →
  (∀ origin destination metres,
     distance_response origin destination = Done metres → (0 <= metres)%Q) →
  fst (updateBusLocation now req w) = res_json (TrackingBody t) →
  (∀ minutes, TrackingData.eta t = Some minutes → (0 ≤ minutes)%Z)
  ∧ (∀ whole, TrackingData.distanceToNext t = Some whole → (0 ≤ whole)%Z).
Proof.
  intros Hduration Hdistance.
  destruct (updateBusLocation_cases now req w)
    as [[Hnone ->]
       |(bus & Hbus & [[_ ->]
       |(next & _ & [[_ ->]
       |(st & loc & _ & _ & [[_ ->]
       |(seconds & metres & Heta & Hdist & [[_ ->]|[_ ->]])])])])];
    simpl; intros Ht; simplify_eq/=; try by split.
  split; intros m [= <-]; apply Math_round_nonneg.
  - apply Hduration in Heta. unfold Number_div. apply binary64_nonneg.
    unfold Qdiv. apply Qmult_le_0_compat; [done|]. by compute.
  - by apply Hdistance in Hdist.
Qed.

End LocationPasses.

(** ** Field updates: every request *)

Section UpdatePasses.
Context {model : BusModel}.

(** The passes of [updateBus], exhaustively. *)
Lemma updateBus_cases req w :
  let id := UpdateRequest.id req in
  (UpdateRequest.user req = None ∧ updateBus req w = (update_rejected, w))
  ∨ ∃ user, UpdateRequest.user req = Some user ∧
      ((role user ≠ "STATION_ADMIN"
        ∧ updateBus req w = write_back id (UpdateRequest.body req) w)
       ∨ (role user = "STATION_ADMIN" ∧
          ((stationId user = None
            ∧ updateBus req w = (station_admin_unassigned, w))
           ∨ ∃ station, stationId user = Some station ∧
               ((buses w !! id = None
                 ∧ updateBus req w = (bus_not_found, emit (BusFindById id) w))
                ∨ ∃ bus, buses w !! id = Some bus ∧
                    ((updateBus req w = (not_authorized, emit (BusFindById id) w)
                      ∧ ¬ ∃ r, Bus.route bus = Some r ∧ station ∈ stations r
                               ∧ is_Some (stationDocs w !! station))
                     ∨ (updateBus req w
                        = write_back id (filteredUpdateData (UpdateRequest.body req))
                            (emit (BusFindById id) w)
                        ∧ ∃ r, Bus.route bus = Some r ∧ station ∈ stations r
                               ∧ is_Some (stationDocs w !! station))))))).
Proof.
  intros id. subst id.
  destruct (UpdateRequest.user req) as [user|] eqn:Huser; cycle 1.
  { left. split; [done|]. unfold updateBus. by rewrite Huser. }
  right. exists user. split; [done|].
  destruct (decide (role user = "STATION_ADMIN")) as [Hrole|Hrole]; cycle 1.
  { left. split; [done|]. rewrite <- write_back_run.
    unfold updateBus, authorize. rewrite Huser.
    apply String.eqb_neq in Hrole. rewrite Hrole.
    unfold try_catch, bind, ret. simpl.
    by destruct (Bus_findByIdAndUpdate _ _ w) as [[[?|]|] ?]. }
  right. split; [done|].
  destruct (stationId user) as [station|] eqn:Hstation; cycle 1.
  { left. split; [done|]. unfold updateBus, authorize.
    by rewrite Huser, Hrole, Hstation. }
  right. exists station. split; [done|].
  assert (updateBus req w
          = match buses w !! UpdateRequest.id req with
            | None => (bus_not_found, emit (BusFindById (UpdateRequest.id req)) w)
            | Some b =>
                match Bus.route b with
                | Some r =>
                    if existsb (λ doc : StationDocument, String.eqb (fst doc) station)
                         (populate w (stations r))
                    then write_back (UpdateRequest.id req)
                           (filteredUpdateData (UpdateRequest.body req))
                           (emit (BusFindById (UpdateRequest.id req)) w)
                    else (not_authorized, emit (BusFindById (UpdateRequest.id req)) w)
                | None => (not_authorized, emit (BusFindById (UpdateRequest.id req)) w)
                end
            end) as Hrun.
  { unfold updateBus, authorize. rewrite Huser, Hrole, Hstation. simpl.
    unfold try_catch at 1. unfold bind at 1. unfold bind at 1.
    unfold Bus_findById_populate_route. simpl.
    destruct (buses w !! UpdateRequest.id req) as [b|]; simpl; [|done].
    destruct (Bus.route b) as [r|]; simpl; [|done].
    destruct (existsb _ _); simpl; [|done].
    rewrite <- write_back_run. unfold try_catch, bind, ret. simpl.
    by destruct (Bus_findByIdAndUpdate _ _ _) as [[[?|]|] ?]. }
  rewrite Hrun.
  destruct (buses w !! UpdateRequest.id req) as [bus|]; [|by left].
  right. exists bus. split; [done|].
  destruct (Bus.route bus) as [r|] eqn:Hr; cycle 1.
  { left. split; [done|]. by intros (r & [=] & _). }
  destruct (existsb _ _) eqn:Hsome.
  - right. split; [done|]. apply some_station_spec in Hsome as [? ?]. by exists r.
  - left. split; [done|]. intros (r' & [= <-] & Hon & Hdoc).
    apply not_true_iff_false in Hsome. apply Hsome. by apply some_station_spec.
Qed.

Lemma write_back_frame id data w :
  stationDocs (snd (write_back id data w)) = stationDocs w
  ∧ (∀ other, other ≠ id → buses (snd (write_back id data w)) !! other = buses w !! other)
  ∧ (buses w !! id = None → buses (snd (write_back id data w)) !! id = None)
  ∧ (statusCode (fst (write_back id data w)) ≠ 200%Z
     → buses (snd (write_back id data w)) = buses w).
Proof.
  unfold write_back.
  destruct (buses w !! id) as [bus|] eqn:Hbus; [|by repeat split].
  destruct (applyUpdate bus data); simpl; [|by repeat split].
  repeat split; try done.
  intros other Hother. by rewrite lookup_insert_ne.
Qed.

(** X9. Whoever asks and whatever is proposed, [updateBus] leaves the
    station collection and every vehicle other than the addressed one as
    they were, cannot create the addressed vehicle, and changes nothing at
    all unless it answers 200. *)
Theorem updateBus_frame req w :
  let id := UpdateRequest.id req in
  let after := snd (updateBus req w) in
  stationDocs after = stationDocs w
  ∧ (∀ other, other ≠ id → buses after !! other = buses w !! other)
  ∧ (buses w !! id = None → buses after !! id = None)
  ∧ (statusCode (fst (updateBus req w)) ≠ 200%Z → buses after = buses w).
Proof.
  intros id after. subst id after.
  destruct (updateBus_cases req w)
    as [[_ ->]
       |(user & _ & [[_ ->]
       |[_ [[_ ->]
       |(station & _ & [[_ ->]
       |(bus & _ & [[-> _]|[-> _]])])]]])];
    try (simpl; by repeat split).
  - apply write_back_frame.
  - exact (write_back_frame (UpdateRequest.id req)
             (filteredUpdateData (UpdateRequest.body req))
             (emit (BusFindById (UpdateRequest.id req)) w)).
Qed.

(** X10. A station admin who is not assigned to a station is turned away
    with 403 "Station admin not associated with any station" before the
    store is touched: no lookup, no write, whatever the vehicle and the
    proposed fields. *)
Theorem updateBus_station_admin_unassigned req w user :
  UpdateRequest.user req = Some user →
  role user = "STATION_ADMIN" →
  stationId user = None →
  updateBus req w = (station_admin_unassigned, w)
  ∧ statusCode station_admin_unassigned = 403%Z
  ∧ station_admin_unassigned ≠ not_authorized.
Proof.
  intros Huser Hrole Hstation.
  destruct (updateBus_cases req w)
    as [[? _]
       |(user' & Huser' & [[? _]
       |[_ [[_ ->]|(station & ? & _)]]])];
    simplify_eq; done.
Qed.


(** X12. Filtering is a projection: what survives the station admin's
    filter is part of what was proposed, and filtering it again changes
    nothing. *)
Theorem filteredUpdateData_projection (updateData : UpdateData) :
  filteredUpdateData updateData ⊆ updateData
  ∧ filteredUpdateData (filteredUpdateData updateData) = filteredUpdateData updateData.
Proof.
  split.
  - apply map_subseteq_spec. intros key value.
    rewrite filteredUpdateData_lookup. by destruct (allowed_key key).
  - apply map_eq. intros key. rewrite !filteredUpdateData_lookup.
    by destruct (allowed_key key).
Qed.

End UpdatePasses.

(** ** Registration: every request *)

Section CreatePasses.
Context {model : BusModel} {dates : DateFormat}.

(** The passes of [createBus], exhaustively. *)
Lemma createBus_cases newId now b w :
  createBus newId now b w = (missing_fields, w)
  ∨ ∃ bus,
      Bus.currentStationId bus = None
      ∧ Bus.currentLocation bus = {| coordinates := (0, 0)%Q |}
      ∧ Bus.driverId bus = None
      ∧ ((validate bus = false
          ∧ createBus newId now b w
            = (res_status 400 (ErrorBody "Failed to create bus" None),
               emit (BusSave newId bus) w))
         ∨ (duplicate_key newId bus w = true
            ∧ createBus newId now b w
              = (res_status 400
                   (ErrorBody "Bus number or device ID already exists" None),
                 emit (BusSave newId bus) w))
         ∨ (duplicate_key newId bus w = false
            ∧ createBus newId now b w
              = (res_status 201 (BusBody newId bus),
                 put_bus newId bus (emit (BusSave newId bus) w)))).
Proof.
  unfold createBus.
  destruct (negb (truthy_string (CreateBody.busNumber b))
            || negb (truthy_string (CreateBody.routeNumber b))
            || negb (truthy_number (CreateBody.capacity b))
            || negb (truthy_string (CreateBody.deviceId b))); [by left|].
  destruct (CreateBody.busNumber b) as [bn|]; [|by left].
  destruct (CreateBody.routeNumber b) as [rn|]; [|by left].
  destruct (CreateBody.capacity b) as [cap|]; [|by left].
  destruct (CreateBody.deviceId b) as [dev|]; [|by left].
  right. exists (new_bus now bn rn cap dev b). do 3 (split; [done|]).
  unfold try_catch, bind, Bus_insert, ret. simpl.
  destruct (validate _); simpl; [|by left].
  destruct (duplicate_key _ _ w); simpl; right; [left|right]; by split.
Qed.

(** X13. A registration in which one of [busNumber], [routeNumber],
    [capacity] and [deviceId] is missing or falsy (an empty string, a
    capacity of 0) is answered 400 "Missing required fields" without any
    store call. *)
Theorem createBus_missing_fields newId now b w :
  truthy_string (CreateBody.busNumber b) = false
  ∨ truthy_string (CreateBody.routeNumber b) = false
  ∨ truthy_number (CreateBody.capacity b) = false
  ∨ truthy_string (CreateBody.deviceId b) = false →
  createBus newId now b w = (missing_fields, w)
  ∧ statusCode missing_fields = 400%Z.
Proof.
  intros Hmissing. split; [|done]. unfold createBus.
  destruct Hmissing as [-> | [-> | [-> | ->]]]; simpl;
    rewrite ?orb_true_r; done.
Qed.

(** X14. A registration is all or nothing and never overwrites: either it
    answers 201 and the collection gains exactly the new vehicle under an
    identifier that was free, or it answers 400 and the collection is what
    it was. The stations are never touched. *)
Theorem createBus_all_or_nothing newId now b w :
  let after := snd (createBus newId now b w) in
  stationDocs after = stationDocs w
  ∧ ((∃ bus,
        fst (createBus newId now b w) = res_status 201 (BusBody newId bus)
        ∧ buses w !! newId = None
        ∧ buses after = <[newId := bus]> (buses w))
     ∨ (statusCode (fst (createBus newId now b w)) = 400%Z
        ∧ buses after = buses w)).
Proof.
  intros after. subst after.
  destruct (createBus_cases newId now b w)
    as [->|(bus & _ & _ & _ & [[_ ->]|[[_ ->]|[Hfree ->]]])];
    simpl; (split; [done|]); try (by right).
  left. exists bus. split; [done|]. split; [|done].
  unfold duplicate_key in Hfree. apply orb_false_iff in Hfree as [Hid _].
  apply bool_decide_eq_false in Hid. by apply eq_None_not_Some.
Qed.

End CreatePasses.

(** ** Registration followed by a position report *)

Section CreateThenReport.
Context {osrm : OSRMService} {model : BusModel} {dates : DateFormat}.

(** X15. A vehicle is registered without a current stop, so the position
    reports of a newly registered vehicle are answered 200 with
    [nextStation], [eta] and [distanceToNext] null and are not stored,
    whatever route the registration carried and whatever is reported. *)
Theorem createBus_then_report newId now b w bus registered later req :
  createBus newId now b w = (res_status 201 (BusBody newId bus), registered) →
  LocationRequest.id req = newId →
  updateBusLocation later req registered
  = (res_json (TrackingBody (bare_snapshot req bus)),
     emit (BusFindById newId) registered)
  ∧ TrackingData.nextStation (bare_snapshot req bus) = None
  ∧ buses (snd (updateBusLocation later req registered)) !! newId = Some bus
  ∧ Bus.currentLocation bus = {| coordinates := (0, 0)%Q |}.
Proof.
  intros Hcreate Hid.
  destruct (createBus_cases newId now b w)
    as [Heq|(bus' & Hcur & Hloc & _ & [[_ Heq]|[[_ Heq]|[_ Heq]]])];
    rewrite Heq in Hcreate; simplify_eq/=.
  assert (buses (put_bus (LocationRequest.id req) bus
                   (emit (BusSave (LocationRequest.id req) bus) w))
            !! LocationRequest.id req = Some bus) as Hstored
    by apply lookup_insert_eq.
  rewrite (updateBusLocation_no_next later req _ bus Hstored
             (nextStationId_unset bus Hcur)).
  by repeat split.
Qed.

End CreateThenReport.

(** ** The read paths: every request *)

Section ReadPasses.
Context {osrm : OSRMService} {model : BusModel} {order : FindOrder}.

(** What a tracking answer says about the vehicle is what is stored; the
    one other answer for a stored vehicle is the 400 of a rejected oracle
    query, asked from the stored point to the location of a station
    document. *)
Lemma getBusTrackingInfo_stored id w bus :
  buses w !! id = Some bus →
  (fst (getBusTrackingInfo id w) = fetch_failed
   ∧ ∃ stop st loc e,
       stationDocs w !! stop = Some st
       ∧ Station.location st = Some loc
       ∧ (eta_response (point_latlng (Bus.currentLocation bus)) (point_latlng loc)
          = Throw e
          ∨ distance_response (point_latlng (Bus.currentLocation bus))
              (point_latlng loc) = Throw e))
  ∨ ∃ info,
      fst (getBusTrackingInfo id w) = res_json (TrackingInfoBody info)
      ∧ TrackingInfo.busNumber info = Bus.busNumber bus
      ∧ TrackingInfo.status info = Bus.status bus
      ∧ TrackingInfo.lastUpdateTime info = Bus.lastUpdateTime bus
      ∧ TrackingInfo.route info
        = (λ r, (populate w (stations r), estimatedTime r)) <$> Bus.route bus.
Proof.
  intros Hbus.
  unfold getBusTrackingInfo, try_catch, bind, Bus_findById_populated,
    Station_findById, Promise_all, OSRMService_calculateETA,
    OSRMService_calculateDistance, ret.
  simpl. rewrite Hbus. simpl.
  repeat (case_match; simplify_eq/=);
    try (by right; eexists; split; [reflexivity|by repeat split]);
    left; (split; [done|]);
    match goal with
    | H : _ <$> stationDocs w !! ?k = Some _ |- _ =>
        destruct (stationDocs w !! k) as [st|] eqn:Hst; simplify_eq/=
    end;
    eexists _, _, _, _; (split; [exact Hst|]); (split; [reflexivity|]); eauto.
Qed.

(** X16. [getBusTrackingInfo] only reads: whatever it answers, both
    collections are what they were; and for an identifier that is not in
    the collection it answers 404 "Bus not found". *)
Theorem getBusTrackingInfo_read_only id w :
  buses (snd (getBusTrackingInfo id w)) = buses w
  ∧ stationDocs (snd (getBusTrackingInfo id w)) = stationDocs w
  ∧ (buses w !! id = None
     → getBusTrackingInfo id w = (bus_not_found, emit (BusFindById id) w)).
Proof.
  unfold getBusTrackingInfo, try_catch, bind, Bus_findById_populated,
    Station_findById, Promise_all, OSRMService_calculateETA,
    OSRMService_calculateDistance, ret.
  simpl. destruct (buses w !! id) as [bus|]; simpl; [|done].
  split; [|split; [|done]]; repeat (case_match; simplify_eq/=); done.
Qed.

(** X17. The time and the estimate of a stored report can be read back:
    after a report answered with a next stop at time [now],
    [getBusTrackingInfo] answers with [lastUpdateTime] equal to [now] and,
    for a vehicle with a route, with the route's [estimatedTime] equal to
    the [eta] that the report was answered with; the one other answer it
    can give is the 400 of a rejected oracle query of its own, asked from
    the reported position to the location of a station document. *)
Theorem reported_estimate_round_trip now req w t w' next :
  updateBusLocation now req w = (res_json (TrackingBody t), w') →
  TrackingData.nextStation t = Some next →
  (fst (getBusTrackingInfo (LocationRequest.id req) w') = fetch_failed
   ∧ ∃ stop st loc e,
       stationDocs w' !! stop = Some st
       ∧ Station.location st = Some loc
       ∧ (eta_response (reported req) (point_latlng loc) = Throw e
          ∨ distance_response (reported req) (point_latlng loc) = Throw e))
  ∨ ∃ info minutes,
      fst (getBusTrackingInfo (LocationRequest.id req) w')
      = res_json (TrackingInfoBody info)
      ∧ TrackingInfo.lastUpdateTime info = now
      ∧ TrackingData.eta t = Some minutes
      ∧ (∀ docs estimate, TrackingInfo.route info = Some (docs, estimate)
                          → estimate = inject_Z minutes).
Proof.
  intros Hrun Hnext.
  destruct (updateBusLocation_stored now req w t w' next Hrun Hnext)
    as (bus & seconds & metres & Hbus & -> & Hbuses & _).
  assert (buses w' !! LocationRequest.id req
          = Some (located_bus now req seconds bus)) as Hstored
    by (rewrite Hbuses; apply lookup_insert_eq).
  destruct (getBusTrackingInfo_stored _ _ _ Hstored)
    as [Hfailed|(info & Hinfo & _ & _ & Hlast & Hroute)]; [left; exact Hfailed|].
  right. exists info, (Math_round (Number_div seconds 60)).
  split; [done|]. split; [done|]. split; [done|].
  intros docs estimate. rewrite Hroute. unfold located_bus. simpl.
  destruct (Bus.route bus) as [r|]; [|done]. by intros [= _ <-].
Qed.

(** X18. A vehicle whose current stop is unset, or names a station whose
    document is gone, is tracked without estimate: [getBusTrackingInfo]
    answers 200 with [nextStation], [eta] and [distanceToNext] null after
    the one lookup, without consulting the oracle, even when the stop is
    on the vehicle's route. *)
Theorem getBusTrackingInfo_without_current_stop id w bus :
  buses w !! id = Some bus →
  (∀ cur, Bus.currentStationId bus = Some cur → stationDocs w !! cur = None) →
  ∃ info,
    getBusTrackingInfo id w
    = (res_json (TrackingInfoBody info), emit (BusFindById id) w)
    ∧ TrackingInfo.currentStation info = None
    ∧ TrackingInfo.nextStation info = None
    ∧ TrackingInfo.eta info = None
    ∧ TrackingInfo.distanceToNext info = None
    ∧ TrackingInfo.currentLocation info = point_latlng (Bus.currentLocation bus).
Proof.
  intros Hbus Hcur.
  assert (Bus.currentStationId bus
            ≫= (λ i, (λ s : Station.t, (i, s)) <$> stationDocs w !! i) = None)
    as Hpop.
  { destruct (Bus.currentStationId bus) as [cur|]; [|done]. simpl.
    by rewrite (Hcur cur eq_refl). }
  unfold getBusTrackingInfo, try_catch, bind, Bus_findById_populated, ret.
  simpl. rewrite Hbus. simpl. rewrite Hpop. simpl.
  assert (∀ docs : list StationDocument,
            findIndex (λ station, same_id (fst station) None) docs = (-1)%Z) as Hidx.
  { intros docs. unfold findIndex. apply findIndex_from_none.
    apply Forall_forall. by intros. }
  destruct (Bus.route bus) as [r|]; simpl; rewrite ?Hidx; simpl;
    eexists; (split; [reflexivity|by repeat split]).
Qed.

(** X19. [getBusLocations] lists nothing but stored vehicles that serve
    the asking user's station and are ACTIVE or INACTIVE, each with its
    stored point read as [lat = coordinates[1]], [lng = coordinates[0]] and
    its status in lower case, "active" or "inactive"; it only reads. *)
Theorem getBusLocations_sound user station w :
  stationId user = Some station →
  ∃ locations,
    getBusLocations (Some user) w
    = (res_json (LocationsBody locations), emit (BusFind station) w)
    ∧ ∀ entry, entry ∈ locations →
        ∃ id bus r,
          buses w !! id = Some bus
          ∧ entry = bus_location bus
          ∧ Bus.route bus = Some r ∧ station ∈ stations r
          ∧ Bus.status bus ∈ ["ACTIVE"; "INACTIVE"]
          ∧ BusLocation.status entry ∈ ["active"; "inactive"]
          ∧ BusLocation.location entry = point_latlng (Bus.currentLocation bus).
Proof.
  intros Hstation.
  unfold getBusLocations, try_catch, bind, Bus_find_at_station, ret.
  rewrite Hstation. simpl. eexists. split; [reflexivity|].
  intros entry Hentry.
  apply list_elem_of_In, in_map_iff in Hentry as ([id bus] & <- & Hin).
  apply list_elem_of_In in Hin. rewrite natural_order_perm in Hin.
  apply list_elem_of_In, filter_In in Hin as [Hin Hcond].
  apply list_elem_of_In, elem_of_map_to_list in Hin.
  apply andb_true_iff in Hcond as [Hserves Hstatus].
  destruct (Bus.route bus) as [r|] eqn:Hr; [|done].
  apply (proj1 (includes_spec (stations r) station)) in Hserves.
  apply (proj1 (includes_spec ["ACTIVE"; "INACTIVE"] (Bus.status bus))) in Hstatus.
  exists id, bus, r. do 5 (split; [done|]). split; [|done].
  simpl. apply elem_of_cons in Hstatus as [->|Hstatus]; [by left|].
  apply elem_of_cons in Hstatus as [->|Hstatus]; [right; by left|].
  by apply elem_of_nil in Hstatus.
Qed.

End ReadPasses.

(** ** The remaining handlers *)

Section RemainingHandlers.
Context {osrm : OSRMService} {model : BusModel} {dates : DateFormat}
        {directory : DriverDirectory} {routing : OSRMRouting}
        {roles : UserRoles} {messages : ErrorMessages} {order : FindOrder}.

(** X20. After [deleteBus] the identifier is free, whether or not it was
    taken: the collection is the old one without that vehicle, every other
    vehicle and every station is untouched; the answer is 200 "Bus deleted
    successfully" exactly when the vehicle existed, and 404 "Bus not
    found" otherwise. *)
Theorem deleteBus_effect id w :
  let after := snd (deleteBus id w) in
  buses after = delete id (buses w)
  ∧ buses after !! id = None
  ∧ (∀ other, other ≠ id → buses after !! other = buses w !! other)
  ∧ stationDocs after = stationDocs w
  ∧ (fst (deleteBus id w) = reply_json (Message "Bus deleted successfully")
     ↔ is_Some (buses w !! id))
  ∧ (fst (deleteBus id w) = reply_error 404 "Bus not found"
     ↔ buses w !! id = None).
Proof.
  intros after. subst after.
  unfold deleteBus, attempt, bind, Bus_findByIdAndDelete, ret. simpl.
  split; [by destruct (buses w !! id)|].
  split; [destruct (buses w !! id); simpl; apply lookup_delete_eq|].
  split.
  { intros other Hother. destruct (buses w !! id); simpl;
      by apply lookup_delete_ne. }
  split; [by destruct (buses w !! id)|].
  destruct (buses w !! id) as [bus|]; simpl; split; split; try done.
  all: first [intros _; by eexists | by intros [? ?]].
Qed.

Lemma deleteBus_gone_lookup id w : buses (snd (deleteBus id w)) !! id = None.
Proof.
  unfold deleteBus, attempt, bind, Bus_findByIdAndDelete, ret. simpl.
  destruct (buses w !! id); simpl; apply lookup_delete_eq.
Qed.

(** X21. A deleted vehicle is gone for every handler that addresses a
    vehicle by identifier: a position report, a tracking query, a lookup,
    a driver assignment and a second deletion are all answered 404. *)
Theorem deleteBus_then_not_found id w now req driverId :
  LocationRequest.id req = id →
  let gone := snd (deleteBus id w) in
  fst (updateBusLocation now req gone) = bus_not_found
  ∧ fst (getBusTrackingInfo id gone) = bus_not_found
  ∧ fst (getBusById id gone) = reply_error 404 "Bus not found"
  ∧ fst (assignDriver id driverId gone) = reply_error 404 "Bus not found"
  ∧ fst (deleteBus id gone) = reply_error 404 "Bus not found".
Proof.
  intros Hid gone.
  assert (buses gone !! id = None) as Hgone by apply deleteBus_gone_lookup.
  split; [by rewrite updateBusLocation_unknown_bus; rewrite ?Hid|].
  split.
  { unfold getBusTrackingInfo, try_catch, bind, Bus_findById_populated.
    simpl. by rewrite Hgone. }
  split.
  { unfold getBusById, attempt, bind, Bus_findById. simpl. by rewrite Hgone. }
  split.
  { unfold assignDriver, attempt, bind, Bus_setDriver. simpl. by rewrite Hgone. }
  unfold deleteBus at 1. unfold attempt, bind, Bus_findByIdAndDelete. simpl.
  by rewrite Hgone.
Qed.

(** X22. A vehicle that was registered can be looked up: after a 201,
    [getBusById] on the new identifier answers 200 with the document that
    the registration answered, and with no driver and no current station
    to show. *)
Theorem createBus_then_getBusById newId now b w bus registered :
  createBus newId now b w = (res_status 201 (BusBody newId bus), registered) →
  ∃ detail,
    getBusById newId registered
    = (reply_json (OneBus detail), emit (BusFindById newId) registered)
    ∧ BusView.id (BusDetail.view detail) = newId
    ∧ BusView.bus (BusDetail.view detail) = bus
    ∧ BusView.driver (BusDetail.view detail) = None
    ∧ BusView.currentStation (BusDetail.view detail) = None.
Proof.
  intros Hcreate.
  destruct (createBus_cases newId now b w)
    as [Heq|(bus' & Hcur & _ & Hdriver & [[_ Heq]|[[_ Heq]|[_ Heq]]])];
    rewrite Heq in Hcreate; simplify_eq/=.
  unfold getBusById, attempt, bind, Bus_findById, ret. simpl.
  rewrite lookup_insert_eq. simpl.
  eexists. split; [reflexivity|]. simpl. rewrite Hcur, Hdriver. by repeat split.
Qed.

(** X23. [assignDriver] writes one field of one vehicle: the addressed
    vehicle gets the driver and keeps its position, update time, route,
    status and current stop, hence its next stop; every other vehicle and
    every station is untouched; and for an identifier that is not in the
    collection the answer is 404 and nothing is stored. *)
Theorem assignDriver_effect id driverId w :
  let after := snd (assignDriver id driverId w) in
  stationDocs after = stationDocs w
  ∧ (∀ other, other ≠ id → buses after !! other = buses w !! other)
  ∧ (buses w !! id = None
     → fst (assignDriver id driverId w) = reply_error 404 "Bus not found"
       ∧ buses after = buses w)
  ∧ (∀ bus, buses w !! id = Some bus →
       ∃ bus',
         buses after !! id = Some bus'
         ∧ fst (assignDriver id driverId w) = reply_json (Plain (BusBody id bus'))
         ∧ Bus.driverId bus' = Some driverId
         ∧ Bus.currentLocation bus' = Bus.currentLocation bus
         ∧ Bus.lastUpdateTime bus' = Bus.lastUpdateTime bus
         ∧ Bus.route bus' = Bus.route bus
         ∧ Bus.status bus' = Bus.status bus
         ∧ Bus.currentStationId bus' = Bus.currentStationId bus
         ∧ nextStationId bus' = nextStationId bus).
Proof.
  intros after. subst after.
  unfold assignDriver, attempt, bind, Bus_setDriver, ret. simpl.
  destruct (buses w !! id) as [bus|] eqn:Hbus; simpl.
  - split; [done|]. split; [intros other Hother; by rewrite lookup_insert_ne|].
    split; [done|]. intros ? [= <-]. exists (with_driver driverId bus).
    split; [apply lookup_insert_eq|]. by repeat split.
  - by repeat split.
Qed.

(** Filtering the documents of a collection, then populating each. *)
Lemma elem_of_found {A} (condition : Bus.t → bool) (view : ObjectId → Bus.t → A)
    (m : gmap ObjectId Bus.t) (x : A) :
  x ∈ map (λ '(id, bus), view id bus)
        (List.filter (λ '(_, bus), condition bus) (map_to_list m))
  ↔ ∃ id bus, m !! id = Some bus ∧ x = view id bus ∧ condition bus = true.
Proof.
  rewrite list_elem_of_In, in_map_iff. split.
  - intros ([id bus] & <- & Hin). apply filter_In in Hin as [Hin Hcond].
    apply list_elem_of_In, elem_of_map_to_list in Hin. by exists id, bus.
  - intros (id & bus & Hbus & -> & Hcond). exists (id, bus). split; [done|].
    apply filter_In. split; [|done].
    by apply list_elem_of_In, elem_of_map_to_list.
Qed.

(** X24. [getBuses] answers 200 with exactly the stored vehicles that
    match the query: a truthy [status] parameter must equal the vehicle's
    status, a truthy [routeNumber] parameter its route number, and an
    absent or empty parameter constrains nothing. It only reads. *)
Theorem getBuses_spec status routeNumber w :
  ∃ views,
    getBuses status routeNumber w = (reply_json (BusViews views), w)
    ∧ (∀ v, v ∈ views
            ↔ ∃ bus,
                buses w !! BusView.id v = Some bus
                ∧ v = bus_view w (BusView.id v) bus
                ∧ (∀ s, status = Some s → s ≠ "" → Bus.status bus = s)
                ∧ (∀ n, routeNumber = Some n → n ≠ "" → Bus.routeNumber bus = n)).
Proof.
  unfold getBuses, attempt, bind, Bus_find, ret. simpl.
  eexists. split; [reflexivity|]. intros v.
  rewrite natural_order_perm.
  rewrite (elem_of_found
             (λ bus, query_matches status (Bus.status bus)
                     && query_matches routeNumber (Bus.routeNumber bus))
             (bus_view w)).
  assert (∀ wanted field,
            query_matches wanted field = true
            ↔ ∀ s, wanted = Some s → s ≠ "" → field = s) as Hmatch.
  { intros [s|] field; simpl.
    - destruct (String.eqb_spec s "") as [->|Hne].
      + split; [by intros _ ? [= <-] ?|done].
      + rewrite String.eqb_eq. split; [by intros -> ? [= <-] _|].
        intros Hs. by apply Hs.
    - split; [by intros _ ? [=]|done]. }
  split.
  - intros (id & bus & Hbus & -> & Hcond).
    apply andb_true_iff in Hcond as [Hs Hn]. exists bus. simpl.
    split; [done|]. split; [done|]. by split; apply Hmatch.
  - intros (bus & Hbus & Hv & Hs & Hn). exists (BusView.id v), bus.
    split; [done|]. split; [done|].
    apply andb_true_iff. by split; apply Hmatch.
Qed.

(** The list of [getStationBuses]: the detail of each stored vehicle
    that serves the station, in the store's order. *)
Lemma getStationBuses_listed user station w :
  role user = UserRole_STATION_ADMIN →
  stationId user = Some station →
  ∃ details,
    getStationBuses (Some user) w = (reply_json (BusDetails details), w)
    ∧ details
      ≡ₚ map (λ '(id, bus), bus_detail w id bus)
           (List.filter (λ '(_, bus), serves station bus) (map_to_list (buses w)))
    ∧ ∀ id bus, bus_detail w id bus ∈ details
                ↔ buses w !! id = Some bus
                  ∧ ∃ r, Bus.route bus = Some r ∧ station ∈ stations r.
Proof.
  intros Hrole Hstation.
  unfold getStationBuses, attempt, bind, Bus_find, ret.
  rewrite Hrole, String.eqb_refl, Hstation. simpl.
  eexists. split; [reflexivity|]. split; [by rewrite natural_order_perm|].
  intros id bus. rewrite natural_order_perm.
  rewrite (elem_of_found (serves station) (bus_detail w)).
  assert (serves station bus = true
          ↔ ∃ r, Bus.route bus = Some r ∧ station ∈ stations r) as Hserves.
  { unfold serves. destruct (Bus.route bus) as [r|].
    - rewrite includes_spec. split; [by exists r|]. by intros (? & [= <-] & ?).
    - split; [done|]. by intros (? & [=] & _). }
  split.
  - intros (id' & bus' & Hbus & Heq & Hcond).
    assert (id' = id ∧ bus' = bus) as [-> ->].
    { unfold bus_detail, bus_view in Heq. by simplify_eq. }
    split; [done|]. by apply Hserves.
  - intros [Hbus Hon]. exists id, bus. split; [done|]. split; [done|].
    by apply Hserves.
Qed.

(** X25. [getStationBuses] is for station admins with a station: it
    answers 401 without a user, 403 for any other role even when that user
    has a station, 403 for a station admin without a station, and 200
    otherwise; it never writes. *)
Theorem getStationBuses_access user w :
  snd (getStationBuses user w) = w
  ∧ (user = None → replyStatus (fst (getStationBuses user w)) = 401%Z)
  ∧ (∀ u, user = Some u →
       (role u ≠ UserRole_STATION_ADMIN ∨ stationId u = None)
       → replyStatus (fst (getStationBuses user w)) = 403%Z)
  ∧ (replyStatus (fst (getStationBuses user w)) = 200%Z
     ↔ ∃ u station, user = Some u ∧ role u = UserRole_STATION_ADMIN
                    ∧ stationId u = Some station).
Proof.
  unfold getStationBuses, attempt, bind, Bus_find, ret.
  destruct user as [u|]; simpl; cycle 1.
  { do 3 (split; [done|]). split; [done|]. by intros (? & ? & [=] & _). }
  destruct (String.eqb_spec (role u) UserRole_STATION_ADMIN) as [Hrole|Hrole];
    simpl; cycle 1.
  { do 2 (split; [done|]). split; [done|]. split; [done|].
    intros (? & ? & [= <-] & ? & _). done. }
  destruct (stationId u) as [station|] eqn:Hstation; simpl.
  - do 2 (split; [done|]). split.
    + intros ? [= <-] [?|?]; congruence.
    + split; [|done]. intros _. by exists u, station.
  - do 2 (split; [done|]). split; [done|]. split; [done|].
    intros (? & ? & [= <-] & _ & ?). congruence.
Qed.

(** X26. To a station admin with a station, [getStationBuses] lists
    exactly the stored vehicles whose route includes that station,
    whatever their status, each populated from its stored document. *)
Theorem getStationBuses_listing user station w :
  role user = UserRole_STATION_ADMIN →
  stationId user = Some station →
  ∃ details,
    getStationBuses (Some user) w = (reply_json (BusDetails details), w)
    ∧ (∀ d, d ∈ details
            → ∃ id bus, buses w !! id = Some bus ∧ d = bus_detail w id bus)
    ∧ (∀ id bus, bus_detail w id bus ∈ details
                 ↔ buses w !! id = Some bus
                   ∧ ∃ r, Bus.route bus = Some r ∧ station ∈ stations r).
Proof.
  intros Hrole Hstation.
  destruct (getStationBuses_listed user station w Hrole Hstation)
    as (details & Hrun & Hdetails & Hlisted).
  exists details. split; [done|]. split; [|done].
  intros d. rewrite Hdetails, (elem_of_found (serves station) (bus_detail w)).
  intros (id & bus & Hbus & -> & _). by exists id, bus.
Qed.

Lemma filter_Permutation_bool {A} (p : A → bool) (l l' : list A) :
  l ≡ₚ l' → List.filter p l ≡ₚ List.filter p l'.
Proof.
  induction 1 as [|x l l' _ IH|x y l|l l' l'' _ IH1 _ IH2]; simpl.
  - done.
  - destruct (p x); [by constructor|done].
  - destruct (p x), (p y); try done. apply perm_swap.
  - by etrans.
Qed.

(** The vehicles that [getBusLocations] asks for are those of
    [getStationBuses] that are ACTIVE or INACTIVE. *)
Lemma locations_of_details station w (found : list (ObjectId * Bus.t)) :
  map (λ '(_, bus), bus_location bus)
    (List.filter
       (λ '(_, bus),
          match Bus.route bus with
          | Some r => includes (stations r) station
          | None => false
          end && includes ["ACTIVE"; "INACTIVE"] (Bus.status bus))
       found)
  = map (λ d, bus_location (BusView.bus (BusDetail.view d)))
      (List.filter
         (λ d, includes ["ACTIVE"; "INACTIVE"]
                 (Bus.status (BusView.bus (BusDetail.view d))))
         (map (λ '(id, bus), bus_detail w id bus)
            (List.filter (λ '(_, bus), serves station bus) found))).
Proof.
  simpl. induction found as [|[id bus] l IH]; [done|].
  simpl. unfold serves at 1.
  destruct (Bus.route bus) as [r|]; simpl; [|done].
  destruct (includes (stations r) station); simpl; [|done].
  destruct (String.eqb (Bus.status bus) "ACTIVE"); simpl; [by rewrite IH|].
  destruct (String.eqb (Bus.status bus) "INACTIVE"); simpl; by rewrite ?IH.
Qed.

(** X27. The two station views agree: for a station admin,
    [getBusLocations] lists the vehicles of [getStationBuses] that are
    ACTIVE or INACTIVE, each as the location entry of the same stored
    document and as often.  Neither query is sorted, so the two lists are
    compared up to their order, whatever order the store hands the
    documents out in for either query. *)
Theorem station_locations_of_station_buses (locating : FindOrder) user station w :
  role user = UserRole_STATION_ADMIN →
  stationId user = Some station →
  ∃ details locations,
    fst (getStationBuses (order:=order) (Some user) w)
    = reply_json (BusDetails details)
    ∧ fst (getBusLocations (order:=locating) (Some user) w)
      = res_json (LocationsBody locations)
    ∧ locations
      ≡ₚ map (λ d, bus_location (BusView.bus (BusDetail.view d)))
           (List.filter
              (λ d, includes ["ACTIVE"; "INACTIVE"]
                      (Bus.status (BusView.bus (BusDetail.view d))))
              details).
Proof.
  intros Hrole Hstation.
  destruct (getStationBuses_listed user station w Hrole Hstation)
    as (details & Hrun & Hdetails & _).
  exists details. eexists. split; [by rewrite Hrun|].
  unfold getBusLocations, try_catch, bind, Bus_find_at_station, ret.
  rewrite Hstation. simpl. split; [reflexivity|].
  etrans; [apply Permutation_map, natural_order_perm|].
  etrans; [apply reflexive_eq, (locations_of_details station w)|].
  apply Permutation_map, filter_Permutation_bool. by symmetry.
Qed.

Lemma write_back_status id data w :
  statusCode (fst (write_back id data w)) ≠ 403%Z.
Proof.
  unfold write_back. destruct (buses w !! id) as [bus|]; [|done].
  by destruct (applyUpdate bus data).
Qed.

(** X28. What a station admin is shown is what the admin may update:
    provided the role name of [../models] is "STATION_ADMIN" and the
    admin's station document exists, a stored vehicle is listed by
    [getStationBuses] exactly when [updateBus] on it by the same admin is
    not answered 403. *)
Theorem listing_matches_eligibility req w user station bus :
  UserRole_STATION_ADMIN = "STATION_ADMIN" →
  UpdateRequest.user req = Some user →
  role user = "STATION_ADMIN" →
  stationId user = Some station →
  is_Some (stationDocs w !! station) →
  buses w !! UpdateRequest.id req = Some bus →
  ∃ details,
    fst (getStationBuses (Some user) w) = reply_json (BusDetails details)
    ∧ (bus_detail w (UpdateRequest.id req) bus ∈ details
       ↔ statusCode (fst (updateBus req w)) ≠ 403%Z).
Proof.
  intros Hname Huser Hrole Hstation Hdoc Hbus.
  destruct (getStationBuses_listed user station w) as (details & Hrun & _ & Hlisted);
    [congruence|done|].
  exists details. split; [by rewrite Hrun|]. rewrite Hlisted.
  destruct (updateBus_cases req w)
    as [[? _]
       |(user' & Huser' & [[? _]
       |[_ [[? _]
       |(station' & Hstation' & [[? _]
       |(bus' & Hbus' & [[-> Hoff]|[-> Hon]])])]]])];
    simplify_eq.
  - simpl. split; [|done]. intros [_ (r & Hr & Hin)].
    destruct Hoff. by exists r.
  - split; [intros _; apply write_back_status|]. intros _. split; [done|].
    destruct Hon as (r & Hr & Hin & _). by exists r.
Qed.

(** X29. [calculateRoute] answers 404 "Station not found" exactly when one
    of the two stations is missing; it looks both stations up before it
    decides, and it never writes. *)
Theorem calculateRoute_not_found startStationId endStationId w :
  let run := calculateRoute startStationId endStationId w in
  buses (snd run) = buses w
  ∧ stationDocs (snd run) = stationDocs w
  ∧ log (snd run)
    = log w ++ [StationFindById startStationId; StationFindById endStationId]
  ∧ (fst run = reply_error 404 "Station not found"
     ↔ stationDocs w !! startStationId = None
       ∨ stationDocs w !! endStationId = None).
Proof.
  intros run. subst run.
  unfold calculateRoute, attempt, bind, Station_findById, station_coordinates,
    OSRMService_calculateRoute, ret, throw.
  simpl.
  destruct (stationDocs w !! startStationId) as [[sname [sloc|]]|];
    destruct (stationDocs w !! endStationId) as [[ename [eloc|]]|]; simpl;
    try (destruct (route_response _ _) as [[|first rest]|]; simpl);
    rewrite <- ?app_assoc; simpl;
    (do 3 (split; [done|])); split; try done;
    try (intros [?|?]; done); try (intros _; by (left + right)).
Qed.

(** X30. When both stations exist and carry a location, [calculateRoute]
    asks the OSRM for the route from the start's stored point to the end's,
    each read as [lat = coordinates[1]], [lng = coordinates[0]], and
    answers 200 with the distance, duration and geometry of the first
    route found, unrounded; when the OSRM fails or finds no route the
    answer is 400 "Failed to calculate route". *)
Theorem calculateRoute_summary startStationId endStationId w s e ps pe :
  stationDocs w !! startStationId = Some s →
  stationDocs w !! endStationId = Some e →
  Station.location s = Some ps →
  Station.location e = Some pe →
  let origin := {| lat := snd (coordinates ps); lng := fst (coordinates ps) |} in
  let destination := {| lat := snd (coordinates pe); lng := fst (coordinates pe) |} in
  (∀ first rest,
     route_response origin destination = Done (first :: rest) →
     fst (calculateRoute startStationId endStationId w)
     = reply_json (RouteSummary (OSRMRoute.distance first) (OSRMRoute.duration first)
                     (OSRMRoute.geometry first)))
  ∧ ((route_response origin destination = Done []
      ∨ ∃ err, route_response origin destination = Throw err) →
     fst (calculateRoute startStationId endStationId w)
     = reply_error 400 "Failed to calculate route").
Proof.
  intros Hs He Hps Hpe origin destination. subst origin destination.
  unfold calculateRoute, attempt, bind, Station_findById, station_coordinates,
    OSRMService_calculateRoute, ret, throw.
  simpl. rewrite Hs, He. simpl. rewrite Hps, Hpe. simpl.
  unfold point_latlng. split.
  - intros first rest ->. done.
  - intros [->|[err ->]]; done.
Qed.

End RemainingHandlers.

(** ** The further properties on the worked scenarios *)

Section MoreScenarios.
Import Scenario.

(** An instance: the stored vehicle after the report on the leg after B. *)
Lemma updateBusLocation_keeps_assignment_witness :
  same_assignment (bus_at (Some "stopB"))
    (located_bus 2000%Z leg_report 300 (bus_at (Some "stopB")))
  ∧ nextStationId (located_bus 2000%Z leg_report 300 (bus_at (Some "stopB")))
    = nextStationId (bus_at (Some "stopB")).
Proof.
  apply (@updateBusLocation_keeps_assignment osrm_up lenient_model
           2000%Z leg_report (world (Some "stopB"))).
  - reflexivity.
  - reflexivity.
Defined.

(** An instance: the same report, answered with 5 minutes. *)
Lemma updateBusLocation_stored_estimate_witness :
  ∃ bus' minutes,
    buses (snd leg_run) !! "bus7" = Some bus'
    ∧ TrackingData.eta leg_snapshot = Some minutes
    ∧ Bus.lastUpdateTime bus' = 2000%Z
    ∧ (∀ r, Bus.route bus' = Some r → estimatedTime r = inject_Z minutes).
Proof.
  apply (@updateBusLocation_stored_estimate osrm_up lenient_model
           2000%Z leg_report (world (Some "stopB")) leg_snapshot (snd leg_run)
           "stopC").
  - reflexivity.
  - reflexivity.
Defined.

(** An instance: a vehicle at stop A of a line whose second stop has no
    station document. *)
Lemma updateBusLocation_dangling_next_stop_witness :
  fst (@updateBusLocation osrm_up lenient_model 2000%Z stranded_report broken_world)
  = res_json (TrackingBody (bare_snapshot stranded_report stranded))
  ∧ buses (snd (@updateBusLocation osrm_up lenient_model 2000%Z stranded_report
                  broken_world))
    = buses broken_world
  ∧ log (snd (@updateBusLocation osrm_up lenient_model 2000%Z stranded_report
                broken_world))
    = log broken_world ++ [BusFindById "bus5"; StationFindById "stopX"].
Proof.
  apply (@updateBusLocation_dangling_next_stop osrm_up lenient_model
           2000%Z stranded_report broken_world stranded "stopX").
  - reflexivity.
  - reflexivity.
  - intros st Hst. vm_compute in Hst. discriminate Hst.
Defined.

(** An instance: the report on the leg after B, sent again at time 3000. *)
Lemma updateBusLocation_repeat_witness :
  ∃ again,
    fst leg_rerun = res_json (TrackingBody again)
    ∧ TrackingData.currentStation leg_snapshot = TrackingData.currentStation again
    ∧ TrackingData.nextStation leg_snapshot = TrackingData.nextStation again.
Proof.
  assert (fst leg_rerun = res_json (TrackingBody leg_snapshot)) as Hagain
    by (vm_compute; reflexivity).
  exists leg_snapshot. split; [exact Hagain|].
  destruct (@updateBusLocation_repeat osrm_up lenient_model
              2000%Z 3000%Z leg_report (world (Some "stopB"))
              leg_snapshot leg_snapshot eq_refl Hagain)
    as (Hcurrent & Hnext & _).
  by split.
Defined.

(** An instance: the oracle that answers 300 s and 1500 m. *)
Lemma updateBusLocation_estimates_nonnegative_witness :
  (∀ minutes, TrackingData.eta leg_snapshot = Some minutes → (0 ≤ minutes)%Z)
  ∧ (∀ whole, TrackingData.distanceToNext leg_snapshot = Some whole → (0 ≤ whole)%Z).
Proof.
  apply (@updateBusLocation_estimates_nonnegative osrm_up lenient_model
           2000%Z leg_report (world (Some "stopB"))).
  - intros ? ? ? [= <-]. by vm_compute.
  - intros ? ? ? [= <-]. by vm_compute.
  - reflexivity.
Defined.

(** An instance: a station admin without a station proposes the fields. *)
Lemma updateBus_station_admin_unassigned_witness :
  @updateBus lenient_model (mutation unassigned_admin) (world (Some "stopB"))
  = (station_admin_unassigned, world (Some "stopB"))
  ∧ statusCode station_admin_unassigned = 403%Z
  ∧ station_admin_unassigned ≠ not_authorized.
Proof.
  apply (@updateBus_station_admin_unassigned lenient_model
           (mutation unassigned_admin) (world (Some "stopB")) unassigned_admin).
  - reflexivity.
  - reflexivity.
  - reflexivity.
Defined.


(** An instance: a registration with capacity 0. *)
Lemma createBus_missing_fields_witness :
  @createBus lenient_model iso "bus9" 5%Z no_capacity empty_world
  = (missing_fields, empty_world)
  ∧ statusCode missing_fields = 400%Z.
Proof.
  apply (@createBus_missing_fields lenient_model iso "bus9" 5%Z no_capacity
           empty_world).
  right. right. left. reflexivity.
Defined.

(** An instance: the vehicle registered on the line reports (9, 38). *)
Lemma createBus_then_report_witness :
  let bus := new_bus (dates:=iso) 1000%Z "B-9" "9" 50%Q "dev-9" line_registration in
  first_run
  = (res_json (TrackingBody (bare_snapshot first_report bus)),
     emit (BusFindById "bus9") registered)
  ∧ TrackingData.nextStation (bare_snapshot first_report bus) = None
  ∧ buses (snd first_run) !! "bus9" = Some bus
  ∧ Bus.currentLocation bus = {| coordinates := (0, 0)%Q |}.
Proof.
  apply (@createBus_then_report osrm_up lenient_model iso "bus9" 1000%Z
           line_registration empty_world _ registered 2000%Z first_report).
  - reflexivity.
  - reflexivity.
Defined.

(** An instance: the report on the leg after B, read back with the
    oracle up, so that the tracking answer is the only one left. *)
Lemma reported_estimate_round_trip_witness :
  ∃ info minutes,
    fst (@getBusTrackingInfo osrm_up "bus7" (snd leg_run))
    = res_json (TrackingInfoBody info)
    ∧ TrackingInfo.lastUpdateTime info = 2000%Z
    ∧ TrackingData.eta leg_snapshot = Some minutes
    ∧ (∀ docs estimate, TrackingInfo.route info = Some (docs, estimate)
                        → estimate = inject_Z minutes).
Proof.
  destruct (@reported_estimate_round_trip osrm_up lenient_model
              2000%Z leg_report (world (Some "stopB")) leg_snapshot (snd leg_run)
              "stopC")
    as [(_ & stop & st & loc & e & _ & _ & [Hthrow|Hthrow])|Hinfo].
  - reflexivity.
  - reflexivity.
  - discriminate Hthrow.
  - discriminate Hthrow.
  - exact Hinfo.
Defined.

(** An instance: the vehicle of the line before it reached any stop. *)
Lemma getBusTrackingInfo_without_current_stop_witness :
  ∃ info,
    @getBusTrackingInfo osrm_up "bus7" (world None)
    = (res_json (TrackingInfoBody info), emit (BusFindById "bus7") (world None))
    ∧ TrackingInfo.currentStation info = None
    ∧ TrackingInfo.nextStation info = None
    ∧ TrackingInfo.eta info = None
    ∧ TrackingInfo.distanceToNext info = None
    ∧ TrackingInfo.currentLocation info
      = point_latlng (Bus.currentLocation (bus_at None)).
Proof.
  apply (getBusTrackingInfo_without_current_stop (osrm:=osrm_up) "bus7"
           (world None) (bus_at None)).
  - reflexivity.
  - intros cur Hcur. discriminate Hcur.
Defined.

(** An instance: the admin of stop A asks for the locations of the fleet. *)
Lemma getBusLocations_sound_witness :
  ∃ locations,
    @getBusLocations insertion_order (Some (station_admin "stopA")) fleet
    = (res_json (LocationsBody locations), emit (BusFind "stopA") fleet)
    ∧ ∀ entry, entry ∈ locations →
        ∃ id bus r,
          buses fleet !! id = Some bus
          ∧ entry = bus_location bus
          ∧ Bus.route bus = Some r ∧ "stopA" ∈ stations r
          ∧ Bus.status bus ∈ ["ACTIVE"; "INACTIVE"]
          ∧ BusLocation.status entry ∈ ["active"; "inactive"]
          ∧ BusLocation.location entry = point_latlng (Bus.currentLocation bus).
Proof.
  apply (getBusLocations_sound (order:=insertion_order)
           (station_admin "stopA") "stopA" fleet).
  reflexivity.
Defined.

(** An instance: the vehicle of the line is deleted. *)
Lemma deleteBus_then_not_found_witness :
  let gone := snd (deleteBus "bus7" (world (Some "stopB"))) in
  fst (@updateBusLocation osrm_up lenient_model 2000%Z leg_report gone) = bus_not_found
  ∧ fst (@getBusTrackingInfo osrm_up "bus7" gone) = bus_not_found
  ∧ fst (@getBusById drivers "bus7" gone) = reply_error 404 "Bus not found"
  ∧ fst (assignDriver "bus7" "driver1" gone) = reply_error 404 "Bus not found"
  ∧ fst (deleteBus "bus7" gone) = reply_error 404 "Bus not found".
Proof.
  apply (deleteBus_then_not_found (osrm:=osrm_up) (model:=lenient_model)
           (directory:=drivers) "bus7" (world (Some "stopB")) 2000%Z leg_report
           "driver1").
  reflexivity.
Defined.

(** An instance: the vehicle registered on the line is looked up. *)
Lemma createBus_then_getBusById_witness :
  ∃ detail,
    @getBusById drivers "bus9" registered
    = (reply_json (OneBus detail), emit (BusFindById "bus9") registered)
    ∧ BusView.id (BusDetail.view detail) = "bus9"
    ∧ BusView.bus (BusDetail.view detail)
      = new_bus (dates:=iso) 1000%Z "B-9" "9" 50%Q "dev-9" line_registration
    ∧ BusView.driver (BusDetail.view detail) = None
    ∧ BusView.currentStation (BusDetail.view detail) = None.
Proof.
  apply (createBus_then_getBusById (model:=lenient_model) (dates:=iso)
           (directory:=drivers) "bus9" 1000%Z line_registration empty_world).
  reflexivity.
Defined.

(** An instance: the admin of stop B looks at the fleet. *)
Lemma getStationBuses_listing_witness :
  ∃ details,
    @getStationBuses drivers role_names plain_messages insertion_order
      (Some (station_admin "stopB")) fleet
    = (reply_json (BusDetails details), fleet)
    ∧ (∀ d, d ∈ details
            → ∃ id bus, buses fleet !! id = Some bus
                        ∧ d = @bus_detail drivers fleet id bus)
    ∧ (∀ id bus, @bus_detail drivers fleet id bus ∈ details
                 ↔ buses fleet !! id = Some bus
                   ∧ ∃ r, Bus.route bus = Some r ∧ "stopB" ∈ stations r).
Proof.
  apply (getStationBuses_listing (directory:=drivers) (roles:=role_names)
           (messages:=plain_messages) (order:=insertion_order)
           (station_admin "stopB") "stopB" fleet).
  - reflexivity.
  - reflexivity.
Defined.

Lemma station_locations_of_station_buses_witness :
  ∃ details locations,
    fst (@getStationBuses drivers role_names plain_messages insertion_order
           (Some (station_admin "stopB")) full_fleet)
    = reply_json (BusDetails details)
    ∧ fst (@getBusLocations reverse_order (Some (station_admin "stopB")) full_fleet)
      = res_json (LocationsBody locations)
    ∧ locations
      ≡ₚ map (λ d, bus_location (BusView.bus (BusDetail.view d)))
           (List.filter
              (λ d, includes ["ACTIVE"; "INACTIVE"]
                      (Bus.status (BusView.bus (BusDetail.view d))))
              details).
Proof.
  apply (station_locations_of_station_buses (directory:=drivers)
           (roles:=role_names) (messages:=plain_messages)
           (order:=insertion_order) reverse_order
           (station_admin "stopB") "stopB" full_fleet).
  - reflexivity.
  - reflexivity.
Defined.

(** The fleet has two vehicles on the line and one of them, out of
    service, has no location entry. *)
Lemma fleet_views :
  (∃ d1 d2, fst (@getStationBuses drivers role_names plain_messages insertion_order
                   (Some (station_admin "stopB")) fleet)
            = reply_json (BusDetails [d1; d2]))
  ∧ ∃ entry, fst (@getBusLocations insertion_order
                    (Some (station_admin "stopB")) fleet)
             = res_json (LocationsBody [entry])
             ∧ BusLocation.deviceId entry = "dev-7".
Proof.
  split.
  - eexists _, _. vm_compute. reflexivity.
  - eexists. split; [vm_compute; reflexivity|reflexivity].
Qed.

(** The order is the store's: of the three vehicles of the full fleet two
    have a location entry, and a store that hands the documents out in
    the opposite order answers the two entries in the opposite order. *)
Lemma full_fleet_locations_by_order :
  ∃ first second,
    first ≠ second
    ∧ fst (@getBusLocations insertion_order (Some (station_admin "stopB")) full_fleet)
      = res_json (LocationsBody [first; second])
    ∧ fst (@getBusLocations reverse_order (Some (station_admin "stopB")) full_fleet)
      = res_json (LocationsBody [second; first]).
Proof.
  eexists _, _. split; [|split; vm_compute; reflexivity].
  vm_compute. discriminate.
Qed.

(** An instance: the admin of stop B and the vehicle of the line. *)
Lemma listing_matches_eligibility_witness :
  ∃ details,
    fst (@getStationBuses drivers role_names plain_messages insertion_order
           (Some (station_admin "stopB")) (world (Some "stopB")))
    = reply_json (BusDetails details)
    ∧ (@bus_detail drivers (world (Some "stopB")) "bus7" (bus_at (Some "stopB"))
         ∈ details
       ↔ statusCode (fst (@updateBus lenient_model (mutation (station_admin "stopB"))
                            (world (Some "stopB")))) ≠ 403%Z).
Proof.
  apply (listing_matches_eligibility (model:=lenient_model) (directory:=drivers)
           (roles:=role_names) (messages:=plain_messages) (order:=insertion_order)
           (mutation (station_admin "stopB")) (world (Some "stopB"))
           (station_admin "stopB") "stopB" (bus_at (Some "stopB"))).
  - reflexivity.
  - reflexivity.
  - reflexivity.
  - reflexivity.
  - eexists. reflexivity.
  - reflexivity.
Defined.

(** An instance: the route from stop A to stop C. *)
Lemma calculateRoute_summary_witness :
  fst (@calculateRoute one_route "stopA" "stopC" empty_world)
  = reply_json (RouteSummary 2400 (841 # 2) (JStr "polyline")).
Proof.
  destruct (calculateRoute_summary (routing:=one_route) "stopA" "stopC" empty_world
              (stop "A" 0 0) (stop "C" 0 2)
              {| coordinates := (0, 0)%Q |} {| coordinates := (2, 0)%Q |}
              eq_refl eq_refl eq_refl eq_refl) as [Hfound _].
  exact (Hfound _ [] eq_refl).
Defined.

End MoreScenarios.
